(** * Territory zone aggregation and clipping pipeline

    A shallow embedding of the data pipeline of the EMG field-ops scripts:

    - [build_full_territory_map.py]  (fetch, aggregate, eligibility filter),
    - [build_vipr_complete_map.py]   (fetch, aggregate),
    - [filter_zones_dominion.py]     (CRS alignment, clipping, JSON clean-up),
    - [canvassing_map_builder.py]    (the same eligibility filter expression).

    The scripts are Python over pandas / geopandas.  A [GeoDataFrame] is a
    table: an ordered list of rows, every row carrying attribute cells and
    one geometry, a dtype per attribute column and an optional CRS tag.
    The geometry engine (shapely, pyproj) is an interface, [Geometry]; the
    pipeline is proved correct for every implementation of it, and a small
    raster implementation is used to run the pipeline on concrete data.

    Python code that prints and may raise is written in the monad [Run]:
    a run yields the lines it printed and either an uncaught exception or a
    value. *)

From stdpp Require Import base option list strings gmap fin_maps pretty sorting.
From Stdlib Require Import ZArith NArith Lia.

#[local] Open Scope string_scope.
#[local] Open Scope list_scope.

(* ================================================================= *)
(** ** Exceptions, log lines and the [Run] monad *)

(** Coordinate reference systems are identified by their EPSG code;
    pyproj compares CRS objects and CRS strings by what they denote. *)
Definition CRS : Type := N.
Definition EPSG_4326 : CRS := 4326%N.

(** The Python exceptions the modelled library calls raise. *)
Inductive Exn : Type :=
| ConnectionError        (* requests.get: network failure or timeout *)
| JSONDecodeError        (* resp.json() on a body that is not JSON *)
| AttributeError         (* data.get on a JSON value that is no object *)
| MalformedFeature       (* from_features on a feature without geometry/properties *)
| KeyError (col : string)
| ValueError
| NotImplementedError.   (* overlay: mixed geometry types *)

(** The lines the modelled steps print, one constructor per [print] call.
    Banner and separator lines, the lines printed while files are read or
    written, and the closing recap of filter_zones_dominion.py and
    build_full_territory_map.py (counts already printed) are left out. *)
Inductive Event : Type :=
(* filter_zones_dominion.py *)
| WarnNoCRS (name : string)
| Reprojecting (name : string) (src : option CRS) (dst : CRS)
| Clipped (name : string) (before after : nat)
| ErrorClipping (name : string) (e : Exn)
| ErrorNoBoundary
(* build_full_territory_map.py, build_vipr_complete_map.py *)
| FetchError (e : Exn)
| TargetZones (n : nat)
| CountiesToFetch (n : nat)
| FetchingCounty (code : string)
| GotTracts (n : nat)
| FetchingNamed (county_name county_fips : string)
| UnitTracts (n : nat)
| UnitFailed
| ErrorNoTractData
| TotalFetched (n : nat)
| QualifyingZones (n : nat)
| TotalZones (n : nat)
| RegionZones (region : string) (n : nat).

Record Run (A : Type) : Type := MkRun {
  printed : list Event;
  outcome : Exn + A
}.
Arguments MkRun {A} _ _.
Arguments printed {A} _.
Arguments outcome {A} _.

#[global] Instance Run_ret : MRet Run := λ A x, MkRun [] (inr x).
#[global] Instance Run_bind : MBind Run := λ A B f m,
  match outcome m with
  | inl e => MkRun (printed m) (inl e)
  | inr a => MkRun (printed m ++ printed (f a)) (outcome (f a))
  end.

Definition print (ev : Event) : Run unit := MkRun [ev] (inr tt).

(** A library call that returns or raises. *)
Definition call {A} (r : Exn + A) : Run A := MkRun [] r.

(** [try: body except Exception as e: handler e]. *)
Definition try_except {A} (body : Run A) (handler : Exn → Run A) : Run A :=
  match outcome body with
  | inl e => MkRun (printed body ++ printed (handler e)) (outcome (handler e))
  | inr a => body
  end.

(* ================================================================= *)
(** ** Geometry engine *)

(** The families of geometry types overlay distinguishes (Polygon and
    MultiPolygon; LineString and friends; Point and MultiPoint).  Geometry
    collections and missing geometries are outside the model. *)
Inductive GeomType : Type := Polygonal | Lineal | Puntal.

#[global] Instance GeomType_eq_dec : EqDecision GeomType.
Proof. solve_decision. Defined.

(** What the pipeline asks of shapely and pyproj.  Geometries are valid
    (make_valid leaves them as they are). *)
Class Geometry (G : Type) : Type := {
  geom_type : G → GeomType;
  is_empty : G → bool;
  intersection : G → G → G;
  (** [transform src dst g]: the coordinates of [g] taken from CRS [src]
      to CRS [dst]. *)
  transform : CRS → CRS → G → G
}.

(** shapely's [intersects] predicate: the two geometries share a point. *)
Definition intersects `{Geometry G} (a b : G) : bool :=
  negb (is_empty (intersection a b)).

(** [a] lies within [b]: intersecting with [b] takes nothing away. *)
Definition within `{Geometry G} (a b : G) : Prop := intersection a b = a.

(* ================================================================= *)
(** ** Tables: the pandas and geopandas operations the scripts call *)

Inductive dtype : Type := DObject | DInt64 | DFloat64 | DDatetime64.

#[global] Instance dtype_eq_dec : EqDecision dtype.
Proof. solve_decision. Defined.

(** A cell.  [VNull] is a missing value (None, NaN, NaT). *)
Inductive Value : Type :=
| VStr (s : string)
| VInt (z : Z)
| VTimestamp (ns : Z)
| VNull.

#[global] Instance Value_eq_dec : EqDecision Value.
Proof. solve_decision. Defined.

(** How pandas prints a timestamp ([astype(str)]); the format is the
    library's. *)
Class TimestampFormat : Type := timestamp_str : Z → string.

(** A row: the attribute cells by column name, and the geometry cell.  A
    column the row has no cell for reads as missing. *)
Record Row (G : Type) : Type := MkRow {
  attrs : gmap string Value;
  geometry : G
}.
Arguments MkRow {G} _ _.
Arguments attrs {G} _.
Arguments geometry {G} _.

(** A GeoDataFrame whose active geometry column is called 'geometry'.
    [dtypes] lists the attribute columns in order with their dtype. *)
Record GeoDataFrame (G : Type) : Type := MkFrame {
  dtypes : list (string * dtype);
  rows : list (Row G);
  crs : option CRS
}.
Arguments MkFrame {G} _ _ _.
Arguments dtypes {G} _.
Arguments rows {G} _.
Arguments crs {G} _.

(** [boundary[['geometry']]]: a frame reduced to its geometry column. *)
Record GeometryFrame (G : Type) : Type := MkGeometryFrame {
  geoms : list G;
  geoms_crs : option CRS
}.
Arguments MkGeometryFrame {G} _ _.
Arguments geoms {G} _.
Arguments geoms_crs {G} _.

(** What the feature service can answer.  A feature of the payload is
    either well formed (a properties object and a geometry) or not. *)
Inductive FeatureJSON (G : Type) : Type :=
| BadFeature
| Feature (properties : gmap string Value) (geom : G).
Arguments BadFeature {G}.
Arguments Feature {G} _ _.

Inductive Body (G : Type) : Type :=
| NotJSON                                          (* resp.json() raises *)
| JSONNotObject                                    (* a JSON array, string, number *)
| JSONObject (features : option (list (FeatureJSON G))).
                                                   (* None: no 'features' key, or null *)
Arguments NotJSON {G}.
Arguments JSONNotObject {G}.
Arguments JSONObject {G} _.

Inductive Response (G : Type) : Type :=
| NoResponse                                       (* requests.get raises *)
| HTTP (status_code : Z) (body : Body G).
Arguments NoResponse {G}.
Arguments HTTP {G} _ _.

(** The remote service, by state and county code of the query. *)
Definition Network (G : Type) : Type := string → string → Response G.

Section Tables.
Context {G : Type} `{!Geometry G}.

(** [gdf.columns] *)
Definition columns (gdf : GeoDataFrame G) : list string :=
  (dtypes gdf).*1 ++ ["geometry"].

(** [len(gdf)] *)
Definition len (gdf : GeoDataFrame G) : nat := length (rows gdf).

(** [gdf[col].dtype] of an attribute column. *)
Fixpoint lookup_dtype (col : string) (ds : list (string * dtype)) : option dtype :=
  match ds with
  | [] => None
  | (c, d) :: ds' => if decide (c = col) then Some d else lookup_dtype col ds'
  end.

Definition set_dtype (col : string) (d : dtype) (ds : list (string * dtype))
  : list (string * dtype) :=
  map (λ cd, if decide (cd.1 = col) then (cd.1, d) else cd) ds.

Definition with_geometry (f : G → G) (r : Row G) : Row G :=
  MkRow (attrs r) (f (geometry r)).

(** [gdf.set_crs(c)]: tags a frame; refuses to replace a different tag. *)
Definition set_crs (gdf : GeoDataFrame G) (c : CRS) : Exn + GeoDataFrame G :=
  match crs gdf with
  | None => inr (MkFrame (dtypes gdf) (rows gdf) (Some c))
  | Some c0 => if decide (c0 = c) then inr gdf else inl ValueError
  end.

(** [gdf.to_crs(c)]: reprojects every geometry; a frame without CRS cannot
    be reprojected. *)
Definition to_crs (gdf : GeoDataFrame G) (c : CRS) : Exn + GeoDataFrame G :=
  match crs gdf with
  | None => inl ValueError
  | Some c0 =>
      if decide (c0 = c) then inr gdf
      else inr (MkFrame (dtypes gdf)
                        (map (with_geometry (transform c0 c)) (rows gdf))
                        (Some c))
  end.

(** [gdf[col] = gdf[col].astype(str)] *)
Definition astype_str `{!TimestampFormat} (v : Value) : Value :=
  match v with
  | VTimestamp ns => VStr (timestamp_str ns)
  | VNull => VStr "NaT"
  | VStr s => VStr s
  | VInt z => VStr (pretty z)
  end.

Definition column_astype_str `{!TimestampFormat} (col : string) (gdf : GeoDataFrame G)
  : GeoDataFrame G :=
  MkFrame (set_dtype col DObject (dtypes gdf))
          (map (λ r, MkRow (alter astype_str col (attrs r)) (geometry r)) (rows gdf))
          (crs gdf).

(** [pd.api.types.is_datetime64_any_dtype(gdf[col])] *)
Definition is_datetime64_any_dtype (d : option dtype) : bool :=
  bool_decide (d = Some DDatetime64).

(** [gdf[col] = value]: a column holding one string in every row. *)
Definition setitem_str (col : string) (s : string) (gdf : GeoDataFrame G)
  : GeoDataFrame G :=
  MkFrame (if decide (col ∈ (dtypes gdf).*1)
           then set_dtype col DObject (dtypes gdf)
           else dtypes gdf ++ [(col, DObject)])
          (map (λ r, MkRow (<[col := VStr s]> (attrs r)) (geometry r)) (rows gdf))
          (crs gdf).

(** [boundary[['geometry']]] *)
Definition getitem_geometry (boundary : GeoDataFrame G) : GeometryFrame G :=
  MkGeometryFrame (map geometry (rows boundary)) (crs boundary).

(** *** Intersection overlay *)

Definition has_geom_type (t : GeomType) (gs : list G) : bool :=
  existsb (λ g, bool_decide (geom_type g = t)) gs.

(** overlay refuses a frame that holds more than one family of geometry
    types. *)
Definition mixed_geometry_types (gs : list G) : bool :=
  let n := length (List.filter (λ t, has_geom_type t gs) [Polygonal; Lineal; Puntal]) in
  bool_decide (1 < n).

(** One pair of the spatial join behind the intersection overlay: the left
    row with its geometry cut down to the right geometry, when the two
    intersect. *)
Definition overlay_pair (r : Row G) (b : G) : list (Row G) :=
  if intersects (geometry r) b
  then [MkRow (attrs r) (intersection (geometry r) b)]
  else [].

(** keep_geom_type (overlay's default): only results of the family of the
    left frame's first geometry stay, so that polygons which merely touch
    the boundary (a line or point in common) are dropped. *)
Definition keep_geom_type (df1 : list (Row G)) (result : list (Row G)) : list (Row G) :=
  match df1 with
  | [] => result
  | r0 :: _ =>
      List.filter (λ r, bool_decide (geom_type (geometry r) = geom_type (geometry r0)))
                  result
  end.

(** [gpd.overlay(df1, df2, how='intersection')] for a right frame without
    attribute columns.  On a CRS mismatch between the two frames geopandas
    emits a warning and goes on: the CRS tags play no part in the result,
    which carries the left frame's tag. *)
Definition overlay_intersection (df1 : GeoDataFrame G) (df2 : GeometryFrame G)
  : Exn + GeoDataFrame G :=
  if mixed_geometry_types (map geometry (rows df1)) || mixed_geometry_types (geoms df2)
  then inl NotImplementedError
  else inr (MkFrame (dtypes df1)
                    (keep_geom_type (rows df1)
                       (flat_map (λ r, flat_map (overlay_pair r) (geoms df2)) (rows df1)))
                    (crs df1)).

(** *** Reading the service's answer *)

Definition requests_get (resp : Response G) : Exn + (Z * Body G) :=
  match resp with
  | NoResponse => inl ConnectionError
  | HTTP status body => inr (status, body)
  end.

(** [resp.json()] *)
Definition resp_json (body : Body G) : Exn + Body G :=
  match body with
  | NotJSON => inl JSONDecodeError
  | data => inr data
  end.

(** [data.get('features')] *)
Definition data_get_features (data : Body G) : Exn + option (list (FeatureJSON G)) :=
  match data with
  | JSONObject features => inr features
  | _ => inl AttributeError
  end.

(** Python truthiness of [data.get('features')]. *)
Definition truthy (features : option (list (FeatureJSON G))) : bool :=
  match features with
  | Some (_ :: _) => true
  | _ => false
  end.

Fixpoint feature_rows (fs : list (FeatureJSON G)) : Exn + list (Row G) :=
  match fs with
  | [] => inr []
  | BadFeature :: _ => inl MalformedFeature
  | Feature props g :: fs' =>
      match feature_rows fs' with
      | inl e => inl e
      | inr rs => inr (MkRow props g :: rs)
      end
  end.

(** The dtype pandas infers for a column built from Python values. *)
Definition infer_dtype (cells : list (option Value)) : dtype :=
  if forallb (λ c, match c with Some (VInt _) => true | _ => false end) cells
  then DInt64
  else if forallb (λ c, match c with
                        | Some (VInt _) | Some VNull | None => true
                        | _ => false
                        end) cells
       then DFloat64
       else DObject.

Definition infer_dtypes (rs : list (Row G)) : list (string * dtype) :=
  map (λ col, (col, infer_dtype (map (λ r, attrs r !! col) rs)))
      (remove_dups (flat_map (λ r, (map_to_list (attrs r)).*1) rs)).

(** [gpd.GeoDataFrame.from_features(features, crs=c)] *)
Definition from_features (fs : list (FeatureJSON G)) (c : CRS) : Exn + GeoDataFrame G :=
  match feature_rows fs with
  | inl e => inl e
  | inr rs => inr (MkFrame (infer_dtypes rs) rs (Some c))
  end.

(** *** Concatenation *)

(** The CRS of a concatenation: the one CRS the inputs declare; inputs
    that declare different ones cannot be concatenated. *)
Definition common_crs (cs : list (option CRS)) : Exn + option CRS :=
  match remove_dups (omap id cs) with
  | [] => inr None
  | [c] => inr (Some c)
  | _ => inl ValueError
  end.

(** The dtype of a column of the concatenation. *)
Definition concat_dtype (frames : list (GeoDataFrame G)) (col : string) : dtype :=
  let ds := map (λ f, lookup_dtype col (dtypes f)) frames in
  match remove_dups (omap id ds) with
  | [DInt64] => if bool_decide (None ∈ ds) then DFloat64 else DInt64
  | [d] => d
  | [DInt64; DFloat64] | [DFloat64; DInt64] => DFloat64
  | _ => DObject
  end.

(** [pd.concat(frames, ignore_index=True)]: the rows of the frames, one
    frame after the other, over the union of their columns. *)
Definition pd_concat (frames : list (GeoDataFrame G)) : Exn + GeoDataFrame G :=
  match frames with
  | [] => inl ValueError
  | _ =>
      match common_crs (map crs frames) with
      | inl e => inl e
      | inr c =>
          inr (MkFrame (map (λ col, (col, concat_dtype frames col))
                            (remove_dups (flat_map (λ f, (dtypes f).*1) frames)))
                       (flat_map rows frames)
                       c)
      end
  end.

(** [gpd.GeoDataFrame(df, geometry='geometry', crs=c)] *)
Definition GeoDataFrame_new (df : GeoDataFrame G) (c : CRS) : Exn + GeoDataFrame G :=
  set_crs df c.

(** *** Selection by membership *)

(** One cell of [gdf[col].isin(values)]: equality with a listed string. *)
Definition isin (cell : option Value) (values : list string) : bool :=
  match cell with
  | Some (VStr s) => bool_decide (s ∈ values)
  | _ => false
  end.

(** [gdf[gdf[col].isin(values)]] *)
Definition getitem_isin (gdf : GeoDataFrame G) (col : string) (values : list string)
  : Exn + GeoDataFrame G :=
  if decide (col ∈ (dtypes gdf).*1)
  then inr (MkFrame (dtypes gdf)
                    (List.filter (λ r, isin (attrs r !! col) values) (rows gdf))
                    (crs gdf))
  else inl (KeyError col).

End Tables.

(** [sorted(...)] on strings and on (key, value) pairs of strings.  Python
    orders strings by code point, which is the byte order of their UTF-8
    form. *)
Definition str_le (a b : string) : Prop := String.leb a b.
Definition item_le (a b : string * string) : Prop :=
  if decide (a.1 = b.1) then str_le a.2 b.2 else str_le a.1 b.1.

#[global] Instance str_le_dec a b : Decision (str_le a b).
Proof. unfold str_le. apply _. Defined.
#[global] Instance item_le_dec a b : Decision (item_le a b).
Proof. unfold item_le. destruct (decide (a.1 = b.1)); apply _. Defined.


(* ================================================================= *)
(** ** filter_zones_dominion.py *)

Module filter_zones_dominion.
Section Script.
Context {G : Type} `{!Geometry G} `{!TimestampFormat}.

(** The body of the loop of [prepare_for_json], for one column. *)
Definition prepare_column (gdf : GeoDataFrame G) (col : string) : GeoDataFrame G :=
  if decide (col = "geometry") then gdf
  else if is_datetime64_any_dtype (lookup_dtype col (dtypes gdf))
       then column_astype_str col gdf
       else gdf.

(** [prepare_for_json(gdf)]; the functions of the same name in the other
    scripts have the same body. *)
Definition prepare_for_json (gdf : option (GeoDataFrame G)) : option (GeoDataFrame G) :=
  match gdf with
  | None => None
  | Some gdf => Some (foldl prepare_column gdf (columns gdf))
  end.

(** [ensure_same_crs(gdf, target_crs, name)] *)
Definition ensure_same_crs (gdf : option (GeoDataFrame G)) (target_crs : CRS)
    (name : string) : Run (option (GeoDataFrame G)) :=
  match gdf with
  | None => mret None
  | Some gdf =>
      gdf ← (match crs gdf with
             | None => print (WarnNoCRS name);; call (set_crs gdf EPSG_4326)
             | Some _ => mret gdf
             end);
      gdf ← (if decide (crs gdf ≠ Some target_crs)
             then print (Reprojecting name (crs gdf) target_crs);;
                  call (to_crs gdf target_crs)
             else mret gdf);
      mret (Some gdf)
  end.

(** [clip_to_boundary(gdf, boundary, name)] *)
Definition clip_to_boundary (gdf boundary : option (GeoDataFrame G)) (name : string)
  : Run (option (GeoDataFrame G)) :=
  match gdf, boundary with
  | Some gdf, Some boundary =>
      try_except
        (clipped ← call (overlay_intersection gdf (getitem_geometry boundary));
         print (Clipped name (len gdf) (len clipped));;
         mret (Some clipped))
        (λ e, print (ErrorClipping name e);; mret None)
  | _, _ => mret None
  end.

(** The layers [main] hands to [create_map]. *)
Record Layers : Type := MkLayers {
  utility_gdf : GeoDataFrame G;
  oz_clipped : option (GeoDataFrame G);
  qct_clipped : option (GeoDataFrame G);
  streets_gdf : option (GeoDataFrame G)
}.

(** [main()], from the four loaded files (step 1, [load_geojson], gives
    [None] for a file it cannot read) to the layers of step 4; [None] when
    the run stops for want of a boundary. *)
Definition main (utility oz_gdf qct_gdf streets : option (GeoDataFrame G))
  : Run (option Layers) :=
  match utility with
  | None => print ErrorNoBoundary;; mret None
  | Some utility =>
      let target_crs := match crs utility with Some c => c | None => EPSG_4326 end in
      oz_gdf ← ensure_same_crs oz_gdf target_crs "Opportunity Zones";
      qct_gdf ← ensure_same_crs qct_gdf target_crs "QCT Zones";
      streets ← ensure_same_crs streets target_crs "Streets";
      oz ← clip_to_boundary oz_gdf (Some utility) "Opportunity Zones";
      qct ← clip_to_boundary qct_gdf (Some utility) "QCT Zones";
      mret (Some (MkLayers utility oz qct streets))
  end.

End Script.
End filter_zones_dominion.

(* ================================================================= *)
(** ** build_full_territory_map.py *)

Module build_full_territory_map.

(** [get_virginia_qct_geoids()] *)
Definition get_virginia_qct_geoids : list string :=
  [
   "51760000101"; "51760000102"; "51760000201"; "51760000202";
   "51760000300"; "51760000401"; "51760000402"; "51760000500";
   "51760000600"; "51760000700"; "51760000800"; "51760000900";
   "51760001000"; "51760001101"; "51760001102"; "51760001200";
   "51760020100"; "51760020200"; "51760020300"; "51760020400";
   "51760020500"; "51760020600"; "51760020700"; "51760020800";
   "51760020900"; "51760021000"; "51760021100"; "51760021200";
   "51760030100"; "51760030200"; "51760030300"; "51760030400";
   "51760030500"; "51760030600"; "51760030700"; "51760030800";
   "51760040100"; "51760040200"; "51760040300"; "51760040400";
   "51760040500"; "51760040600"; "51760040700"; "51760040800";
   "51760050100"; "51760050200"; "51760050300"; "51760050400";
   "51760050500"; "51760050600"; "51760050700"; "51760050800";
   "51760060100"; "51760060200"; "51760060300"; "51760060400";
   "51710000100"; "51710000200"; "51710000300"; "51710000400";
   "51710000500"; "51710000600"; "51710000700"; "51710000800";
   "51710000900"; "51710001000"; "51710001100"; "51710001200";
   "51710001300"; "51710001400"; "51710001500"; "51710001600";
   "51710001700"; "51710001800"; "51710001900"; "51710002000";
   "51710002100"; "51710002200"; "51710002300"; "51710002400";
   "51710002500"; "51710002600"; "51710002700"; "51710002800";
   "51710002900"; "51710003000"; "51710003100"; "51710003200";
   "51710003300"; "51710003400"; "51710003500"; "51710003600";
   "51710003700"; "51710003800"; "51710003900"; "51710004000";
   "51710004100"; "51710004200"; "51710004300"; "51710004400";
   "51710004500"; "51710004600"; "51710004700"; "51710004800";
   "51810040100"; "51810040200"; "51810040300"; "51810040400";
   "51810040500"; "51810040600"; "51810040700"; "51810040800";
   "51810040900"; "51810041000"; "51810041100"; "51810041200";
   "51810041300"; "51810041400"; "51810041500"; "51810041600";
   "51810042100"; "51810042200"; "51810042300"; "51810042400";
   "51810042500"; "51810042600"; "51810044400"; "51810044500";
   "51550020100"; "51550020200"; "51550020300"; "51550020400";
   "51550020500"; "51550020600"; "51550020700"; "51550020800";
   "51550020900"; "51550021000"; "51550021100"; "51550021200";
   "51550021300"; "51550021400"; "51550021500"; "51550021600";
   "51550021700"; "51550021800"; "51550021900"; "51550022000";
   "51740200100"; "51740200200"; "51740200300"; "51740200400";
   "51740200500"; "51740200600"; "51740200700"; "51740200800";
   "51740200900"; "51740201000"; "51740201100"; "51740201200";
   "51740201300"; "51740201400"; "51740201500"; "51740201600";
   "51650010100"; "51650010200"; "51650010300"; "51650010400";
   "51650010500"; "51650010600"; "51650010700"; "51650010800";
   "51650010900"; "51650011000"; "51650011100"; "51650011200";
   "51650011300"; "51650011400"; "51650011500"; "51650011600";
   "51650011700"; "51650011800"; "51650011900"; "51650012000";
   "51700030100"; "51700030200"; "51700030300"; "51700030400";
   "51700030500"; "51700030600"; "51700030700"; "51700030800";
   "51700030900"; "51700031000"; "51700031100"; "51700031200";
   "51700031300"; "51700031400"; "51700031500"; "51700031600";
   "51700031700"; "51700031800"; "51700031900"; "51700032000";
   "51730810100"; "51730810200"; "51730810300"; "51730810400";
   "51730810500"; "51730810600"; "51730810700"; "51730810800";
   "51087200101"; "51087200102"; "51087200200"; "51087200300";
   "51087200400"; "51087200500"; "51087200600"; "51087200700";
   "51087200800"; "51087200900"; "51087201000"; "51087201100";
   "51087201200"; "51087201300"; "51087201400"; "51087201500";
   "51087201600"; "51087201700"; "51087201800"; "51087201900";
   "51087202000"; "51087202100"; "51087202200"; "51087202300";
   "51041100100"; "51041100200"; "51041100300"; "51041100400";
   "51041100500"; "51041100600"; "51041100700"; "51041100800";
   "51041100900"; "51041101000"; "51041101100"; "51041101200";
   "51800830100"; "51800830200"; "51800830300"; "51800830400";
   "51800830500"; "51800830600"; "51800830700"; "51800830800";
   "51590000100"; "51590000200"; "51590000300"; "51590000400";
   "51590000500"; "51590000600"; "51590000700"; "51590000800";
   "51590000900"; "51590001000"; "51590001100"; "51590001200";
   "51680000100"; "51680000200"; "51680000300"; "51680000400";
   "51680000500"; "51680000600"; "51680000700"; "51680000800";
   "51680000900"; "51680001000"; "51680001100"; "51680001200";
   "51670800100"; "51670800200"; "51670800300"; "51670800400";
   "51570800100"; "51570800200"; "51570800300"; "51510200100";
   "51510200200"; "51510200300"; "51510200400"; "51510200500";
   "51510200600"; "51510200700"; "51510200800"; "51013100100";
   "51013100200"; "51013100300"; "51013100400"; "51059410100";
   "51059410200"; "51059410300"; "51059410400"; "51059420100";
   "51059420200"; "51059420300"; "51059420400"; "51059430100";
   "51059430200"; "51059430300"; "51059430400"; "51540000100";
   "51540000200"; "51540000300"; "51540000400"; "51540000500";
   "51540000600"; "51540000700"; "51540000800"
  ].

Section Script.
Context {G : Type} `{!Geometry G}.

(** [fetch_tracts_for_county(state_fips, county_fips)].  Inside the [try]
    block [Some] is the frame of the [return]; [None] is control leaving
    the block towards the final [return None]. *)
Definition fetch_tracts_for_county (net : Network G) (state_fips county_fips : string)
  : Run (option (GeoDataFrame G)) :=
  try_except
    (resp ← call (requests_get (net state_fips county_fips));
     if decide (resp.1 = 200%Z) then
       data ← call (resp_json resp.2);
       features ← call (data_get_features data);
       if truthy features then
         gdf ← call (from_features (default [] features) EPSG_4326);
         mret (Some gdf)
       else mret None
     else mret None)
    (λ e, print (FetchError e);; mret None).

(** [sorted(county_codes)], the set of the [geoid[2:5]]. *)
Definition county_codes (qct_geoids : list string) : list string :=
  merge_sort str_le (remove_dups (map (String.substring 2 3) qct_geoids)).

(** The loop of [main] over the counties. *)
Fixpoint fetch_loop (net : Network G) (codes : list string)
    (all_tracts : list (GeoDataFrame G)) : Run (list (GeoDataFrame G)) :=
  match codes with
  | [] => mret all_tracts
  | county_code :: codes' =>
      print (FetchingCounty county_code);;
      tracts ← fetch_tracts_for_county net "51" county_code;
      all_tracts ← (match tracts with
                    | Some tracts =>
                        if decide (0 < len tracts)
                        then print (GotTracts (len tracts));;
                             mret (all_tracts ++ [tracts])
                        else mret all_tracts
                    | None => mret all_tracts
                    end);
      fetch_loop net codes' all_tracts
  end.

(** [main()] for a given eligibility list, up to the frame [lmi_zones] it
    writes out and draws; [None] when the run stops for want of data. *)
Definition main_for (qct_geoids : list string) (net : Network G)
  : Run (option (GeoDataFrame G)) :=
  print (TargetZones (length qct_geoids));;
  let codes := county_codes qct_geoids in
  print (CountiesToFetch (length codes));;
  all_tracts ← fetch_loop net codes [];
  match all_tracts with
  | [] => print ErrorNoTractData;; mret None
  | _ =>
      all_tracts_gdf ← call (pd_concat all_tracts);
      all_tracts_gdf ← call (GeoDataFrame_new all_tracts_gdf EPSG_4326);
      print (TotalFetched (len all_tracts_gdf));;
      lmi_zones ← call (getitem_isin all_tracts_gdf "GEOID" qct_geoids);
      print (QualifyingZones (len lmi_zones));;
      mret (Some lmi_zones)
  end.

Definition main (net : Network G) : Run (option (GeoDataFrame G)) :=
  main_for get_virginia_qct_geoids net.

End Script.
End build_full_territory_map.

(* ================================================================= *)
(** ** build_vipr_complete_map.py *)

Module build_vipr_complete_map.

Definition VIPR_LMI_COUNTIES : list (string * string) :=
  [
   ("550", "Chesapeake");
   ("710", "Norfolk");
   ("810", "Virginia Beach");
   ("740", "Portsmouth");
   ("650", "Hampton");
   ("700", "Newport News");
   ("800", "Suffolk");
   ("093", "Isle of Wight");
   ("175", "Southampton");
   ("095", "James City");
   ("199", "York");
   ("073", "Gloucester");
   ("115", "Mathews");
   ("760", "Richmond City");
   ("087", "Henrico");
   ("041", "Chesterfield");
   ("085", "Hanover");
   ("036", "Charles City");
   ("127", "New Kent");
   ("075", "Goochland");
   ("145", "Powhatan");
   ("570", "Colonial Heights");
   ("670", "Hopewell");
   ("730", "Petersburg");
   ("149", "Prince George");
   ("053", "Dinwiddie");
   ("025", "Brunswick");
   ("081", "Greensville");
   ("595", "Emporia");
   ("183", "Sussex");
   ("181", "Surry");
   ("117", "Mecklenburg");
   ("111", "Lunenburg");
   ("135", "Nottoway");
   ("007", "Amelia");
   ("147", "Prince Edward");
   ("037", "Charlotte");
   ("083", "Halifax");
   ("143", "Pittsylvania");
   ("590", "Danville");
   ("680", "Lynchburg");
   ("031", "Campbell");
   ("009", "Amherst");
   ("011", "Appomattox");
   ("019", "Bedford County");
   ("515", "Bedford City");
   ("029", "Buckingham");
   ("049", "Cumberland");
   ("065", "Fluvanna");
   ("109", "Louisa");
   ("137", "Orange");
   ("003", "Albemarle");
   ("540", "Charlottesville");
   ("079", "Greene");
   ("113", "Madison");
   ("157", "Rappahannock");
   ("047", "Culpeper");
   ("061", "Fauquier");
   ("103", "Lancaster");
   ("133", "Northumberland");
   ("159", "Richmond County");
   ("193", "Westmoreland");
   ("057", "Essex");
   ("097", "King and Queen");
   ("099", "King George");
   ("101", "King William");
   ("119", "Middlesex");
   ("033", "Caroline");
   ("059", "Fairfax");
   ("600", "Fairfax City");
   ("610", "Falls Church");
   ("013", "Arlington");
   ("510", "Alexandria");
   ("153", "Prince William");
   ("683", "Manassas");
   ("685", "Manassas Park");
   ("107", "Loudoun");
   ("177", "Spotsylvania");
   ("630", "Fredericksburg");
   ("179", "Stafford")
  ].

(** The [regions] table of [main]. *)
Definition regions : list (string * list string) :=
  [
   ("Hampton Roads", ["550"; "710"; "810"; "740"; "650"; "700"; "800"; "093"; "175"]);
   ("Richmond Metro", ["760"; "087"; "041"; "085"; "036"; "127"; "075"; "145"; "570"; "670"]);
   ("Petersburg/Southside", ["730"; "149"; "053"; "025"; "081"; "595"; "183"; "181"; "117"; "111"; "135"; "007"; "147"; "037"; "083"; "143"; "590"]);
   ("Lynchburg/Central", ["680"; "031"; "009"; "011"; "019"; "515"; "029"; "049"; "065"; "109"; "137"; "003"; "540"]);
   ("Northern Virginia", ["059"; "600"; "610"; "013"; "510"; "153"; "683"; "685"; "107"])
  ].

Section Script.
Context {G : Type} `{!Geometry G}.

(** [fetch_all_tracts_for_county(county_fips)] *)
Definition fetch_all_tracts_for_county (net : Network G) (county_fips : string)
  : Run (option (GeoDataFrame G)) :=
  try_except
    (resp ← call (requests_get (net "51" county_fips));
     if decide (resp.1 = 200%Z) then
       data ← call (resp_json resp.2);
       features ← call (data_get_features data);
       if truthy features then
         gdf ← call (from_features (default [] features) EPSG_4326);
         mret (Some gdf)
       else mret None
     else mret None)
    (λ e, print (FetchError e);; mret None).

(** The loop of [main] over [sorted(VIPR_LMI_COUNTIES.items())]. *)
Fixpoint fetch_loop (net : Network G) (items : list (string * string))
    (all_tracts : list (GeoDataFrame G)) : Run (list (GeoDataFrame G)) :=
  match items with
  | [] => mret all_tracts
  | (county_fips, county_name) :: items' =>
      print (FetchingNamed county_name county_fips);;
      tracts ← fetch_all_tracts_for_county net county_fips;
      all_tracts ← (match tracts with
                    | Some tracts =>
                        if decide (0 < len tracts)
                        then print (UnitTracts (len tracts));;
                             mret (all_tracts ++ [setitem_str "COUNTY_NAME" county_name tracts])
                        else print UnitFailed;; mret all_tracts
                    | None => print UnitFailed;; mret all_tracts
                    end);
      fetch_loop net items' all_tracts
  end.

(** The coverage summary that ends [main]. *)
Fixpoint summary (all_zones : GeoDataFrame G) (rs : list (string * list string))
  : Run unit :=
  match rs with
  | [] => mret tt
  | (region, counties) :: rs' =>
      zones ← call (getitem_isin all_zones "COUNTY" counties);
      print (RegionZones region (len zones));;
      summary all_zones rs'
  end.

(** [main()] for a given county table; the value is the frame [all_zones]
    it writes out and draws, [None] when the run stops for want of data. *)
Definition main_for (counties : list (string * string)) (net : Network G)
  : Run (option (GeoDataFrame G)) :=
  all_tracts ← fetch_loop net (merge_sort item_le counties) [];
  match all_tracts with
  | [] => print ErrorNoTractData;; mret None
  | _ =>
      all_zones ← call (pd_concat all_tracts);
      all_zones ← call (GeoDataFrame_new all_zones EPSG_4326);
      print (TotalZones (len all_zones));;
      summary all_zones regions;;
      mret (Some all_zones)
  end.

Definition main (net : Network G) : Run (option (GeoDataFrame G)) :=
  main_for VIPR_LMI_COUNTIES net.

End Script.
End build_vipr_complete_map.

(* ================================================================= *)
(** ** A raster geometry engine, to run the pipeline on concrete data *)

(** A geometry is the list of unit grid cells it covers.  Intersection
    keeps the common cells; the intersection of geometries of different
    families belongs to the family of lower dimension.  Reprojection is a
    shift of the grid that depends on the two CRS. *)
Module Raster.

Record t : Type := Mk {
  kind : GeomType;
  cells : list (Z * Z)
}.

Definition dimension (k : GeomType) : nat :=
  match k with Puntal => 0 | Lineal => 1 | Polygonal => 2 end.

Definition meet_kind (a b : GeomType) : GeomType :=
  if Nat.leb (dimension a) (dimension b) then a else b.

Definition shift (d : Z) (c : Z * Z) : Z * Z := (c.1 + d, c.2)%Z.

#[global] Instance engine : Geometry t := {|
  geom_type := kind;
  is_empty g := bool_decide (cells g = []);
  intersection a b :=
    Mk (meet_kind (kind a) (kind b))
       (List.filter (λ c, bool_decide (c ∈ cells b)) (cells a));
  transform src dst g :=
    Mk (kind g) (map (shift (Z.of_N dst - Z.of_N src)) (cells g))
|}.

#[global] Instance timestamps : TimestampFormat := λ ns, pretty ns.

(** The polygon covering the grid cells of [x0 .. x0+w-1] by [y0 .. y0+h-1]. *)
Definition box (x0 y0 : Z) (w h : nat) : t :=
  Mk Polygonal
     (flat_map (λ i, map (λ j, (x0 + Z.of_nat i, y0 + Z.of_nat j)%Z) (seq 0 h)) (seq 0 w)).

Definition tract (geoid name county : string) (g : t) : Row t :=
  MkRow (<["GEOID" := VStr geoid]> (<["NAME" := VStr name]> (<["COUNTY" := VStr county]> ∅))) g.

Definition tract_dtypes : list (string * dtype) :=
  [("GEOID", DObject); ("COUNTY", DObject); ("NAME", DObject)].

(** Two units: A holds X001 and X002, B holds X002 again and X003. *)
Definition X001 : Row t := tract "X001" "1" "550" (box 0 0 2 2).
Definition X002 : Row t := tract "X002" "2" "550" (box 2 0 2 2).
Definition X003 : Row t := tract "X003" "3" "810" (box 4 0 4 2).

Definition unit_A : GeoDataFrame t := MkFrame tract_dtypes [X001; X002] (Some EPSG_4326).
Definition unit_B : GeoDataFrame t := MkFrame tract_dtypes [X002; X003] (Some EPSG_4326).
Definition unit_C : GeoDataFrame t := MkFrame tract_dtypes [X003] (Some EPSG_4326).

(** A service territory: one polygon over the grid columns 0 to 5, so that
    X001 and X002 lie within it and X003 lies half outside. *)
Definition territory_polygon : Row t := MkRow ∅ (box 0 0 6 2).
Definition territory : GeoDataFrame t :=
  MkFrame [] [territory_polygon] (Some EPSG_4326).

(** The same polygon from a file that declares no CRS. *)
Definition territory_untagged : GeoDataFrame t :=
  MkFrame [] [territory_polygon] None.

(** A territory far from every tract. *)
Definition far_territory : GeoDataFrame t :=
  MkFrame [] [MkRow ∅ (box 100 100 6 2)] (Some EPSG_4326).

(** Unit A in Web Mercator. *)
Definition zones_3857 : GeoDataFrame t :=
  MkFrame tract_dtypes
          (map (with_geometry (transform EPSG_4326 3857%N)) [X001; X002])
          (Some 3857%N).

(** A layer with a datetime column. *)
Definition dated : GeoDataFrame t :=
  MkFrame [("GEOID", DObject); ("updated", DDatetime64)]
          [MkRow (<["GEOID" := VStr "X001"]> (<["updated" := VTimestamp 1700000000]> ∅))
                 (box 0 0 2 2);
           MkRow (<["GEOID" := VStr "X002"]> (<["updated" := VNull]> ∅))
                 (box 2 0 2 2)]
          (Some EPSG_4326).

Definition features_of (gdf : GeoDataFrame t) : list (FeatureJSON t) :=
  map (λ r, Feature (attrs r) (geometry r)) (rows gdf).

(** A service with three counties, of which "710" cannot be reached. *)
Definition three_units : list (string * string) :=
  [("550", "Chesapeake"); ("710", "Norfolk"); ("810", "Virginia Beach")].

Definition net_one_down : Network t := λ state county,
  if decide (county = "550") then HTTP 200 (JSONObject (Some (features_of unit_A)))
  else if decide (county = "810") then HTTP 200 (JSONObject (Some (features_of unit_C)))
  else NoResponse.

(** The service of the end-to-end scenario: the identifiers X001 and X002
    of the eligibility list give the county codes "01" and "02"; unit "01"
    holds X001 and X002, unit "02" holds X002 again and X003. *)
Definition net_two_units : Network t := λ state county,
  if decide (county = "01") then HTTP 200 (JSONObject (Some (features_of unit_A)))
  else if decide (county = "02") then HTTP 200 (JSONObject (Some (features_of unit_B)))
  else HTTP 404 NotJSON.

(** A service that answers every query with a well-formed empty
    collection, and services that fail in each of the three ways. *)
Definition net_empty : Network t := λ _ _, HTTP 200 (JSONObject (Some [])).
Definition net_down : Network t := λ _ _, NoResponse.
Definition net_503 : Network t := λ _ _, HTTP 503 NotJSON.
Definition net_garbled : Network t := λ _ _, HTTP 200 NotJSON.

End Raster.

(* ================================================================= *)
(** ** Vocabulary of the properties *)

Section Vocabulary.
Context {G : Type} `{!Geometry G} `{!TimestampFormat}.
Implicit Types (gdf boundary : GeoDataFrame G) (r : Row G).

(** What [prepare_for_json] does to the cell of column [col], given the
    dtypes of the frame it started from. *)
Definition sanitized (ds : list (string * dtype)) (col : string) (v : Value) : Value :=
  if decide (col = "geometry") then v
  else if is_datetime64_any_dtype (lookup_dtype col ds) then astype_str v else v.

(** And to its dtype. *)
Definition sanitized_dtype (ds : list (string * dtype)) (col : string) : option dtype :=
  if decide (col = "geometry") then lookup_dtype col ds
  else if is_datetime64_any_dtype (lookup_dtype col ds) then Some DObject
       else lookup_dtype col ds.

(** The columns among [cols] that the loop converts. *)
Definition converted (cols : list string) (ds : list (string * dtype)) (col : string)
  : bool :=
  bool_decide (col ∈ cols) && bool_decide (col ≠ "geometry")
  && is_datetime64_any_dtype (lookup_dtype col ds).

Definition row_sanitized (conv : string → bool) r r' : Prop :=
  geometry r' = geometry r ∧
  ∀ col, attrs r' !! col = (if conv col then astype_str else id) <$> attrs r !! col.


(** The identifier of a tract: the string in its GEOID cell. *)
Definition geoid r : option string :=
  match attrs r !! "GEOID" with
  | Some (VStr s) => Some s
  | _ => None
  end.

(** The identifiers of a frame, row after row. *)
Definition geoids gdf : list string := omap geoid (rows gdf).

Definition has_column (col : string) gdf : Prop := col ∈ (dtypes gdf).*1.

(** A frame of polygons and multipolygons. *)
Definition polygonal gdf : Prop :=
  Forall (λ r, geom_type (geometry r) = Polygonal) (rows gdf).

(** The same frame under another CRS tag (coordinates untouched). *)
Definition retag (c : option CRS) gdf : GeoDataFrame G :=
  MkFrame (dtypes gdf) (rows gdf) c.

(** The clipper signals a failure when it raises or returns no data. *)
Definition signals_failure (m : Run (option (GeoDataFrame G))) : Prop :=
  match outcome m with
  | inr (Some _) => False
  | _ => True
  end.

(** The rows of an intersection overlay of polygons. *)
Definition clipped_rows (rs : list (Row G)) (bs : list G) : list (Row G) :=
  List.filter (λ r, bool_decide (geom_type (geometry r) = Polygonal))
              (flat_map (λ r, flat_map (overlay_pair r) bs) rs).

(** The three ways a fetch fails: no answer from the network, an answer
    with a status other than 200, an answer whose payload is not a
    feature collection (not JSON, not a JSON object, a feature that is
    not well formed). *)
Inductive fetch_failure : Response G → Prop :=
| network_error : fetch_failure NoResponse
| bad_status status body : status ≠ 200%Z → fetch_failure (HTTP status body)
| payload_not_json : fetch_failure (HTTP 200 NotJSON)
| payload_not_object : fetch_failure (HTTP 200 JSONNotObject)
| payload_bad_feature fs :
    BadFeature ∈ fs → fetch_failure (HTTP 200 (JSONObject (Some fs))).

(** A well-formed answer that holds no feature. *)
Definition empty_success : Response G := HTTP 200 (JSONObject (Some [])).

(** What a fetch gives for an answer of the service. *)
Definition fetched (resp : Response G) : option (GeoDataFrame G) :=
  match resp with
  | HTTP status (JSONObject (Some (f :: fs))) =>
      if decide (status = 200%Z) then
        match from_features (f :: fs) EPSG_4326 with
        | inr gdf => Some gdf
        | inl _ => None
        end
      else None
  | _ => None
  end.

(** What one county adds to [all_tracts] in build_vipr_complete_map. *)
Definition unit_frame (net : Network G) (item : string * string)
  : option (GeoDataFrame G) :=
  match fetched (net "51" item.1) with
  | Some tracts =>
      if decide (0 < len tracts) then Some (setitem_str "COUNTY_NAME" item.2 tracts)
      else None
  | None => None
  end.

End Vocabulary.

(* ================================================================= *)
(** ** Runs of the remaining scripts *)

From Stdlib Require QArith_base.

(** The scripts below print lines of their own; [RunL L] is [Run] for the
    lines [L] of one script. *)
Record RunL (L A : Type) : Type := MkRunL {
  printedL : list L;
  outcomeL : Exn + A
}.
Arguments MkRunL {L A} _ _.
Arguments printedL {L A} _.
Arguments outcomeL {L A} _.

#[global] Instance RunL_ret {L} : MRet (RunL L) := λ A x, MkRunL [] (inr x).
#[global] Instance RunL_bind {L} : MBind (RunL L) := λ A B f m,
  match outcomeL m with
  | inl e => MkRunL (printedL m) (inl e)
  | inr a => let rest := f a in
             MkRunL (printedL m ++ printedL rest) (outcomeL rest)
  end.

Definition printL {L} (line : L) : RunL L unit := MkRunL [line] (inr tt).
Definition callL {L A} (r : Exn + A) : RunL L A := MkRunL [] r.
Definition try_exceptL {L A} (body : RunL L A) (handler : Exn → RunL L A) : RunL L A :=
  match outcomeL body with
  | inl e => MkRunL (printedL body ++ printedL (handler e)) (outcomeL (handler e))
  | inr a => body
  end.

(** [gdf[cols]] for a list of column names: the columns in the order of
    the list, every row reduced to them.  A name that is no column is a
    [KeyError].  Without 'geometry' in the list the result is a plain
    table, on which the geometry accessors the scripts use next raise
    [AttributeError]. *)
Definition getitem_columns {G} (gdf : GeoDataFrame G) (cols : list string)
  : Exn + GeoDataFrame G :=
  match List.find (λ c, negb (bool_decide (c ∈ columns gdf))) cols with
  | Some c => inl (KeyError c)
  | None =>
      if decide ("geometry" ∈ cols)
      then inr (MkFrame
                  (omap (λ c, (λ d, (c, d)) <$> lookup_dtype c (dtypes gdf))
                        (List.filter (λ c, negb (bool_decide (c = "geometry"))) cols))
                  (map (λ r, MkRow (filter (λ kv, kv.1 ∈ cols) (attrs r)) (geometry r))
                       (rows gdf))
                  (crs gdf))
      else inl AttributeError
  end.

(* ================================================================= *)
(** ** build_regional_maps.py *)

Module build_regional_maps.

(** An entry of [REGIONS]; its center and zoom go to the map widget. *)
Record Region : Type := MkRegion {
  region_name : string;
  region_counties : list string
}.

Definition REGIONS : list (string * Region) :=
  [
   ("hampton_roads", MkRegion "Hampton Roads" ["550"; "710"; "810"; "740"; "650"; "700"; "800"; "093"; "175"; "095"; "199"; "073"; "115"]);
   ("richmond", MkRegion "Richmond Metro" ["760"; "087"; "041"; "085"; "036"; "127"; "075"; "145"; "570"; "670"]);
   ("petersburg_southside", MkRegion "Petersburg & Southside" ["730"; "149"; "053"; "025"; "081"; "595"; "183"; "181"; "117"; "111"; "135"; "007"; "147"; "037"; "083"; "143"; "590"]);
   ("lynchburg_central", MkRegion "Lynchburg & Central VA" ["680"; "031"; "009"; "011"; "019"; "515"; "029"; "049"; "065"; "109"; "137"; "003"; "540"; "079"; "113"; "157"; "047"; "061"]);
   ("northern_va", MkRegion "Northern Virginia" ["059"; "600"; "610"; "013"; "510"; "153"; "683"; "685"; "107"; "177"; "630"; "179"; "033"; "099"]);
   ("northern_neck", MkRegion "Northern Neck & Middle Peninsula" ["103"; "133"; "159"; "193"; "057"; "097"; "101"; "119"])
  ].

Inductive Line : Type :=
| Loaded (n : nat)
| RegionHeader (name : string)
| Zones (n : nat)
| Skipping
| Saved (output_path : string)
| SavedIndex.

Section Script.
Context {G : Type} `{!Geometry G} `{!TimestampFormat}.

(** [prepare_for_json(gdf)]: the body of filter_zones_dominion.py's. *)
Definition prepare_for_json (gdf : option (GeoDataFrame G)) : option (GeoDataFrame G) :=
  filter_zones_dominion.prepare_for_json gdf.

(** What [create_regional_map] puts on the map: the layer, the fields and
    aliases of its tooltip, the title and the count of its legend. *)
Record RegionalMap : Type := MkRegionalMap {
  layer : GeoDataFrame G;
  tooltip_fields : list string;
  tooltip_aliases : list string;
  legend_name : string;
  legend_count : nat
}.

(** [create_regional_map(zones_gdf, region_key, region_info)]: the data it
    hands to the map widget; the widget calls themselves are taken to
    succeed. *)
Definition create_regional_map (zones_gdf : GeoDataFrame G) (region_key : string)
    (region_info : Region) : Exn + RegionalMap :=
  match prepare_for_json (Some zones_gdf) with
  | None => inl AttributeError
  | Some zones_gdf =>
      let has c := bool_decide (c ∈ columns zones_gdf) in
      let fields :=
        (if has "NAME" then ["NAME"] else []) ++
        (if has "COUNTY_NAME" then ["COUNTY_NAME"] else []) ++
        (if has "GEOID" then ["GEOID"] else []) in
      let aliases :=
        (if has "NAME" then ["Tract:"] else []) ++
        (if has "COUNTY_NAME" then ["County:"] else []) ++
        (if has "GEOID" then ["GEOID:"] else []) in
      inr (MkRegionalMap zones_gdf fields aliases (region_name region_info)
                         (len zones_gdf))
  end.

Definition output_path (region_key : string) : string :=
  "regional_maps/emg_map_" +:+ region_key +:+ ".html".

(** The loop of [main] over the regions; [saved] are the maps written so
    far, by path. *)
Fixpoint region_loop (all_zones : GeoDataFrame G) (regions : list (string * Region))
    (saved : list (string * RegionalMap)) : RunL Line (list (string * RegionalMap)) :=
  match regions with
  | [] => mret saved
  | (region_key, region_info) :: regions' =>
      printL (RegionHeader (region_name region_info));;
      regional_zones ← callL (getitem_isin all_zones "COUNTY"
                                           (region_counties region_info));
      printL (Zones (len regional_zones));;
      if decide (len regional_zones = 0)
      then printL Skipping;; region_loop all_zones regions' saved
      else
        m ← callL (create_regional_map regional_zones region_key region_info);
        printL (Saved (output_path region_key));;
        region_loop all_zones regions' (saved ++ [(output_path region_key, m)])
  end.

(** [main()] for a given region table, from what [gpd.read_file(INPUT_FILE)]
    gives (a frame, or the exception of a file that cannot be read) to the
    maps written. *)
Definition main_for (regions : list (string * Region))
    (read_file : Exn + GeoDataFrame G) : RunL Line (list (string * RegionalMap)) :=
  all_zones ← callL read_file;
  printL (Loaded (len all_zones));;
  saved ← region_loop all_zones regions [];
  printL SavedIndex;;
  mret saved.

Definition main (read_file : Exn + GeoDataFrame G)
  : RunL Line (list (string * RegionalMap)) :=
  main_for REGIONS read_file.

End Script.
End build_regional_maps.

(* ================================================================= *)
(** ** build_optimized_map.py *)

(** shapely's [simplify(tolerance, preserve_topology=True)]. *)
Class Simplifier (G : Type) : Type := simplify : QArith_base.Q → G → G.

Module build_optimized_map.
Section Script.
Context {G : Type} `{!Geometry G} `{!Simplifier G} `{!TimestampFormat}.

(** [simplify_geometry(gdf, tolerance)] *)
Definition simplify_geometry (gdf : GeoDataFrame G) (tolerance : QArith_base.Q)
  : GeoDataFrame G :=
  MkFrame (dtypes gdf)
          (map (with_geometry (simplify tolerance)) (rows gdf))
          (crs gdf).

(** [prepare_for_json(gdf)]: the body of filter_zones_dominion.py's. *)
Definition prepare_for_json (gdf : option (GeoDataFrame G)) : option (GeoDataFrame G) :=
  filter_zones_dominion.prepare_for_json gdf.

Definition keep_cols : list string := ["geometry"; "NAME"; "GEOID"; "COUNTY_NAME"].

(** The data steps of [main()], from what [gpd.read_file(INPUT_FILE)]
    gives to the layer handed to the map widget: simplification, column
    selection, sanitizing.  The widget calls in between are taken to
    succeed; the lines printed report sizes in megabytes of the
    serialized layers and are left out. *)
Definition main (read_file : Exn + GeoDataFrame G) : Exn + GeoDataFrame G :=
  match read_file with
  | inl e => inl e
  | inr zones =>
      let zones_simple := simplify_geometry zones (QArith_base.Qmake 2 1000) in
      match getitem_columns zones_simple
              (List.filter (λ c, bool_decide (c ∈ columns zones_simple)) keep_cols) with
      | inl e => inl e
      | inr zones_simple =>
          match prepare_for_json (Some zones_simple) with
          | Some zones_simple => inr zones_simple
          | None => inl AttributeError
          end
      end
  end.

End Script.
End build_optimized_map.

(* ================================================================= *)
(** ** canvassing_map_builder.py *)

Module canvassing_map_builder.

Definition DOMINION_COUNTIES_FIPS : list string :=
  [
   "51041"; "51087"; "51760"; "51036"; "51570"; "51670"; "51730"; "51149"; "51183"; "51590"; "51143"; "51550"; "51710"; "51810"; "51740"; "51650"; "51700"
  ].

(** [fetch_virginia_qct_list()] *)
Definition fetch_virginia_qct_list : list string :=
  [
   "51760010100"; "51760010200"; "51760010300"; "51760010400";
   "51760010500"; "51760010600"; "51760010700"; "51760010800";
   "51760020100"; "51760020200"; "51760020300"; "51760020400";
   "51760030100"; "51760030200"; "51760030300"; "51087200101";
   "51087200102"; "51087200200"; "51087200300"; "51087200400";
   "51087200500"; "51087200600"; "51041100100"; "51041100200";
   "51041100300"; "51041100400"; "51710000100"; "51710000200";
   "51710000300"; "51710000400"; "51710000500"; "51710000600";
   "51710000700"; "51710000800"; "51710000900"; "51710001000";
   "51710001100"; "51710001200"; "51810040100"; "51810040200";
   "51810040300"; "51810040400"; "51650010100"; "51650010200";
   "51650010300"; "51650010400"; "51700030100"; "51700030200";
   "51700030300"; "51700030400"; "51730810100"; "51730810200";
   "51730810300"; "51730810400"
  ].

Inductive Line : Type :=
| FetchingCounty (county_fips : string)
| ErrorFetching (county_fips : string) (e : Exn)
| TotalFetched (n : nat)
| QualifyingTracts (n : nat)
| WarnNoTractData.

(** [s[-3:]] *)
Definition last3 (s : string) : string :=
  String.substring (String.length s - 3) 3 s.

Section Script.
Context {G : Type} `{!Geometry G}.

(** [gpd.read_file(response.text)]: what the reader makes of a body is the
    library's; the script is modelled for every reader. *)
Variable read_file : Body G → Exn + GeoDataFrame G.

(** [fetch_census_tracts_for_county(county_fips, state_fips="51")] *)
Definition fetch_census_tracts_for_county (net : Network G) (county_fips : string)
    (state_fips : string) : RunL Line (option (GeoDataFrame G)) :=
  try_exceptL
    (response ← callL (requests_get (net state_fips (last3 county_fips)));
     if decide (response.1 = 200%Z) then
       gdf ← callL (read_file response.2);
       mret (Some gdf)
     else mret None)
    (λ e, printL (ErrorFetching county_fips e);; mret None).

(** The loop of [main] over the counties. *)
Fixpoint fetch_loop (net : Network G) (fips : list string)
    (all_tracts : list (GeoDataFrame G)) : RunL Line (list (GeoDataFrame G)) :=
  match fips with
  | [] => mret all_tracts
  | county_fips :: fips' =>
      printL (FetchingCounty county_fips);;
      tracts ← fetch_census_tracts_for_county net county_fips "51";
      fetch_loop net fips'
                 (match tracts with
                  | Some tracts => all_tracts ++ [tracts]
                  | None => all_tracts
                  end)
  end.

(** Step 2 of [main()] for a given county table and eligibility list: the
    frame [lmi_zones] handed to [create_canvassing_map], [None] when no
    tract data could be fetched.  (Steps 1 and 3 read two optional files
    and pass them on as they are.) *)
Definition main_for (counties qct_list : list string) (net : Network G)
  : RunL Line (option (GeoDataFrame G)) :=
  all_tracts ← fetch_loop net (take 5 counties) [];
  match all_tracts with
  | [] => printL WarnNoTractData;; mret None
  | _ =>
      all_tracts_gdf ← callL (pd_concat all_tracts);
      printL (TotalFetched (len all_tracts_gdf));;
      lmi_zones ← callL (getitem_isin all_tracts_gdf "GEOID" qct_list);
      printL (QualifyingTracts (len lmi_zones));;
      mret (Some lmi_zones)
  end.

Definition main (net : Network G) : RunL Line (option (GeoDataFrame G)) :=
  main_for DOMINION_COUNTIES_FIPS fetch_virginia_qct_list net.

End Script.
End canvassing_map_builder.

(* ================================================================= *)
(** ** More vocabulary *)

Section MoreVocabulary.
Context {G : Type} `{!Geometry G}.
Implicit Types (gdf boundary : GeoDataFrame G) (r : Row G).

(** The CRS a frame is taken to be in: the declared one, EPSG:4326 when
    none is declared. *)
Definition source_crs gdf : CRS := default EPSG_4326 (crs gdf).

(** A geometry taken from CRS [src] to CRS [dst]; nothing is computed
    when the two are the same. *)
Definition reprojected (src dst : CRS) (g : G) : G :=
  if decide (src = dst) then g else transform src dst g.

(** A frame none of whose attribute columns is datetime-typed. *)
Definition no_datetime gdf : Prop :=
  Forall (λ cd : string * dtype, cd.2 ≠ DDatetime64) (dtypes gdf).

(** What one county adds to [all_tracts] in build_full_territory_map. *)
Definition county_frame (net : Network G) (county_code : string)
  : option (GeoDataFrame G) :=
  match fetched (net "51" county_code) with
  | Some tracts => if decide (0 < len tracts) then Some tracts else None
  | None => None
  end.

(** The rows a payload of well-formed features stands for. *)
Definition well_formed (f : FeatureJSON G) : Prop :=
  match f with
  | BadFeature => False
  | Feature _ _ => True
  end.

Definition feature_row (f : FeatureJSON G) : option (Row G) :=
  match f with
  | BadFeature => None
  | Feature props g => Some (MkRow props g)
  end.

(** The zones of a region: the rows whose COUNTY is one of its codes. *)
Definition zones_of_region (all_zones : GeoDataFrame G)
    (region : build_regional_maps.Region) : GeoDataFrame G :=
  MkFrame (dtypes all_zones)
          (List.filter (λ r, isin (attrs r !! "COUNTY")
                                  (build_regional_maps.region_counties region))
                       (rows all_zones))
          (crs all_zones).

(** A frame with every geometry replaced by its image under [f]. *)
Definition map_geometry (f : G → G) gdf : GeoDataFrame G :=
  MkFrame (dtypes gdf) (map (with_geometry f) (rows gdf)) (crs gdf).

(** What one county adds to [all_tracts] in canvassing_map_builder. *)
Definition canvass_frame (read_file : Body G → Exn + GeoDataFrame G) (net : Network G)
    (county_fips : string) : option (GeoDataFrame G) :=
  match net "51" (canvassing_map_builder.last3 county_fips) with
  | HTTP status body =>
      if decide (status = 200%Z) then
        match read_file body with
        | inr gdf => Some gdf
        | inl _ => None
        end
      else None
  | NoResponse => None
  end.

End MoreVocabulary.

(* ================================================================= *)
(** ** More concrete data *)

Module Atlas.
Import Raster.

(** A street, and a layer that mixes it with a tract. *)
Definition street : Row t :=
  tract "S001" "Main Street" "550" (Mk Lineal [(0, 0); (1, 0)]%Z).
Definition mixed_layer : GeoDataFrame t :=
  MkFrame tract_dtypes [X001; street] (Some EPSG_4326).

(** Zones of two regions: Chesapeake and Virginia Beach in Hampton Roads,
    Richmond City in Richmond Metro. *)
Definition X004 : Row t := tract "X004" "4" "760" (box 8 0 2 2).
Definition statewide : GeoDataFrame t :=
  MkFrame tract_dtypes [X001; X003; X004] (Some EPSG_4326).

(** A service whose features carry no identifier. *)
Definition net_no_geoid : Network t := λ _ _,
  HTTP 200 (JSONObject (Some [Feature (<["NAME" := VStr "1"]> ∅) (box 0 0 2 2)])).

(** A reader of GeoJSON text. *)
Definition read_geojson (body : Body t) : Exn + GeoDataFrame t :=
  match body with
  | NotJSON => inl JSONDecodeError
  | JSONNotObject => inl AttributeError
  | JSONObject features => from_features (default [] features) EPSG_4326
  end.

(** A service that knows Chesterfield and Richmond City, and one that
    knows Norfolk as well. *)
Definition net_richmond : Network t := λ state county,
  if decide (county = "041") then HTTP 200 (JSONObject (Some (features_of unit_A)))
  else if decide (county = "760") then HTTP 200 (JSONObject (Some (features_of unit_C)))
  else HTTP 404 NotJSON.

Definition net_richmond_norfolk : Network t := λ state county,
  if decide (county = "710") then HTTP 200 (JSONObject (Some (features_of unit_B)))
  else net_richmond state county.

(** A raster has no vertices to drop: simplification keeps the cells. *)
#[global] Instance simplifier : Simplifier t := λ tolerance g, g.

End Atlas.

(* ================================================================= *)
(** * Properties *)

(** ** The [Run] monad *)

Lemma run_ret_bind {A B} (a : A) (f : A → Run B) : mret a ≫= f = f a.
Proof. unfold mret, Run_ret, mbind, Run_bind. simpl. by destruct (f a). Qed.

Lemma run_bind_ret {A} (m : Run A) : m ≫= mret = m.
Proof.
  unfold mret, Run_ret, mbind, Run_bind. destruct m as [l [e|a]]; simpl; [done|].
  by rewrite app_nil_r.
Qed.

Lemma run_bind_assoc {A B C} (m : Run A) (f : A → Run B) (g : B → Run C) :
  (m ≫= f) ≫= g = m ≫= (λ a, f a ≫= g).
Proof.
  unfold mbind, Run_bind. destruct m as [l [e|a]]; simpl; [done|].
  destruct (f a) as [l' [e|b]]; simpl; [done|]. by rewrite app_assoc.
Qed.

(** ** Column dtypes *)

Lemma lookup_dtype_set_dtype col a d ds :
  lookup_dtype col (set_dtype a d ds) =
  if decide (col = a) then (λ _, d) <$> lookup_dtype col ds else lookup_dtype col ds.
Proof.
  induction ds as [|[c d0] ds IH]; simpl.
  - by case_decide.
  - repeat case_decide; simplify_eq/=; repeat case_decide; simplify_eq/=; try done.
Qed.

Lemma lookup_dtype_Some_elem col d ds :
  lookup_dtype col ds = Some d → col ∈ ds.*1.
Proof.
  induction ds as [|[c d0] ds IH]; simpl; [done|].
  case_decide; simplify_eq/=; intros; [left | right; auto].
Qed.

Section Properties.
Context {G : Type} `{!Geometry G} `{!TimestampFormat}.
Implicit Types (gdf boundary : GeoDataFrame G) (r : Row G).

Import filter_zones_dominion.

(* ----------------------------------------------------------------- *)
(** ** Geometry Normalizer *)

Lemma ensure_same_crs_result gdf target name :
  ∃ log out,
    ensure_same_crs (Some gdf) target name = MkRun log (inr (Some out)) ∧
    crs out = Some target ∧ dtypes out = dtypes gdf ∧
    length (rows out) = length (rows gdf).
Proof.
  unfold ensure_same_crs, set_crs.
  destruct gdf as [ds rs [c|]]; unfold mbind, Run_bind; simpl.
  - destruct (decide (Some c ≠ Some target)) as [Hne|Heq]; simpl.
    + unfold to_crs; simpl. rewrite decide_False by congruence.
      eexists _, _. split; [reflexivity|]. simpl. by rewrite length_map.
    + apply dec_stable in Heq. simplify_eq. by eexists _, _.
  - destruct (decide (Some EPSG_4326 ≠ Some target)) as [Hne|Heq]; simpl.
    + unfold to_crs; simpl. rewrite decide_False by congruence.
      eexists _, _. split; [reflexivity|]. simpl. by rewrite length_map.
    + apply dec_stable in Heq. simplify_eq. by eexists _, _.
Qed.

Lemma ensure_same_crs_aligned gdf target name :
  crs gdf = Some target →
  ensure_same_crs (Some gdf) target name = MkRun [] (inr (Some gdf)).
Proof.
  intros Hcrs. unfold ensure_same_crs. rewrite Hcrs.
  unfold mbind, Run_bind; simpl. rewrite Hcrs.
  destruct (decide (Some target ≠ Some target)) as [Hne|_]; [by destruct Hne|].
  reflexivity.
Qed.

(** C3.  The normalizer is idempotent: whatever the collection and the
    target CRS, [ensure_same_crs] returns (it never raises), and applied
    again to its own result it returns that result unchanged and prints
    nothing. *)
Theorem ensure_same_crs_idempotent (g : option (GeoDataFrame G)) (target : CRS)
    (name name' : string) :
  ∃ log out,
    ensure_same_crs g target name = MkRun log (inr out) ∧
    ensure_same_crs out target name' = MkRun [] (inr out).
Proof.
  destruct g as [gdf|].
  - destruct (ensure_same_crs_result gdf target name) as (log & out & Hrun & Hcrs & _).
    exists log, (Some out). split; [done|].
    by apply ensure_same_crs_aligned.
  - exists [], None. done.
Qed.

(* ----------------------------------------------------------------- *)
(** ** Attribute sanitization *)

Lemma row_sanitized_refl (conv : string → bool) r :
  (∀ col, conv col = false) → row_sanitized conv r r.
Proof.
  intros Hc. split; [done|]. intros col. rewrite Hc. by destruct (attrs r !! col).
Qed.

Lemma prepare_column_spec gdf a :
  crs (prepare_column gdf a) = crs gdf ∧
  (∀ col, lookup_dtype col (dtypes (prepare_column gdf a)) =
          if converted [a] (dtypes gdf) col then Some DObject
          else lookup_dtype col (dtypes gdf)) ∧
  Forall2 (row_sanitized (converted [a] (dtypes gdf))) (rows gdf) (rows (prepare_column gdf a)).
Proof.
  unfold prepare_column, converted.
  destruct (decide (a = "geometry")) as [->|Hgeo].
  - split; [done|]. split.
    + intros col. destruct (bool_decide (col ∈ ["geometry"])) eqn:E; simpl; [|done].
      apply bool_decide_eq_true in E. apply list_elem_of_singleton in E as ->.
      by rewrite bool_decide_eq_false_2 by (intros H'; by apply H').
    + apply Forall2_same_length_lookup_2; [done|]. intros i r r' ??; simplify_eq.
      apply row_sanitized_refl. intros col.
      destruct (bool_decide (col ∈ ["geometry"])) eqn:E; simpl; [|done].
      apply bool_decide_eq_true in E. apply list_elem_of_singleton in E as ->.
      by rewrite bool_decide_eq_false_2 by (intros H'; by apply H').
  - destruct (is_datetime64_any_dtype (lookup_dtype a (dtypes gdf))) eqn:Hdt.
    + split; [done|]. split.
      * intros col. simpl. rewrite lookup_dtype_set_dtype.
        destruct (decide (col = a)) as [->|Hne].
        -- rewrite bool_decide_eq_true_2 by (by apply list_elem_of_singleton).
           rewrite bool_decide_eq_true_2 by done. rewrite Hdt. simpl.
           apply bool_decide_eq_true in Hdt. by rewrite Hdt.
        -- by rewrite bool_decide_eq_false_2 by (by rewrite list_elem_of_singleton).
      * simpl. apply Forall2_fmap_r, Forall_Forall2_diag, Forall_forall.
        intros r _. split; [done|]. intros col. simpl.
        destruct (decide (col = a)) as [->|Hne].
        -- rewrite bool_decide_eq_true_2 by (by apply list_elem_of_singleton).
           rewrite bool_decide_eq_true_2 by done. rewrite Hdt. simpl.
           by rewrite lookup_alter_eq.
        -- rewrite bool_decide_eq_false_2 by (by rewrite list_elem_of_singleton). simpl.
           rewrite lookup_alter_ne by done. by destruct (attrs r !! col).
    + split; [done|]. split.
      * intros col. destruct (bool_decide (col ∈ [a])) eqn:E; simpl; [|done].
        apply bool_decide_eq_true in E. apply list_elem_of_singleton in E as ->.
        rewrite Hdt. by rewrite andb_false_r.
      * apply Forall_Forall2_diag, Forall_forall. intros r _.
        apply row_sanitized_refl. intros col.
        destruct (bool_decide (col ∈ [a])) eqn:E; simpl; [|done].
        apply bool_decide_eq_true in E. apply list_elem_of_singleton in E as ->.
        rewrite Hdt. by rewrite andb_false_r.
Qed.

Lemma Forall2_compose {A} (R S T : A → A → Prop) (l1 l2 l3 : list A) :
  (∀ x y z, R x y → S y z → T x z) →
  Forall2 R l1 l2 → Forall2 S l2 l3 → Forall2 T l1 l3.
Proof.
  intros HRST H12. revert l3.
  induction H12 as [|x y l1 l2 Hxy _ IH]; intros l3 H23; inversion H23; subst;
    constructor; eauto.
Qed.

Lemma converted_cons a cols ds ds1 col :
  (∀ c, lookup_dtype c ds1 =
        if converted [a] ds c then Some DObject else lookup_dtype c ds) →
  converted (a :: cols) ds col = converted [a] ds col || converted cols ds1 col ∧
  (converted [a] ds col && converted cols ds1 col = false).
Proof.
  intros Hds1. unfold converted at 3 5. rewrite Hds1.
  destruct (converted [a] ds col) eqn:E1.
  - simpl. rewrite !andb_false_r. split; [|done].
    unfold converted in *. apply andb_true_iff in E1 as [E1 ->].
    apply andb_true_iff in E1 as [E1 ->]. apply bool_decide_eq_true in E1.
    apply list_elem_of_singleton in E1 as ->.
    by rewrite bool_decide_eq_true_2 by left.
  - simpl. split; [|done]. unfold converted in *.
    destruct (decide (col = a)) as [->|Hne].
    + rewrite bool_decide_eq_true_2 in E1 by (by apply list_elem_of_singleton).
      rewrite bool_decide_eq_true_2 by left. simpl in *.
      by rewrite <- andb_assoc, E1, andb_false_r.
    + f_equal. f_equal. apply bool_decide_ext. rewrite elem_of_cons.
      split; [by intros [?|?] | auto].
Qed.

Lemma prepare_fold_spec cols : ∀ gdf,
  crs (foldl prepare_column gdf cols) = crs gdf ∧
  (∀ col, lookup_dtype col (dtypes (foldl prepare_column gdf cols)) =
          if converted cols (dtypes gdf) col then Some DObject
          else lookup_dtype col (dtypes gdf)) ∧
  Forall2 (row_sanitized (converted cols (dtypes gdf)))
          (rows gdf) (rows (foldl prepare_column gdf cols)).
Proof.
  induction cols as [|a cols IH]; intros gdf; simpl.
  - split; [done|]. split; [done|].
    apply Forall_Forall2_diag, Forall_forall. intros r _.
    by apply row_sanitized_refl.
  - destruct (prepare_column_spec gdf a) as (Hcrs1 & Hds1 & Hrows1).
    destruct (IH (prepare_column gdf a)) as (Hcrs & Hds & Hrows).
    split; [congruence|]. split.
    + intros col. rewrite Hds.
      destruct (converted_cons a cols _ _ col Hds1) as [-> Hexcl].
      rewrite Hds1. destruct (converted [a] (dtypes gdf) col); simpl in *.
      * by rewrite Hexcl.
      * done.
    + eapply Forall2_compose; [|exact Hrows1|exact Hrows].
      intros r r1 r' [Hg1 Ha1] [Hg2 Ha2]. split; [congruence|].
      intros col. rewrite Ha2, Ha1.
      destruct (converted_cons a cols _ _ col Hds1) as [-> Hexcl].
      destruct (converted [a] (dtypes gdf) col); simpl in *.
      * rewrite Hexcl. by destruct (attrs r !! col).
      * destruct (converted cols _ col); by destruct (attrs r !! col).
Qed.

Lemma converted_columns gdf col :
  converted (columns gdf) (dtypes gdf) col =
  bool_decide (col ≠ "geometry") &&
  is_datetime64_any_dtype (lookup_dtype col (dtypes gdf)).
Proof.
  unfold converted.
  destruct (is_datetime64_any_dtype (lookup_dtype col (dtypes gdf))) eqn:Hdt;
    [|by rewrite !andb_false_r].
  apply bool_decide_eq_true in Hdt. apply lookup_dtype_Some_elem in Hdt.
  rewrite bool_decide_eq_true_2; [done|]. unfold columns. apply elem_of_app. by left.
Qed.

Lemma prepare_dtypes gdf col :
  lookup_dtype col (dtypes (foldl prepare_column gdf (columns gdf))) =
  sanitized_dtype (dtypes gdf) col.
Proof.
  destruct (prepare_fold_spec (columns gdf) gdf) as (_ & Hds & _).
  rewrite Hds, converted_columns. unfold sanitized_dtype.
  destruct (decide (col = "geometry")) as [->|Hne].
  - by rewrite bool_decide_eq_false_2 by (intros H'; by apply H').
  - by rewrite bool_decide_eq_true_2 by done.
Qed.

(** C9.  [prepare_for_json] returns a frame with the same rows in the same
    order, in which the geometry of every row is the input geometry of
    that row, every cell of a datetime-typed attribute column is the
    string form of the input cell and that column is now of dtype object,
    and every other cell and dtype is the input one; the CRS is kept. *)
Theorem prepare_for_json_keeps_geometry (gdf : GeoDataFrame G) :
  ∃ out,
    prepare_for_json (Some gdf) = Some out ∧
    map geometry (rows out) = map geometry (rows gdf) ∧
    Forall2 (λ r r',
               geometry r' = geometry r ∧
               ∀ col, attrs r' !! col = sanitized (dtypes gdf) col <$> attrs r !! col)
            (rows gdf) (rows out) ∧
    (∀ col, lookup_dtype col (dtypes out) = sanitized_dtype (dtypes gdf) col) ∧
    crs out = crs gdf.
Proof.
  exists (foldl prepare_column gdf (columns gdf)).
  destruct (prepare_fold_spec (columns gdf) gdf) as (Hcrs & _ & Hrows).
  split; [done|]. split; [|split; [|split; [|done]]].
  - clear -Hrows. induction Hrows as [|r r' rs rs' [Hg _] _ IH]; simpl; [done|].
    by rewrite Hg, IH.
  - eapply Forall2_impl; [exact Hrows|]. intros r r' [Hg Ha]. split; [done|].
    intros col. rewrite Ha, converted_columns. unfold sanitized.
    destruct (decide (col = "geometry")) as [->|Hne].
    + by rewrite bool_decide_eq_false_2 by (intros H'; by apply H').
    + rewrite bool_decide_eq_true_2 by done. simpl.
      by destruct (is_datetime64_any_dtype _).
  - apply prepare_dtypes.
Qed.

Lemma prepare_fold_noop cols : ∀ gdf,
  Forall (λ col, col = "geometry" ∨
                 is_datetime64_any_dtype (lookup_dtype col (dtypes gdf)) = false) cols →
  foldl prepare_column gdf cols = gdf.
Proof.
  induction cols as [|a cols IH]; intros gdf Hcols; simpl; [done|].
  apply Forall_cons in Hcols as [Ha Hcols].
  assert (prepare_column gdf a = gdf) as ->; [|by apply IH].
  unfold prepare_column. destruct (decide (a = "geometry")); [done|].
  destruct Ha as [? | ->]; done.
Qed.

(** X4.  [prepare_for_json] is idempotent: sanitizing a sanitized frame
    changes nothing. *)
Lemma prepare_for_json_idempotent (g : option (GeoDataFrame G)) :
  prepare_for_json (prepare_for_json g) = prepare_for_json g.
Proof.
  destruct g as [gdf|]; [|done].
  simpl. f_equal. apply prepare_fold_noop, Forall_forall.
  intros col _. destruct (decide (col = "geometry")) as [->|Hne]; [by left|right].
  rewrite prepare_dtypes. unfold sanitized_dtype. rewrite decide_False by done.
  by destruct (is_datetime64_any_dtype (lookup_dtype col (dtypes gdf))) eqn:E.
Qed.

(* ----------------------------------------------------------------- *)
(** ** Boundary Clipper *)

Lemma has_geom_type_false t (gs : list G) :
  Forall (λ g, geom_type g ≠ t) gs → has_geom_type t gs = false.
Proof.
  induction 1 as [|g gs Hg _ IH]; simpl; [done|].
  by rewrite bool_decide_eq_false_2, IH.
Qed.

Lemma polygons_not_mixed (gs : list G) :
  Forall (λ g, geom_type g = Polygonal) gs → mixed_geometry_types gs = false.
Proof.
  intros Hgs. unfold mixed_geometry_types. simpl.
  rewrite (has_geom_type_false Lineal), (has_geom_type_false Puntal);
    try (eapply Forall_impl; [exact Hgs|]; simpl; congruence).
  apply bool_decide_eq_false_2. destruct (has_geom_type Polygonal gs); simpl; lia.
Qed.

Lemma polygonal_geometries gdf :
  polygonal gdf → Forall (λ g, geom_type g = Polygonal) (map geometry (rows gdf)).
Proof. intros Hp. by apply Forall_fmap. Qed.

Lemma keep_geom_type_polygonal (rs : list (Row G)) (bs : list G) :
  Forall (λ r, geom_type (geometry r) = Polygonal) rs →
  keep_geom_type rs (flat_map (λ r, flat_map (overlay_pair r) bs) rs) = clipped_rows rs bs.
Proof.
  unfold clipped_rows. destruct 1 as [|r0 rs Hr0 _]; simpl; [done|].
  by rewrite Hr0.
Qed.

(** On polygons the overlay does not raise, so the clipper returns the
    overlay's rows under the dataset's columns and CRS tag. *)
Lemma clip_polygonal gdf boundary name :
  polygonal gdf → polygonal boundary →
  clip_to_boundary (Some gdf) (Some boundary) name =
  MkRun [Clipped name (len gdf)
                 (length (clipped_rows (rows gdf) (map geometry (rows boundary))))]
        (inr (Some (MkFrame (dtypes gdf)
                            (clipped_rows (rows gdf) (map geometry (rows boundary)))
                            (crs gdf)))).
Proof.
  intros Hg Hb. unfold clip_to_boundary, overlay_intersection, getitem_geometry. simpl.
  rewrite !polygons_not_mixed by by apply polygonal_geometries. simpl.
  by rewrite keep_geom_type_polygonal.
Qed.

Lemma clipped_rows_app (rs1 rs2 : list (Row G)) bs :
  clipped_rows (rs1 ++ rs2) bs = clipped_rows rs1 bs ++ clipped_rows rs2 bs.
Proof. unfold clipped_rows. by rewrite flat_map_app, List.filter_app. Qed.

Lemma clipped_rows_outside r bs :
  Forall (λ b, intersects (geometry r) b = false) bs → clipped_rows [r] bs = [].
Proof.
  intros Hout. unfold clipped_rows. simpl. rewrite app_nil_r.
  induction Hout as [|b bs Hb _ IH]; simpl; [done|].
  unfold overlay_pair at 1. by rewrite Hb.
Qed.

Lemma clipped_rows_disjoint (rs : list (Row G)) bs :
  Forall (λ r, Forall (λ b, intersects (geometry r) b = false) bs) rs →
  clipped_rows rs bs = [].
Proof.
  induction 1 as [|r rs Hr _ IH]; [done|].
  change (r :: rs) with ([r] ++ rs).
  by rewrite clipped_rows_app, clipped_rows_outside, IH.
Qed.

Lemma clipped_rows_within (rs : list (Row G)) b :
  Forall (λ r, geom_type (geometry r) = Polygonal ∧ is_empty (geometry r) = false ∧
               within (geometry r) b) rs →
  clipped_rows rs [b] = rs.
Proof.
  induction 1 as [|r rs (Hty & Hne & Hin) _ IH]; [done|].
  change (r :: rs) with ([r] ++ rs). rewrite clipped_rows_app, IH. f_equal.
  unfold clipped_rows, overlay_pair, intersects. simpl.
  unfold within in Hin. rewrite Hin, Hne. simpl. rewrite Hty.
  rewrite bool_decide_eq_true_2 by done. by destruct r.
Qed.

(** C2 (as amended).  The clipper makes no CRS comparison.  Whatever CRS
    tags the dataset and the boundary carry, equal or not, it attempts the
    intersection: the lines it prints do not depend on the tags, and its
    result is the one for any other tags, carried under the dataset's tag.
    For polygons whose CRS differ it returns the overlay's rows, never a
    failure; it returns no data exactly when the overlay raises. *)
Theorem clip_to_boundary_ignores_crs (gdf boundary : GeoDataFrame G)
    (c1 c2 : option CRS) (name : string) :
  printed (clip_to_boundary (Some (retag c1 gdf)) (Some (retag c2 boundary)) name) =
    printed (clip_to_boundary (Some gdf) (Some boundary) name) ∧
  outcome (clip_to_boundary (Some (retag c1 gdf)) (Some (retag c2 boundary)) name) =
    sum_map id (fmap (retag c1)) (outcome (clip_to_boundary (Some gdf) (Some boundary) name)) ∧
  (polygonal gdf → polygonal boundary → crs gdf ≠ crs boundary →
   clip_to_boundary (Some gdf) (Some boundary) name =
   MkRun [Clipped name (len gdf)
                  (length (clipped_rows (rows gdf) (map geometry (rows boundary))))]
         (inr (Some (MkFrame (dtypes gdf)
                             (clipped_rows (rows gdf) (map geometry (rows boundary)))
                             (crs gdf))))) ∧
  (outcome (clip_to_boundary (Some gdf) (Some boundary) name) = inr None ↔
   ∃ e, overlay_intersection gdf (getitem_geometry boundary) = inl e).
Proof.
  split; [|split; [|split]].
  - unfold clip_to_boundary, overlay_intersection, getitem_geometry, retag. simpl.
    by destruct (_ || _).
  - unfold clip_to_boundary, overlay_intersection, getitem_geometry, retag. simpl.
    by destruct (_ || _).
  - intros Hg Hb _. by apply clip_polygonal.
  - unfold clip_to_boundary.
    destruct (overlay_intersection gdf (getitem_geometry boundary)) as [e|clipped];
      unfold try_except, mbind, Run_bind; simpl.
    + split; [by exists e | done].
    + split; [done | by intros [e ?]].
Qed.

(** C5.  When no tract of a polygon dataset intersects any polygon of the
    boundary, the clipper returns an empty dataset (same columns, same CRS
    tag) and raises nothing; and a tract that intersects no polygon of the
    boundary is dropped: the result is the one of the dataset without it. *)
Theorem clip_to_boundary_zero_overlap (gdf boundary : GeoDataFrame G) (name : string) :
  polygonal gdf → polygonal boundary →
  (Forall (λ r, Forall (λ b, intersects (geometry r) (geometry b) = false)
                       (rows boundary)) (rows gdf) →
   clip_to_boundary (Some gdf) (Some boundary) name =
   MkRun [Clipped name (len gdf) 0] (inr (Some (MkFrame (dtypes gdf) [] (crs gdf))))) ∧
  (∀ before r after,
     rows gdf = before ++ r :: after →
     Forall (λ b, intersects (geometry r) (geometry b) = false) (rows boundary) →
     ∃ out,
       outcome (clip_to_boundary (Some gdf) (Some boundary) name) = inr (Some out) ∧
       outcome (clip_to_boundary
                  (Some (MkFrame (dtypes gdf) (before ++ after) (crs gdf)))
                  (Some boundary) name) = inr (Some out)).
Proof.
  intros Hg Hb. split.
  - intros Hout. rewrite clip_polygonal by done.
    rewrite clipped_rows_disjoint; [done|].
    eapply Forall_impl; [exact Hout|]. intros r Hr. by apply Forall_fmap.
  - intros before r after Hrows Hout. eexists. split.
    + rewrite clip_polygonal by done. reflexivity.
    + rewrite clip_polygonal; [|unfold polygonal in *; simpl|done].
      * simpl. rewrite Hrows. do 3 f_equal.
        change (r :: after) with ([r] ++ after).
        rewrite !clipped_rows_app, clipped_rows_outside; [done|].
        by apply Forall_fmap.
      * rewrite Hrows in Hg. apply Forall_app in Hg as [H1 H2].
        apply Forall_cons in H2 as [_ H2]. by apply Forall_app.
Qed.

(** C6.  When the boundary is one polygon and every tract is a non-empty
    polygon lying within it, the clipper returns the dataset as it is: the
    same rows in the same order, each with its input geometry. *)
Theorem clip_to_boundary_contained (gdf : GeoDataFrame G) (b : Row G)
    (boundary_dtypes : list (string * dtype)) (boundary_crs : option CRS)
    (name : string) :
  geom_type (geometry b) = Polygonal →
  Forall (λ r, geom_type (geometry r) = Polygonal ∧ is_empty (geometry r) = false ∧
               within (geometry r) (geometry b)) (rows gdf) →
  clip_to_boundary (Some gdf) (Some (MkFrame boundary_dtypes [b] boundary_crs)) name =
  MkRun [Clipped name (len gdf) (len gdf)] (inr (Some gdf)).
Proof.
  intros Hb Hin. rewrite clip_polygonal.
  - simpl. rewrite clipped_rows_within by done. by destruct gdf.
  - eapply Forall_impl; [exact Hin|]. by intros r (? & _).
  - by apply Forall_singleton.
Qed.

(* ----------------------------------------------------------------- *)
(** ** Eligibility Filter *)

Lemma isin_geoid r (eligible : list string) :
  isin (attrs r !! "GEOID") eligible = true ↔ ∃ s, geoid r = Some s ∧ s ∈ eligible.
Proof.
  unfold isin, geoid. destruct (attrs r !! "GEOID") as [[s| | |]|]; simpl.
  - rewrite bool_decide_eq_true. split.
    + intros Hs. by exists s.
    + by intros (s' & [= <-] & Hs).
  - split; [done | by intros (? & [=] & _)].
  - split; [done | by intros (? & [=] & _)].
  - split; [done | by intros (? & [=] & _)].
  - split; [done | by intros (? & [=] & _)].
Qed.

Lemma filter_sublist {A} (f : A → bool) (l : list A) : List.filter f l `sublist_of` l.
Proof.
  induction l as [|x l IH]; simpl; [constructor|].
  destruct (f x); by constructor.
Qed.

Lemma filter_all {A} (f : A → bool) (l : list A) :
  Forall (λ x, f x = true) l → List.filter f l = l.
Proof. induction 1 as [|x l Hx _ IH]; simpl; [done|]. by rewrite Hx, IH. Qed.

Lemma filter_none {A} (f : A → bool) (l : list A) :
  Forall (λ x, f x = false) l → List.filter f l = [].
Proof. induction 1 as [|x l Hx _ IH]; simpl; [done|]. by rewrite Hx. Qed.

Lemma getitem_isin_rows gdf col (values : list string) :
  has_column col gdf →
  getitem_isin gdf col values =
  inr (MkFrame (dtypes gdf)
               (List.filter (λ r, isin (attrs r !! col) values) (rows gdf))
               (crs gdf)).
Proof. intros Hcol. unfold getitem_isin. by rewrite decide_True. Qed.

Lemma elem_of_geoids s gdf :
  s ∈ geoids gdf ↔ ∃ r, r ∈ rows gdf ∧ geoid r = Some s.
Proof. unfold geoids. apply list_elem_of_omap. Qed.

(** C4.  The eligibility filter is the expression
    [gdf[gdf['GEOID'].isin(list)]] of the [main] of build_full_territory_map.py
    and of canvassing_map_builder.py.  On a dataset with a GEOID column it returns
    (it does not raise) the frame of exactly the rows whose identifier
    equals, as a string, a member of the list, in their input order, under
    the same columns and CRS tag; with an empty list it returns no row. *)
Theorem eligibility_filter_membership (gdf : GeoDataFrame G) (eligible : list string) :
  has_column "GEOID" gdf →
  ∃ out,
    getitem_isin gdf "GEOID" eligible = inr out ∧
    (∀ r, r ∈ rows out ↔ r ∈ rows gdf ∧ ∃ s, geoid r = Some s ∧ s ∈ eligible) ∧
    rows out `sublist_of` rows gdf ∧
    dtypes out = dtypes gdf ∧ crs out = crs gdf ∧
    getitem_isin gdf "GEOID" [] = inr (MkFrame (dtypes gdf) [] (crs gdf)).
Proof.
  intros Hcol. eexists. split; [by apply getitem_isin_rows|]. simpl.
  split; [|split; [apply filter_sublist|split; [done|split; [done|]]]].
  - intros r. rewrite !list_elem_of_In, filter_In, <- isin_geoid. done.
  - rewrite getitem_isin_rows by done. f_equal. f_equal.
    apply filter_none, Forall_forall. intros r _.
    unfold isin. by destruct (attrs r !! "GEOID") as [[]|].
Qed.

(** C8.  On a dataset with a GEOID column: filtering with a list of
    identifiers none of which is in the dataset returns no row; and when
    every row has an identifier, filtering with a list that holds every
    identifier of the dataset returns the dataset itself. *)
Theorem eligibility_filter_absent_or_all (gdf : GeoDataFrame G) (eligible : list string) :
  has_column "GEOID" gdf →
  ((∀ s, s ∈ eligible → s ∉ geoids gdf) →
   getitem_isin gdf "GEOID" eligible = inr (MkFrame (dtypes gdf) [] (crs gdf))) ∧
  (Forall (λ r, is_Some (geoid r)) (rows gdf) →
   (∀ s, s ∈ geoids gdf → s ∈ eligible) →
   getitem_isin gdf "GEOID" eligible = inr gdf).
Proof.
  intros Hcol. rewrite getitem_isin_rows by done. split.
  - intros Habsent. do 2 f_equal. apply filter_none, Forall_forall. intros r Hr.
    apply not_true_is_false. rewrite isin_geoid. intros (s & Hs & Hin).
    apply (Habsent s Hin). apply elem_of_geoids. eauto.
  - intros Hids Hall. rewrite filter_all; [by destruct gdf|].
    apply Forall_forall. intros r Hr. apply isin_geoid.
    rewrite Forall_forall in Hids. destruct (Hids r Hr) as [s Hs].
    exists s. split; [done|]. apply Hall, elem_of_geoids. eauto.
Qed.

(* ----------------------------------------------------------------- *)
(** ** Aggregator *)

Lemma remove_dups_constant {A} `{EqDecision A} (x : A) (l : list A) :
  Forall (λ y, y = x) l → l ≠ [] → remove_dups l = [x].
Proof.
  induction 1 as [|y l -> Hl IH]; [done|]. intros _. simpl.
  destruct l as [|z l]; [done|].
  case_decide as Hin; [by apply IH|].
  destruct Hin. apply Forall_cons in Hl as [-> _]. by left.
Qed.

Lemma common_crs_same (frames : list (GeoDataFrame G)) c :
  frames ≠ [] → Forall (λ f, crs f = Some c) frames →
  common_crs (map crs frames) = inr (Some c).
Proof.
  intros Hne Hcrs. unfold common_crs.
  rewrite (remove_dups_constant c); [done| |].
  - apply Forall_forall. intros x Hx. apply list_elem_of_omap in Hx as (o & Ho & Hx).
    apply list_elem_of_fmap in Ho as (f & -> & Hf).
    rewrite Forall_forall in Hcrs. rewrite (Hcrs f Hf) in Hx. simpl in Hx. congruence.
  - destruct Hcrs as [|f fs Hf _]; [done|]. simpl. by rewrite Hf.
Qed.

Lemma geoids_flat_map (frames : list (GeoDataFrame G)) :
  omap geoid (flat_map rows frames) = flat_map geoids frames.
Proof.
  induction frames as [|f fs IH]; simpl; [done|].
  by rewrite omap_app, IH.
Qed.

Lemma aggregate_rows (frames : list (GeoDataFrame G)) :
  frames ≠ [] → Forall (λ f, crs f = Some EPSG_4326) frames →
  ∃ df out,
    pd_concat frames = inr df ∧ GeoDataFrame_new df EPSG_4326 = inr out ∧
    rows out = flat_map rows frames ∧ crs out = Some EPSG_4326.
Proof.
  intros Hne Hcrs. unfold pd_concat, GeoDataFrame_new, set_crs.
  rewrite (common_crs_same _ EPSG_4326) by done.
  destruct frames as [|f fs]; [done|].
  eexists _, _. split; [reflexivity|]. split; [reflexivity|]. done.
Qed.

(** C1 (as amended).  From per-unit collections tagged EPSG:4326, as the
    source client tags them, the aggregator returns the rows of the
    collections one collection after the other: nothing is discarded, so an
    identifier occurs in the output as often as it occurs in the inputs,
    and exactly once in the output when the inputs share no identifier. *)
Theorem aggregator_concatenates (frames : list (GeoDataFrame G)) :
  frames ≠ [] → Forall (λ f, crs f = Some EPSG_4326) frames →
  ∃ df out,
    pd_concat frames = inr df ∧ GeoDataFrame_new df EPSG_4326 = inr out ∧
    rows out = flat_map rows frames ∧
    geoids out = flat_map geoids frames ∧
    (NoDup (flat_map geoids frames) → NoDup (geoids out)) ∧
    crs out = Some EPSG_4326.
Proof.
  intros Hne Hcrs.
  destruct (aggregate_rows frames Hne Hcrs) as (df & out & Hcat & Hnew & Hrows & Hout).
  assert (Hids : geoids out = flat_map geoids frames).
  { unfold geoids at 1. rewrite Hrows. apply geoids_flat_map. }
  exists df, out. rewrite Hids. done.
Qed.

(* ----------------------------------------------------------------- *)
(** ** Boundary Source Client *)

Lemma outcome_bind {A B} (m : Run A) (f : A → Run B) :
  outcome (m ≫= f) =
  match outcome m with
  | inl e => inl e
  | inr a => outcome (f a)
  end.
Proof. unfold mbind, Run_bind. by destruct (outcome m). Qed.

(** The two client functions have the same body; one case analysis over
    the answer of the service settles both. *)
Ltac fetch_cases resp :=
  destruct resp as [|status [| |[[|f fs]|]]]; simpl; try done;
  destruct (decide (status = 200%Z)); simpl; try done;
  unfold try_except, mbind, Run_bind; simpl;
  try (destruct (from_features _ _); simpl; done).

Lemma fetch_tracts_for_county_fetched (net : Network G) state county :
  outcome (build_full_territory_map.fetch_tracts_for_county net state county) =
  inr (fetched (net state county)).
Proof.
  unfold build_full_territory_map.fetch_tracts_for_county, try_except, mbind, Run_bind,
    fetched.
  fetch_cases (net state county).
Qed.

Lemma fetch_all_tracts_for_county_fetched (net : Network G) county :
  outcome (build_vipr_complete_map.fetch_all_tracts_for_county net county) =
  inr (fetched (net "51" county)).
Proof.
  unfold build_vipr_complete_map.fetch_all_tracts_for_county, try_except, mbind, Run_bind,
    fetched.
  fetch_cases (net "51" county).
Qed.

Lemma feature_rows_bad (fs : list (FeatureJSON G)) :
  BadFeature ∈ fs → ∃ e, feature_rows fs = inl e.
Proof.
  induction fs as [|[|props g] fs IH]; intros Hin.
  - by apply elem_of_nil in Hin.
  - by eexists.
  - apply elem_of_cons in Hin as [|Hin]; [done|].
    destruct (IH Hin) as [e He]. exists e. simpl. by rewrite He.
Qed.

Lemma feature_rows_length (fs : list (FeatureJSON G)) rs :
  feature_rows fs = inr rs → length rs = length fs.
Proof.
  revert rs. induction fs as [|[|props g] fs IH]; intros rs; simpl.
  - by intros [= <-].
  - done.
  - destruct (feature_rows fs) as [|rs']; [done|]. intros [= <-]. simpl.
    by rewrite (IH rs').
Qed.

Lemma fetched_failure (resp : Response G) : fetch_failure resp → fetched resp = None.
Proof.
  destruct 1 as [|status body Hst| | |fs Hbad]; simpl; try done.
  - destruct body as [| |[[|f fs]|]]; try done. by rewrite decide_False.
  - destruct fs as [|f fs]; [done|]. unfold from_features.
    destruct (feature_rows_bad _ Hbad) as [e ->]. done.
Qed.

Lemma fetched_frame (resp : Response G) gdf :
  fetched resp = Some gdf → crs gdf = Some EPSG_4326 ∧ 0 < len gdf.
Proof.
  destruct resp as [|status [| |[[|f fs]|]]]; simpl; try done.
  destruct (decide _); [|done]. unfold from_features.
  destruct (feature_rows (f :: fs)) as [|rs] eqn:Hrs; [done|]. intros [= <-].
  split; [done|]. unfold len. simpl. rewrite (feature_rows_length _ _ Hrs). simpl. lia.
Qed.

Lemma unit_frame_crs (net : Network G) item gdf :
  unit_frame net item = Some gdf → crs gdf = Some EPSG_4326.
Proof.
  unfold unit_frame. destruct (fetched _) as [tracts|] eqn:Hf; [|done].
  destruct (decide _); [|done]. intros [= <-]. simpl.
  by apply fetched_frame in Hf as [? _].
Qed.

Import build_vipr_complete_map.

(** The loop of build_vipr_complete_map's [main] never raises: it
    collects, in order, the frames of the counties whose fetch gave data. *)
Lemma fetch_loop_collects (net : Network G) items : ∀ all_tracts,
  outcome (fetch_loop net items all_tracts) =
  inr (all_tracts ++ omap (unit_frame net) items).
Proof.
  induction items as [|[fips name] items IH]; intros acc; simpl.
  - by rewrite app_nil_r.
  - rewrite !outcome_bind. simpl.
    rewrite fetch_all_tracts_for_county_fetched. unfold unit_frame at 1. simpl.
    destruct (fetched (net "51" fips)) as [tracts|]; simpl.
    + destruct (decide (0 < len tracts)); simpl; rewrite IH.
      * by rewrite <- app_assoc.
      * done.
    + by rewrite IH.
Qed.

Lemma summary_returns (all_zones : GeoDataFrame G) rs :
  has_column "COUNTY" all_zones → outcome (summary all_zones rs) = inr tt.
Proof.
  intros Hcol. induction rs as [|[region counties] rs IH]; simpl; [done|].
  rewrite !outcome_bind. simpl. by rewrite getitem_isin_rows.
Qed.

Lemma fst_map_pair {A B} (f : A → B) (l : list A) : (map (λ x, (x, f x)) l).*1 = l.
Proof. induction l as [|x l IH]; [done|]. cbn. f_equal. exact IH. Qed.

Lemma concat_has_column (frames : list (GeoDataFrame G)) df col :
  pd_concat frames = inr df → Exists (has_column col) frames → has_column col df.
Proof.
  unfold pd_concat. destruct frames as [|f fs]; [done|].
  destruct (common_crs _) as [|c]; [done|]. intros [= <-] Hex.
  unfold has_column. simpl. rewrite fst_map_pair. apply elem_of_remove_dups.
  apply Exists_exists in Hex as (g & Hg & Hcol).
  change (col ∈ flat_map (λ f0 : GeoDataFrame G, (dtypes f0).*1) (f :: fs)).
  apply list_elem_of_In, in_flat_map. exists g. by rewrite <- !list_elem_of_In.
Qed.

(** build_vipr_complete_map's [main] on the frames its loop collected. *)
Lemma main_for_completes counties (net : Network G) frames :
  omap (unit_frame net) (merge_sort item_le counties) = frames →
  frames ≠ [] → Exists (has_column "COUNTY") frames →
  ∃ out, outcome (main_for counties net) = inr (Some out) ∧
         rows out = flat_map rows frames ∧ crs out = Some EPSG_4326.
Proof.
  intros Hframes Hne Hcol. unfold main_for.
  rewrite outcome_bind, fetch_loop_collects. cbn [app]. rewrite Hframes.
  assert (Hcrs : Forall (λ f, crs f = Some EPSG_4326) frames).
  { apply Forall_forall. intros f Hf. rewrite <- Hframes in Hf.
    apply list_elem_of_omap in Hf as (item & _ & Hf). by eapply unit_frame_crs. }
  destruct (aggregate_rows frames Hne Hcrs) as (df & out & Hcat & Hnew & Hrows & Hout).
  destruct frames as [|f fs]; [done|].
  rewrite outcome_bind. unfold call at 1. cbn [outcome]. rewrite Hcat.
  rewrite outcome_bind. unfold call at 1. cbn [outcome]. rewrite Hnew.
  rewrite outcome_bind. unfold print at 1. cbn [outcome].
  rewrite outcome_bind, summary_returns; [by exists out|].
  unfold GeoDataFrame_new, set_crs in Hnew.
  assert (has_column "COUNTY" df) as Hdf by by eapply concat_has_column.
  destruct (crs df); [destruct (decide _); [|done]|]; by simplify_eq.
Qed.

(** C7.  A fetch that fails (no answer, a status other than 200, a
    payload that is not a feature collection) is caught: both client
    functions return [None] and raise nothing.  The loop of
    build_vipr_complete_map's [main] never raises and collects the frames of
    the counties that gave data, so a failed county adds nothing.  When one
    county of the table fails and the others give data (with a COUNTY
    column for the summary), [main] runs to its end and its dataset holds
    the rows of those other counties, in order, and nothing else. *)
Theorem fetch_failure_skips_unit (net : Network G) :
  (∀ state county,
     fetch_failure (net state county) →
     outcome (build_full_territory_map.fetch_tracts_for_county net state county)
       = inr None) ∧
  (∀ county,
     fetch_failure (net "51" county) →
     outcome (fetch_all_tracts_for_county net county) = inr None) ∧
  (∀ items all_tracts,
     outcome (fetch_loop net items all_tracts) =
       inr (all_tracts ++ omap (unit_frame net) items)) ∧
  (∀ item, fetch_failure (net "51" item.1) → unit_frame net item = None) ∧
  (∀ counties before failed after frames,
     merge_sort item_le counties = before ++ failed :: after →
     fetch_failure (net "51" failed.1) →
     Forall2 (λ item f, unit_frame net item = Some f) (before ++ after) frames →
     frames ≠ [] →
     Exists (has_column "COUNTY") frames →
     ∃ out,
       outcome (main_for counties net) = inr (Some out) ∧
       rows out = flat_map rows frames ∧
       crs out = Some EPSG_4326).
Proof.
  assert (Hunit : ∀ item, fetch_failure (net "51" item.1) → unit_frame net item = None).
  { intros item Hfail. unfold unit_frame. by rewrite fetched_failure. }
  split; [|split; [|split; [|split]]].
  - intros state county Hfail.
    by rewrite fetch_tracts_for_county_fetched, fetched_failure.
  - intros county Hfail.
    by rewrite fetch_all_tracts_for_county_fetched, fetched_failure.
  - intros items all_tracts. apply fetch_loop_collects.
  - exact Hunit.
  - intros counties before failed after frames Hsorted Hfail Hok Hne Hcol.
    apply main_for_completes; [|done|done].
    rewrite Hsorted, omap_app. simpl. rewrite (Hunit _ Hfail), <- omap_app.
    clear -Hok. induction Hok as [|item f items fs Hf _ IH]; [done|].
    cbn. rewrite Hf. f_equal. exact IH.
Qed.

(** C10.  A well-formed answer with status 200 and no feature makes both
    client functions return [None], the value they return for a failed
    fetch; and the whole run (value and printed lines) is the one of an
    answer with a status other than 200. *)
Theorem empty_fetch_same_as_failure (net : Network G) (state county : string) :
  ((net state county = empty_success ∨ fetch_failure (net state county)) →
   outcome (build_full_territory_map.fetch_tracts_for_county net state county)
     = inr None) ∧
  ((net "51" county = empty_success ∨ fetch_failure (net "51" county)) →
   outcome (fetch_all_tracts_for_county net county) = inr None) ∧
  (∀ net' status body,
     net state county = empty_success →
     net' state county = HTTP status body → status ≠ 200%Z →
     build_full_territory_map.fetch_tracts_for_county net state county =
       build_full_territory_map.fetch_tracts_for_county net' state county) ∧
  (∀ net' status body,
     net "51" county = empty_success →
     net' "51" county = HTTP status body → status ≠ 200%Z →
     fetch_all_tracts_for_county net county =
       fetch_all_tracts_for_county net' county).
Proof.
  split; [|split; [|split]].
  - intros [Hempty|Hfail]; rewrite fetch_tracts_for_county_fetched.
    + by rewrite Hempty.
    + by rewrite fetched_failure.
  - intros [Hempty|Hfail]; rewrite fetch_all_tracts_for_county_fetched.
    + by rewrite Hempty.
    + by rewrite fetched_failure.
  - intros net' status body Hempty Hresp Hst.
    unfold build_full_territory_map.fetch_tracts_for_county.
    rewrite Hempty, Hresp. unfold empty_success, try_except, mbind, Run_bind. simpl.
    by rewrite decide_False.
  - intros net' status body Hempty Hresp Hst.
    unfold fetch_all_tracts_for_county.
    rewrite Hempty, Hresp. unfold empty_success, try_except, mbind, Run_bind. simpl.
    by rewrite decide_False.
Qed.

End Properties.

(* ================================================================= *)
(** * The pipeline on concrete data *)

Import Raster filter_zones_dominion.

(** The end-to-end scenario: unit "01" gives X001 and X002, unit "02"
    gives X002 again and X003, the eligibility list holds X001 and X002.
    The run ends with three zones: X002 is there twice. *)
Example end_to_end_scenario :
  ∃ log lmi_zones,
    build_full_territory_map.main_for ["X001"; "X002"] net_two_units =
      MkRun log (inr (Some lmi_zones)) ∧
    log = [TargetZones 2; CountiesToFetch 2; FetchingCounty "01"; GotTracts 2;
           FetchingCounty "02"; GotTracts 2; TotalFetched 4; QualifyingZones 3] ∧
    rows lmi_zones = [X001; X002; X002].
Proof. eexists _, _. split; [vm_compute; reflexivity|]. split; reflexivity. Qed.

(** A boundary file without CRS: [main] reprojects the zones to EPSG:4326,
    leaves the boundary untagged, and clips the one against the other. *)
Example untagged_boundary_is_clipped :
  ∃ layers clipped,
    main (Some territory_untagged) (Some zones_3857) None None =
      MkRun [Reprojecting "Opportunity Zones" (Some 3857%N) EPSG_4326;
             Clipped "Opportunity Zones" 2 2]
            (inr (Some layers)) ∧
    oz_clipped layers = Some clipped ∧
    crs clipped = Some EPSG_4326 ∧ crs (utility_gdf layers) = None.
Proof. eexists _, _. split; [vm_compute; reflexivity|]. repeat split. Qed.

(** A frame with a datetime column, sanitized. *)
Example prepare_for_json_dated :
  prepare_for_json (Some dated) =
  Some (MkFrame [("GEOID", DObject); ("updated", DObject)]
          [MkRow (<["GEOID" := VStr "X001"]> (<["updated" := VStr "1700000000"]> ∅))
                 (box 0 0 2 2);
           MkRow (<["GEOID" := VStr "X002"]> (<["updated" := VStr "NaT"]> ∅))
                 (box 2 0 2 2)]
          (Some EPSG_4326)).
Proof. vm_compute. reflexivity. Qed.

(** An identifier is matched whole: a prefix of a listed identifier, or a
    longer string, is no member. *)
Example isin_is_exact :
  isin (Some (VStr "51760000101")) ["51760000101"] = true ∧
  isin (Some (VStr "5176000010")) ["51760000101"] = false ∧
  isin (Some (VStr "517600001010")) ["51760000101"] = false ∧
  isin (Some (VInt 51760000101)) ["51760000101"] = false.
Proof. repeat split. Qed.

(** The counties [main] of build_full_territory_map.py queries. *)
Example county_codes_of_qct_list :
  build_full_territory_map.county_codes build_full_territory_map.get_virginia_qct_geoids =
  ["013"; "041"; "059"; "087"; "510"; "540"; "550"; "570"; "590"; "650";
   "670"; "680"; "700"; "710"; "730"; "740"; "760"; "800"; "810"].
Proof. vm_compute. reflexivity. Qed.

(* ----------------------------------------------------------------- *)
(** ** C1: the aggregator keeps duplicates *)

(** C1, counterexample.  Units A and B both hold X002; the aggregate holds
    it twice, so identifiers are not unique in the output and the second
    entry is not discarded. *)
Lemma aggregator_keeps_duplicates :
  ∃ df out,
    pd_concat [unit_A; unit_B] = inr df ∧
    GeoDataFrame_new df EPSG_4326 = inr out ∧
    rows out = [X001; X002; X002; X003] ∧
    geoids out = ["X001"; "X002"; "X002"; "X003"] ∧
    ¬ NoDup (geoids out).
Proof.
  eexists _, _. split; [vm_compute; reflexivity|]. split; [vm_compute; reflexivity|].
  split; [reflexivity|]. split; [vm_compute; reflexivity|].
  change (¬ NoDup ["X001"; "X002"; "X002"; "X003"]).
  intros Hnd. apply NoDup_cons in Hnd as [_ Hnd]. apply NoDup_cons in Hnd as [Hin _].
  apply Hin. by left.
Qed.

(** Units A and C share no identifier. *)
Lemma aggregator_concatenates_witness :
  ∃ df out,
    pd_concat [unit_A; unit_C] = inr df ∧ GeoDataFrame_new df EPSG_4326 = inr out ∧
    rows out = flat_map rows [unit_A; unit_C] ∧
    geoids out = flat_map geoids [unit_A; unit_C] ∧
    (NoDup (flat_map geoids [unit_A; unit_C]) → NoDup (geoids out)) ∧
    crs out = Some EPSG_4326.
Proof.
  apply (aggregator_concatenates [unit_A; unit_C]).
  - discriminate.
  - repeat constructor.
Defined.

(* ----------------------------------------------------------------- *)
(** ** C2: the clipper on a CRS mismatch *)

(** C2, counterexample.  The zones are in EPSG:3857, the territory in
    EPSG:4326.  The clipper intersects the raw coordinates, finds nothing
    in common and returns an empty dataset with the usual progress line:
    no failure is signalled. *)
Lemma clip_crs_mismatch_is_silent :
  crs zones_3857 ≠ crs territory ∧
  clip_to_boundary (Some zones_3857) (Some territory) "QCT Zones" =
    MkRun [Clipped "QCT Zones" 2 0]
          (inr (Some (MkFrame tract_dtypes [] (Some 3857%N)))) ∧
  ¬ signals_failure (clip_to_boundary (Some zones_3857) (Some territory) "QCT Zones").
Proof.
  split; [discriminate|]. split; [vm_compute; reflexivity|].
  vm_compute. tauto.
Qed.

(** The same mismatch, through the theorem. *)
Lemma clip_to_boundary_ignores_crs_witness :
  polygonal zones_3857 ∧ polygonal territory ∧ crs zones_3857 ≠ crs territory ∧
  clip_to_boundary (Some zones_3857) (Some territory) "QCT Zones" =
    MkRun [Clipped "QCT Zones" (len zones_3857)
                   (length (clipped_rows (rows zones_3857) (map geometry (rows territory))))]
          (inr (Some (MkFrame (dtypes zones_3857)
                              (clipped_rows (rows zones_3857) (map geometry (rows territory)))
                              (crs zones_3857)))).
Proof.
  assert (Hz : polygonal zones_3857) by (repeat constructor).
  assert (Ht : polygonal territory) by (repeat constructor).
  assert (Hc : crs zones_3857 ≠ crs territory) by discriminate.
  split; [exact Hz|]. split; [exact Ht|]. split; [exact Hc|].
  exact (proj1 (proj2 (proj2 (clip_to_boundary_ignores_crs zones_3857 territory
                                (crs zones_3857) (crs territory) "QCT Zones")))
           Hz Ht Hc).
Defined.

(* ----------------------------------------------------------------- *)
(** ** The theorems at concrete inputs *)

(** Unit B against the list of X001 and X002. *)
Lemma eligibility_filter_membership_witness :
  has_column "GEOID" unit_B ∧
  ∃ out,
    getitem_isin unit_B "GEOID" ["X001"; "X002"] = inr out ∧
    (∀ r, r ∈ rows out ↔
          r ∈ rows unit_B ∧ ∃ s, geoid r = Some s ∧ s ∈ ["X001"; "X002"]) ∧
    rows out `sublist_of` rows unit_B ∧
    dtypes out = dtypes unit_B ∧ crs out = crs unit_B ∧
    getitem_isin unit_B "GEOID" [] = inr (MkFrame (dtypes unit_B) [] (crs unit_B)).
Proof.
  assert (Hcol : has_column "GEOID" unit_B) by (by left).
  split; [exact Hcol|].
  exact (eligibility_filter_membership unit_B ["X001"; "X002"] Hcol).
Defined.

(** Unit A against a list of absent identifiers, and against a list that
    holds all of its identifiers. *)
Lemma eligibility_filter_absent_or_all_witness :
  has_column "GEOID" unit_A ∧
  getitem_isin unit_A "GEOID" ["X003"; "X004"] = inr (MkFrame (dtypes unit_A) [] (crs unit_A)) ∧
  getitem_isin unit_A "GEOID" ["X002"; "X001"; "X003"] = inr unit_A.
Proof.
  assert (Hcol : has_column "GEOID" unit_A) by (by left).
  split; [exact Hcol|]. split.
  - apply (proj1 (eligibility_filter_absent_or_all unit_A ["X003"; "X004"] Hcol)).
    intros s Hs. change (s ∉ ["X001"; "X002"]).
    rewrite !elem_of_cons in Hs. rewrite !not_elem_of_cons.
    destruct Hs as [->|[->|Hs]]; [| |by apply elem_of_nil in Hs];
      repeat split; try discriminate; apply not_elem_of_nil.
  - apply (proj2 (eligibility_filter_absent_or_all unit_A ["X002"; "X001"; "X003"] Hcol)).
    + repeat constructor; by eexists.
    + intros s Hs. change (s ∈ ["X001"; "X002"]) in Hs.
      rewrite !elem_of_cons in Hs. rewrite !elem_of_cons.
      destruct Hs as [->|[->|Hs]]; [tauto|tauto|by apply elem_of_nil in Hs].
Defined.

(** Unit B against a territory far away. *)
Lemma clip_to_boundary_zero_overlap_witness :
  polygonal unit_B ∧ polygonal far_territory ∧
  clip_to_boundary (Some unit_B) (Some far_territory) "QCT Zones" =
    MkRun [Clipped "QCT Zones" 2 0] (inr (Some (MkFrame (dtypes unit_B) [] (crs unit_B)))).
Proof.
  assert (Hz : polygonal unit_B) by (repeat constructor).
  assert (Ht : polygonal far_territory) by (repeat constructor).
  split; [exact Hz|]. split; [exact Ht|].
  apply (proj1 (clip_to_boundary_zero_overlap unit_B far_territory "QCT Zones" Hz Ht)).
  repeat constructor.
Defined.

(** Unit A lies within the territory. *)
Lemma clip_to_boundary_contained_witness :
  geom_type (geometry territory_polygon) = Polygonal ∧
  Forall (λ r, geom_type (geometry r) = Polygonal ∧ is_empty (geometry r) = false ∧
               within (geometry r) (geometry territory_polygon)) (rows unit_A) ∧
  clip_to_boundary (Some unit_A) (Some territory) "QCT Zones" =
    MkRun [Clipped "QCT Zones" 2 2] (inr (Some unit_A)).
Proof.
  assert (Hb : geom_type (geometry territory_polygon) = Polygonal) by reflexivity.
  assert (Hin : Forall (λ r, geom_type (geometry r) = Polygonal ∧
                             is_empty (geometry r) = false ∧
                             within (geometry r) (geometry territory_polygon))
                       (rows unit_A)).
  { repeat constructor. }
  split; [exact Hb|]. split; [exact Hin|].
  exact (clip_to_boundary_contained unit_A territory_polygon [] (Some EPSG_4326)
           "QCT Zones" Hb Hin).
Defined.

(** Three counties, the second of which cannot be reached. *)
Lemma fetch_failure_skips_unit_witness :
  fetch_failure (net_one_down "51" "710") ∧
  merge_sort item_le three_units =
    [("550", "Chesapeake")] ++ ("710", "Norfolk") :: [("810", "Virginia Beach")] ∧
  outcome (build_vipr_complete_map.fetch_all_tracts_for_county net_one_down "710")
    = inr None ∧
  ∃ out,
    outcome (build_vipr_complete_map.main_for three_units net_one_down) = inr (Some out) ∧
    rows out = flat_map rows [setitem_str "COUNTY_NAME" "Chesapeake" unit_A;
                              setitem_str "COUNTY_NAME" "Virginia Beach" unit_C] ∧
    crs out = Some EPSG_4326.
Proof.
  assert (Hfail : fetch_failure (net_one_down "51" "710")) by apply network_error.
  assert (Hsorted : merge_sort item_le three_units =
            [("550", "Chesapeake")] ++ ("710", "Norfolk") :: [("810", "Virginia Beach")])
    by reflexivity.
  destruct (fetch_failure_skips_unit net_one_down) as (_ & Hfetch & _ & _ & Hmain).
  split; [exact Hfail|]. split; [exact Hsorted|]. split; [exact (Hfetch "710" Hfail)|].
  apply (Hmain three_units [("550", "Chesapeake")] ("710", "Norfolk")
               [("810", "Virginia Beach")]); [exact Hsorted|exact Hfail| | |].
  - constructor; [vm_compute; reflexivity|].
    constructor; [vm_compute; reflexivity|]. constructor.
  - discriminate.
  - left. by right; left.
Defined.

(** An empty answer, and each kind of failure. *)
Lemma empty_fetch_same_as_failure_witness :
  net_empty "51" "710" = empty_success ∧
  outcome (build_full_territory_map.fetch_tracts_for_county net_empty "51" "710")
    = inr None ∧
  outcome (build_vipr_complete_map.fetch_all_tracts_for_county net_empty "710")
    = inr None ∧
  outcome (build_full_territory_map.fetch_tracts_for_county net_down "51" "710")
    = inr None ∧
  outcome (build_full_territory_map.fetch_tracts_for_county net_garbled "51" "710")
    = inr None ∧
  build_full_territory_map.fetch_tracts_for_county net_empty "51" "710" =
    build_full_territory_map.fetch_tracts_for_county net_503 "51" "710".
Proof.
  assert (Hempty : net_empty "51" "710" = empty_success) by reflexivity.
  split; [exact Hempty|].
  destruct (empty_fetch_same_as_failure net_empty "51" "710") as (H1 & H2 & H3 & _).
  split; [exact (H1 (or_introl Hempty))|]. split; [exact (H2 (or_introl Hempty))|].
  split; [|split].
  - apply (proj1 (empty_fetch_same_as_failure net_down "51" "710")).
    right. apply network_error.
  - apply (proj1 (empty_fetch_same_as_failure net_garbled "51" "710")).
    right. apply payload_not_json.
  - apply (H3 net_503 503%Z NotJSON Hempty); [reflexivity|discriminate].
Defined.

(* ================================================================= *)
(** * Further properties of the scripts *)

Section NormalizerProperties.
Context {G : Type} `{!Geometry G} `{!TimestampFormat}.
Implicit Types (gdf boundary : GeoDataFrame G) (r : Row G).

Import filter_zones_dominion.

Lemma ensure_same_crs_run gdf target name :
  ensure_same_crs (Some gdf) target name =
  MkRun ((if crs gdf is None then [WarnNoCRS name] else []) ++
         (if decide (source_crs gdf = target) then []
          else [Reprojecting name (Some (source_crs gdf)) target]))
        (inr (Some (MkFrame (dtypes gdf)
                            (if decide (source_crs gdf = target) then rows gdf
                             else map (with_geometry (transform (source_crs gdf) target))
                                      (rows gdf))
                            (Some target)))).
Proof.
  unfold ensure_same_crs, set_crs, source_crs.
  destruct gdf as [ds rs [c|]]; unfold mbind, Run_bind; simpl.
  - destruct (decide (Some c ≠ Some target)) as [Hne|Heq]; simpl.
    + unfold to_crs; simpl. rewrite !decide_False by congruence. done.
    + apply dec_stable in Heq. simplify_eq. by rewrite !decide_True.
  - destruct (decide (Some EPSG_4326 ≠ Some target)) as [Hne|Heq]; simpl.
    + unfold to_crs; simpl. rewrite !decide_False by congruence. done.
    + apply dec_stable in Heq. simplify_eq. by rewrite !decide_True.
Qed.

(** X1.  [ensure_same_crs] never raises on a frame.  Its result carries the
    target CRS, the columns and dtypes of the input and as many rows, each
    with the attributes of the input row and the geometry of the input
    row taken from the frame's CRS (EPSG:4326 when it declares none) to
    the target. *)
Theorem ensure_same_crs_postcondition (gdf : GeoDataFrame G) (target : CRS)
    (name : string) :
  ∃ log out,
    ensure_same_crs (Some gdf) target name = MkRun log (inr (Some out)) ∧
    crs out = Some target ∧
    dtypes out = dtypes gdf ∧
    map attrs (rows out) = map attrs (rows gdf) ∧
    map geometry (rows out) =
      map (λ r, reprojected (source_crs gdf) target (geometry r)) (rows gdf).
Proof.
  eexists _, _. split; [apply ensure_same_crs_run|]. simpl.
  split; [done|]. split; [done|]. unfold reprojected.
  destruct (decide (source_crs gdf = target)); [done|].
  split; induction (rows gdf) as [|r rs IH]; simpl; try done; by f_equal.
Qed.

(** X2.  A frame that declares no CRS is handled as a frame in EPSG:4326:
    the result is the one for the same frame tagged EPSG:4326, after one
    more line, the warning. *)
Theorem ensure_same_crs_assumes_4326 (gdf : GeoDataFrame G) (target : CRS)
    (name : string) :
  outcome (ensure_same_crs (Some (retag None gdf)) target name) =
    outcome (ensure_same_crs (Some (retag (Some EPSG_4326) gdf)) target name) ∧
  printed (ensure_same_crs (Some (retag None gdf)) target name) =
    WarnNoCRS name ::
    printed (ensure_same_crs (Some (retag (Some EPSG_4326) gdf)) target name).
Proof. by rewrite !ensure_same_crs_run. Qed.

(** X3.  [ensure_same_crs] prints nothing exactly when the frame already
    declares the target CRS, and then it returns the frame itself. *)
Theorem ensure_same_crs_silent_iff (gdf : GeoDataFrame G) (target : CRS)
    (name : string) :
  (printed (ensure_same_crs (Some gdf) target name) = [] ↔ crs gdf = Some target) ∧
  (crs gdf = Some target →
   ensure_same_crs (Some gdf) target name = MkRun [] (inr (Some gdf))).
Proof.
  rewrite ensure_same_crs_run. split.
  - simpl. unfold source_crs. destruct (crs gdf) as [c|]; simpl.
    + destruct (decide (c = target)) as [->|Hne]; simpl; [done|].
      split; [done|]. by intros [= ->].
    + split; [done|done].
  - intros Hcrs. destruct gdf as [ds rs c]. simpl in Hcrs. subst c.
    unfold source_crs. simpl. by rewrite !decide_True.
Qed.

(** X5.  A frame without datetime-typed columns comes back from
    [prepare_for_json] as it is. *)
Theorem prepare_for_json_no_datetime (gdf : GeoDataFrame G) :
  no_datetime gdf → prepare_for_json (Some gdf) = Some gdf.
Proof.
  intros Hno. simpl. f_equal. apply prepare_fold_noop, Forall_forall.
  intros col _. right. unfold is_datetime64_any_dtype.
  apply bool_decide_eq_false_2. intros Hdt.
  induction Hno as [|[c d] ds Hd _ IH]; simpl in *; [done|].
  destruct (decide (c = col)); simplify_eq/=; auto.
Qed.

End NormalizerProperties.

Section ClipperProperties.
Context {G : Type} `{!Geometry G} `{!TimestampFormat}.
Implicit Types (gdf boundary : GeoDataFrame G) (r : Row G).

Import filter_zones_dominion.

Lemma clip_to_boundary_run gdf boundary name :
  clip_to_boundary (Some gdf) (Some boundary) name =
  match overlay_intersection gdf (getitem_geometry boundary) with
  | inl e => MkRun [ErrorClipping name e] (inr None)
  | inr clipped => MkRun [Clipped name (len gdf) (len clipped)] (inr (Some clipped))
  end.
Proof.
  unfold clip_to_boundary.
  by destruct (overlay_intersection gdf (getitem_geometry boundary)).
Qed.

Lemma clip_to_boundary_Some gdf boundary name out :
  outcome (clip_to_boundary (Some gdf) (Some boundary) name) = inr (Some out) →
  out = MkFrame (dtypes gdf)
                (keep_geom_type (rows gdf)
                   (flat_map (λ r, flat_map (overlay_pair r) (map geometry (rows boundary)))
                             (rows gdf)))
                (crs gdf).
Proof.
  rewrite clip_to_boundary_run. unfold overlay_intersection, getitem_geometry. simpl.
  destruct (_ || _); simpl; [done|]. by intros [= <-].
Qed.

Lemma elem_of_keep_geom_type (df1 result : list (Row G)) r :
  r ∈ keep_geom_type df1 result → r ∈ result.
Proof.
  unfold keep_geom_type. destruct df1 as [|r0 ?]; [done|].
  rewrite !list_elem_of_In, filter_In. tauto.
Qed.

Lemma keep_geom_type_sublist (df1 result : list (Row G)) :
  keep_geom_type df1 result `sublist_of` result.
Proof. unfold keep_geom_type. destruct df1; [done|]. apply filter_sublist. Qed.

Lemma omap_sublist {A B} (f : A → option B) (l k : list A) :
  l `sublist_of` k → omap f l `sublist_of` omap f k.
Proof.
  induction 1 as [|x l k _ IH|x l k _ IH]; simpl.
  - constructor.
  - destruct (f x); [by constructor|done].
  - destruct (f x); [by constructor|done].
Qed.

(** X6.  [clip_to_boundary] never raises: whatever it is given, it
    returns, and a missing dataset or boundary gives no data without a
    line printed. *)
Theorem clip_to_boundary_never_raises (gdf boundary : option (GeoDataFrame G))
    (name : string) :
  (∃ o, outcome (clip_to_boundary gdf boundary name) = inr o) ∧
  (gdf = None ∨ boundary = None →
   clip_to_boundary gdf boundary name = MkRun [] (inr None)).
Proof.
  split.
  - destruct gdf as [g|], boundary as [b|]; try (by eexists).
    rewrite clip_to_boundary_run. destruct (overlay_intersection _ _); by eexists.
  - intros [-> | ->]; [done|]. by destruct gdf.
Qed.

(** X7.  A dataset or a boundary that mixes families of geometry types
    (polygons with lines or points) is not clipped: the overlay's
    NotImplementedError is caught, reported in one line, and the clipper
    returns no data. *)
Theorem clip_to_boundary_mixed_types (gdf boundary : GeoDataFrame G) (name : string) :
  mixed_geometry_types (map geometry (rows gdf)) = true ∨
  mixed_geometry_types (map geometry (rows boundary)) = true →
  clip_to_boundary (Some gdf) (Some boundary) name =
  MkRun [ErrorClipping name NotImplementedError] (inr None).
Proof.
  intros Hmixed. rewrite clip_to_boundary_run.
  unfold overlay_intersection, getitem_geometry. simpl.
  destruct Hmixed as [-> | ->]; [done|]. by rewrite orb_true_r.
Qed.

(** X8.  Every row of a clipped dataset comes from a row of the dataset
    and a geometry of the boundary that intersect: it has the attributes
    of the former, and its geometry is their intersection, which is not
    empty.  The columns and the CRS tag are the dataset's. *)
Theorem clip_to_boundary_provenance (gdf boundary : GeoDataFrame G) (name : string)
    (out : GeoDataFrame G) :
  outcome (clip_to_boundary (Some gdf) (Some boundary) name) = inr (Some out) →
  dtypes out = dtypes gdf ∧ crs out = crs gdf ∧
  ∀ r', r' ∈ rows out →
    ∃ r b, r ∈ rows gdf ∧ b ∈ rows boundary ∧
           attrs r' = attrs r ∧
           geometry r' = intersection (geometry r) (geometry b) ∧
           is_empty (geometry r') = false.
Proof.
  intros Hout. apply clip_to_boundary_Some in Hout as ->. simpl.
  split; [done|]. split; [done|]. intros r' Hr'.
  apply elem_of_keep_geom_type in Hr'.
  apply list_elem_of_In, in_flat_map in Hr' as (r & Hr & Hr').
  apply in_flat_map in Hr' as (g & Hg & Hr').
  apply list_elem_of_In, list_elem_of_fmap in Hg as (b & -> & Hb).
  unfold overlay_pair, intersects in Hr'.
  destruct (is_empty (intersection (geometry r) (geometry b))) eqn:Hempty; simpl in Hr';
    [done|].
  destruct Hr' as [<-|[]]. apply list_elem_of_In in Hr. by exists r, b.
Qed.

Lemma overlay_single_sublist (rs : list (Row G)) (b : G) :
  map attrs (flat_map (λ r, flat_map (overlay_pair r) [b]) rs) `sublist_of` map attrs rs.
Proof.
  induction rs as [|r rs IH]; simpl; [done|]. rewrite app_nil_r.
  unfold overlay_pair at 1. destruct (intersects (geometry r) b); simpl.
  - by constructor.
  - by constructor.
Qed.

(** X9.  Against a boundary of one geometry the clipper returns at most
    one row per input row, in input order: the identifiers of the result
    are a subsequence of the identifiers of the dataset, so identifiers
    that were unique stay unique, and the result is no longer than the
    dataset. *)
Theorem clip_to_boundary_single_boundary (gdf : GeoDataFrame G) (b : Row G)
    (boundary_dtypes : list (string * dtype)) (boundary_crs : option CRS)
    (name : string) (out : GeoDataFrame G) :
  outcome (clip_to_boundary (Some gdf) (Some (MkFrame boundary_dtypes [b] boundary_crs))
                            name) = inr (Some out) →
  map attrs (rows out) `sublist_of` map attrs (rows gdf) ∧
  geoids out `sublist_of` geoids gdf ∧
  (NoDup (geoids gdf) → NoDup (geoids out)) ∧
  (len out <= len gdf)%nat.
Proof.
  intros Hout. apply clip_to_boundary_Some in Hout as ->. simpl.
  assert (Hsub : map attrs (keep_geom_type (rows gdf)
                   (flat_map (λ r, flat_map (overlay_pair r) [geometry b]) (rows gdf)))
                 `sublist_of` map attrs (rows gdf)).
  { etrans; [|apply overlay_single_sublist].
    apply (fmap_sublist attrs), keep_geom_type_sublist. }
  assert (Hids : ∀ rs : list (Row G),
            omap geoid rs =
            omap (λ a : gmap string Value,
                    match a !! "GEOID" with Some (VStr s) => Some s | _ => None end)
                 (map attrs rs)).
  { induction rs as [|r rs IH]; [done|]. cbn. unfold geoid at 1.
    destruct (attrs r !! "GEOID") as [[]|]; cbn; try f_equal; exact IH. }
  assert (Hgeo : geoids (MkFrame (dtypes gdf)
                   (keep_geom_type (rows gdf)
                      (flat_map (λ r, flat_map (overlay_pair r) [geometry b]) (rows gdf)))
                   (crs gdf)) `sublist_of` geoids gdf).
  { unfold geoids. simpl. rewrite !Hids. by apply omap_sublist. }
  split; [exact Hsub|]. split; [exact Hgeo|]. split.
  - intros Hnd. by eapply sublist_NoDup.
  - unfold len. simpl. apply sublist_length in Hsub. by rewrite !length_map in Hsub.
Qed.

Lemma clipped_rows_filter (rs : list (Row G)) bs (f : gmap string Value → bool) :
  List.filter (λ r, f (attrs r)) (clipped_rows rs bs) =
  clipped_rows (List.filter (λ r, f (attrs r)) rs) bs.
Proof.
  induction rs as [|r rs IH]; [done|].
  change (r :: rs) with ([r] ++ rs).
  rewrite clipped_rows_app, !List.filter_app, clipped_rows_app, IH. f_equal.
  simpl. destruct (f (attrs r)) eqn:Hf.
  - apply filter_all, Forall_forall. intros r' Hr'.
    unfold clipped_rows in Hr'. apply list_elem_of_In, filter_In in Hr' as [Hr' _].
    simpl in Hr'. rewrite app_nil_r in Hr'.
    apply in_flat_map in Hr' as (b & _ & Hr'). unfold overlay_pair in Hr'.
    destruct (intersects _ _); [|done]. destruct Hr' as [<-|[]]. done.
  - apply filter_none, Forall_forall. intros r' Hr'.
    unfold clipped_rows in Hr'. apply list_elem_of_In, filter_In in Hr' as [Hr' _].
    simpl in Hr'. rewrite app_nil_r in Hr'.
    apply in_flat_map in Hr' as (b & _ & Hr'). unfold overlay_pair in Hr'.
    destruct (intersects _ _); [|done]. destruct Hr' as [<-|[]]. done.
Qed.

(** X10.  On polygons, clipping and eligibility filtering can be done in
    either order: filtering the clipped dataset gives the frame that
    clipping the filtered dataset gives. *)
Theorem clip_then_filter_is_filter_then_clip (gdf boundary : GeoDataFrame G)
    (eligible : list string) (name : string) :
  polygonal gdf → polygonal boundary → has_column "GEOID" gdf →
  ∃ clipped filtered out,
    outcome (clip_to_boundary (Some gdf) (Some boundary) name) = inr (Some clipped) ∧
    getitem_isin clipped "GEOID" eligible = inr out ∧
    getitem_isin gdf "GEOID" eligible = inr filtered ∧
    outcome (clip_to_boundary (Some filtered) (Some boundary) name) = inr (Some out).
Proof.
  intros Hg Hb Hcol. eexists _, _, _.
  split; [by rewrite clip_polygonal|].
  split; [by rewrite getitem_isin_rows|].
  split; [by rewrite getitem_isin_rows|].
  rewrite clip_polygonal; [|unfold polygonal in *; simpl|done].
  - simpl. do 3 f_equal.
    symmetry. apply (clipped_rows_filter _ _ (λ a, isin (a !! "GEOID") eligible)).
  - apply Forall_forall. intros r Hr. apply list_elem_of_In, filter_In in Hr as [Hr _].
    rewrite Forall_forall in Hg. by apply Hg, list_elem_of_In.
Qed.

(* ----------------------------------------------------------------- *)
(** ** [main] of filter_zones_dominion.py *)

Lemma ensure_same_crs_returns (g : option (GeoDataFrame G)) target name :
  ∃ log o,
    ensure_same_crs g target name = MkRun log (inr o) ∧
    (g = None → o = None) ∧
    (∀ out, o = Some out → crs out = Some target).
Proof.
  destruct g as [gdf|].
  - rewrite ensure_same_crs_run. eexists _, _. split; [done|]. split; [done|].
    by intros out [= <-].
  - by eexists _, _.
Qed.

Lemma clip_to_boundary_returns (g : option (GeoDataFrame G)) boundary name :
  ∃ log o,
    clip_to_boundary g (Some boundary) name = MkRun log (inr o) ∧
    (g = None → o = None) ∧
    (∀ out, o = Some out → ∃ gdf, g = Some gdf ∧ crs out = crs gdf).
Proof.
  destruct g as [gdf|].
  - rewrite clip_to_boundary_run.
    unfold overlay_intersection. destruct (_ || _).
    + eexists _, _. split; [done|]. split; [done|]. done.
    + eexists _, _. split; [done|]. split; [done|]. intros out [= <-]. by exists gdf.
  - eexists _, _. split; [done|]. split; [done|]. done.
Qed.

Lemma main_run utility oz qct streets :
  ∃ l1 l2 l3 l4 l5 oz' qct' streets' ozc qctc,
    ensure_same_crs oz (source_crs utility) "Opportunity Zones" = MkRun l1 (inr oz') ∧
    ensure_same_crs qct (source_crs utility) "QCT Zones" = MkRun l2 (inr qct') ∧
    ensure_same_crs streets (source_crs utility) "Streets" = MkRun l3 (inr streets') ∧
    clip_to_boundary oz' (Some utility) "Opportunity Zones" = MkRun l4 (inr ozc) ∧
    clip_to_boundary qct' (Some utility) "QCT Zones" = MkRun l5 (inr qctc) ∧
    main (Some utility) oz qct streets =
      MkRun (l1 ++ l2 ++ l3 ++ l4 ++ l5)
            (inr (Some (MkLayers utility ozc qctc streets'))).
Proof.
  destruct (ensure_same_crs_returns oz (source_crs utility) "Opportunity Zones")
    as (l1 & oz' & H1 & _).
  destruct (ensure_same_crs_returns qct (source_crs utility) "QCT Zones")
    as (l2 & qct' & H2 & _).
  destruct (ensure_same_crs_returns streets (source_crs utility) "Streets")
    as (l3 & streets' & H3 & _).
  destruct (clip_to_boundary_returns oz' utility "Opportunity Zones")
    as (l4 & ozc & H4 & _).
  destruct (clip_to_boundary_returns qct' utility "QCT Zones")
    as (l5 & qctc & H5 & _).
  exists l1, l2, l3, l4, l5, oz', qct', streets', ozc, qctc.
  repeat (split; [done|]).
  unfold main.
  change (match crs utility with Some c => c | None => EPSG_4326 end)
    with (source_crs utility).
  unfold mbind, Run_bind. rewrite H1. simpl. rewrite H2. simpl. rewrite H3. simpl.
  rewrite H4. simpl. rewrite H5. simpl. by rewrite app_nil_r.
Qed.

(** X11.  Steps 2 and 3 of filter_zones_dominion's [main] never raise.
    Without a boundary [main] stops at once with its error line.  With a
    boundary it always hands the layers to the map builder: the boundary
    as loaded, a missing layer as missing, and the streets aligned to the
    boundary's CRS but not clipped. *)
Theorem dominion_main_completes (oz qct streets : option (GeoDataFrame G)) :
  main None oz qct streets = MkRun [ErrorNoBoundary] (inr None) ∧
  ∀ utility, ∃ log layers,
    main (Some utility) oz qct streets = MkRun log (inr (Some layers)) ∧
    utility_gdf layers = utility ∧
    (oz = None → oz_clipped layers = None) ∧
    (qct = None → qct_clipped layers = None) ∧
    outcome (ensure_same_crs streets (source_crs utility) "Streets") =
      inr (streets_gdf layers).
Proof.
  split; [done|]. intros utility.
  destruct (main_run utility oz qct streets)
    as (l1 & l2 & l3 & l4 & l5 & oz' & qct' & streets' & ozc & qctc &
        H1 & H2 & H3 & H4 & H5 & Hmain).
  eexists _, _. split; [exact Hmain|]. simpl. split; [done|].
  split; [|split].
  - intros ->. simpl in H1. injection H1 as _ <-. simpl in H4. by injection H4 as _ <-.
  - intros ->. simpl in H2. injection H2 as _ <-. simpl in H5. by injection H5 as _ <-.
  - by rewrite H3.
Qed.

(** X12.  Every layer [main] hands on carries one CRS: the boundary's, or
    EPSG:4326 when the boundary file declares none (the boundary itself
    is then still untagged). *)
Theorem dominion_main_layers_crs (utility : GeoDataFrame G)
    (oz qct streets : option (GeoDataFrame G)) (layers : Layers) :
  outcome (main (Some utility) oz qct streets) = inr (Some layers) →
  (∀ g, oz_clipped layers = Some g → crs g = Some (source_crs utility)) ∧
  (∀ g, qct_clipped layers = Some g → crs g = Some (source_crs utility)) ∧
  (∀ g, streets_gdf layers = Some g → crs g = Some (source_crs utility)) ∧
  crs (utility_gdf layers) = crs utility.
Proof.
  intros Hout.
  destruct (main_run utility oz qct streets)
    as (l1 & l2 & l3 & l4 & l5 & oz' & qct' & streets' & ozc & qctc &
        H1 & H2 & H3 & H4 & H5 & Hmain).
  rewrite Hmain in Hout. simpl in Hout. injection Hout as <-. simpl.
  destruct (ensure_same_crs_returns oz (source_crs utility) "Opportunity Zones")
    as (? & ? & H1' & _ & Hoz). rewrite H1 in H1'. injection H1' as <- <-.
  destruct (ensure_same_crs_returns qct (source_crs utility) "QCT Zones")
    as (? & ? & H2' & _ & Hqct). rewrite H2 in H2'. injection H2' as <- <-.
  destruct (ensure_same_crs_returns streets (source_crs utility) "Streets")
    as (? & ? & H3' & _ & Hst). rewrite H3 in H3'. injection H3' as <- <-.
  destruct (clip_to_boundary_returns oz' utility "Opportunity Zones")
    as (? & ? & H4' & _ & Hozc). rewrite H4 in H4'. injection H4' as <- <-.
  destruct (clip_to_boundary_returns qct' utility "QCT Zones")
    as (? & ? & H5' & _ & Hqctc). rewrite H5 in H5'. injection H5' as <- <-.
  split; [|split; [|split; [|done]]].
  - intros g Hg. destruct (Hozc g Hg) as (g0 & -> & ->). by apply Hoz.
  - intros g Hg. destruct (Hqctc g Hg) as (g0 & -> & ->). by apply Hqct.
  - intros g Hg. by apply Hst.
Qed.

End ClipperProperties.

Section SourceClientProperties.
Context {G : Type} `{!Geometry G} `{!TimestampFormat}.
Implicit Types (gdf : GeoDataFrame G) (r : Row G) (net : Network G).

Lemma feature_rows_well_formed (fs : list (FeatureJSON G)) :
  Forall well_formed fs →
  ∃ rs, feature_rows fs = inr rs ∧ map Some rs = map feature_row fs.
Proof.
  induction 1 as [|[|props g] fs Hf _ (rs & Hrs & Hmap)]; simpl.
  - by exists [].
  - done.
  - exists (MkRow props g :: rs). rewrite Hrs. split; [done|]. simpl. by f_equal.
Qed.

Lemma feature_rows_malformed (fs : list (FeatureJSON G)) :
  BadFeature ∈ fs → feature_rows fs = inl MalformedFeature.
Proof.
  induction fs as [|[|props g] fs IH]; intros Hin.
  - by apply elem_of_nil in Hin.
  - done.
  - apply elem_of_cons in Hin as [|Hin]; [done|]. simpl. by rewrite IH.
Qed.

(** X13.  Given an answer with status 200 and a non-empty list of
    well-formed features, both client functions return, without a line
    printed, a frame in EPSG:4326 with one row per feature, in the
    order of the payload, whose attributes are the feature's properties
    and whose geometry is the feature's. *)
Theorem fetch_well_formed_features net (state county : string)
    (fs : list (FeatureJSON G)) :
  net state county = HTTP 200 (JSONObject (Some fs)) →
  fs ≠ [] → Forall well_formed fs →
  ∃ gdf,
    build_full_territory_map.fetch_tracts_for_county net state county =
      MkRun [] (inr (Some gdf)) ∧
    (state = "51" →
     build_vipr_complete_map.fetch_all_tracts_for_county net county =
       MkRun [] (inr (Some gdf))) ∧
    crs gdf = Some EPSG_4326 ∧
    map Some (rows gdf) = map feature_row fs ∧
    len gdf = length fs.
Proof.
  intros Hresp Hne Hwf.
  destruct (feature_rows_well_formed fs Hwf) as (rs & Hrs & Hmap).
  exists (MkFrame (infer_dtypes rs) rs (Some EPSG_4326)).
  assert (Hrun : ∀ resp, resp = HTTP 200 (JSONObject (Some fs)) →
            try_except
              (resp ← call (requests_get resp);
               if decide (resp.1 = 200%Z) then
                 data ← call (resp_json resp.2);
                 features ← call (data_get_features data);
                 if truthy features then
                   gdf ← call (from_features (default [] features) EPSG_4326);
                   mret (Some gdf)
                 else mret None
               else mret None)
              (λ e, print (FetchError e);; mret None) =
            MkRun [] (inr (Some (MkFrame (infer_dtypes rs) rs (Some EPSG_4326))))).
  { intros resp ->. destruct fs as [|f fs]; [done|].
    unfold try_except, mbind, Run_bind, from_features. simpl.
    change (match f with
            | BadFeature => inl MalformedFeature
            | Feature props g =>
                match feature_rows fs with
                | inl e => inl e
                | inr rs => inr (MkRow props g :: rs)
                end
            end) with (feature_rows (f :: fs)).
    by rewrite Hrs. }
  split; [by apply Hrun|]. split; [intros ->; by apply Hrun|].
  split; [done|]. split; [done|].
  unfold len. simpl. apply (f_equal length) in Hmap. by rewrite !length_map in Hmap.
Qed.

(** X14.  What a failed fetch leaves in the log.  A status other than 200,
    a payload without 'features' and an empty feature list are silent:
    the client returns [None] and prints nothing.  A failure that is an
    exception (no answer, a body that is not JSON, a JSON value that is no
    object, a malformed feature) prints one error line naming it.
    [fetch_all_tracts_for_county] is [fetch_tracts_for_county] for state
    "51". *)
Theorem fetch_failure_log net (state county : string) :
  (∀ status body, net state county = HTTP status body → status ≠ 200%Z →
     build_full_territory_map.fetch_tracts_for_county net state county =
       MkRun [] (inr None)) ∧
  (net state county = HTTP 200 (JSONObject None) ∨
   net state county = HTTP 200 (JSONObject (Some [])) →
     build_full_territory_map.fetch_tracts_for_county net state county =
       MkRun [] (inr None)) ∧
  (net state county = NoResponse →
     build_full_territory_map.fetch_tracts_for_county net state county =
       MkRun [FetchError ConnectionError] (inr None)) ∧
  (net state county = HTTP 200 NotJSON →
     build_full_territory_map.fetch_tracts_for_county net state county =
       MkRun [FetchError JSONDecodeError] (inr None)) ∧
  (net state county = HTTP 200 JSONNotObject →
     build_full_territory_map.fetch_tracts_for_county net state county =
       MkRun [FetchError AttributeError] (inr None)) ∧
  (∀ fs, net state county = HTTP 200 (JSONObject (Some fs)) → BadFeature ∈ fs →
     build_full_territory_map.fetch_tracts_for_county net state county =
       MkRun [FetchError MalformedFeature] (inr None)) ∧
  build_vipr_complete_map.fetch_all_tracts_for_county net county =
    build_full_territory_map.fetch_tracts_for_county net "51" county.
Proof.
  unfold build_full_territory_map.fetch_tracts_for_county.
  repeat split.
  - intros status body -> Hst. unfold try_except, mbind, Run_bind. simpl.
    by rewrite decide_False.
  - by intros [-> | ->].
  - by intros ->.
  - by intros ->.
  - by intros ->.
  - intros fs -> Hbad. destruct fs as [|f fs]; [by apply elem_of_nil in Hbad|].
    unfold try_except, mbind, Run_bind, from_features. simpl.
    change (match f with
            | BadFeature => inl MalformedFeature
            | Feature props g =>
                match feature_rows fs with
                | inl e => inl e
                | inr rs => inr (MkRow props g :: rs)
                end
            end) with (feature_rows (f :: fs)).
    by rewrite (feature_rows_malformed _ Hbad).
Qed.

(* ----------------------------------------------------------------- *)
(** ** [main] of build_full_territory_map.py *)

Lemma county_frame_crs net code gdf :
  county_frame net code = Some gdf → crs gdf = Some EPSG_4326.
Proof.
  unfold county_frame. destruct (fetched _) as [tracts|] eqn:Hf; [|done].
  destruct (decide _); [|done]. intros [= <-]. by apply fetched_frame in Hf as [? _].
Qed.

Lemma full_fetch_loop_collects net codes : ∀ all_tracts,
  outcome (build_full_territory_map.fetch_loop net codes all_tracts) =
  inr (all_tracts ++ omap (county_frame net) codes).
Proof.
  induction codes as [|code codes IH]; intros acc; simpl.
  - by rewrite app_nil_r.
  - rewrite !outcome_bind. simpl.
    rewrite fetch_tracts_for_county_fetched. unfold county_frame at 1.
    destruct (fetched (net "51" code)) as [tracts|]; simpl.
    + destruct (decide (0 < len tracts)); simpl; rewrite IH.
      * by rewrite <- app_assoc.
      * done.
    + by rewrite IH.
Qed.

Lemma concat_columns (frames : list (GeoDataFrame G)) df col :
  pd_concat frames = inr df →
  (has_column col df ↔ Exists (has_column col) frames).
Proof.
  intros Hcat. split; [|by apply concat_has_column].
  revert Hcat. unfold pd_concat. destruct frames as [|f fs]; [done|].
  destruct (common_crs _) as [|c]; [done|]. intros [= <-].
  unfold has_column. simpl. rewrite fst_map_pair, elem_of_remove_dups.
  intros Hcol.
  change (col ∈ flat_map (λ f0 : GeoDataFrame G, (dtypes f0).*1) (f :: fs)) in Hcol.
  apply list_elem_of_In, in_flat_map in Hcol as (g & Hg & Hcol).
  apply Exists_exists. exists g. by rewrite !list_elem_of_In.
Qed.

(** What [main] of build_full_territory_map.py comes to, given the frames
    its loop collected. *)
Lemma full_main_outcome (qct_geoids : list string) net :
  outcome (build_full_territory_map.main_for qct_geoids net) =
  match omap (county_frame net) (build_full_territory_map.county_codes qct_geoids) with
  | [] => inr None
  | frames =>
      match pd_concat frames with
      | inl e => inl e
      | inr df =>
          match GeoDataFrame_new df EPSG_4326 with
          | inl e => inl e
          | inr all_tracts_gdf =>
              match getitem_isin all_tracts_gdf "GEOID" qct_geoids with
              | inl e => inl e
              | inr lmi_zones => inr (Some lmi_zones)
              end
          end
      end
  end.
Proof.
  unfold build_full_territory_map.main_for.
  rewrite outcome_bind. unfold print at 1. cbn [outcome].
  rewrite outcome_bind. unfold print at 1. cbn [outcome].
  rewrite outcome_bind, full_fetch_loop_collects. cbn [app].
  destruct (omap _ _) as [|f fs]; [done|].
  rewrite outcome_bind. unfold call at 1. cbn [outcome].
  destruct (pd_concat (f :: fs)) as [e|df]; [done|].
  rewrite outcome_bind. unfold call at 1. cbn [outcome].
  destruct (GeoDataFrame_new df EPSG_4326) as [e|g]; [done|].
  rewrite outcome_bind. unfold print at 1. cbn [outcome].
  rewrite outcome_bind. unfold call at 1. cbn [outcome].
  by destruct (getitem_isin g "GEOID" qct_geoids).
Qed.

Lemma county_frames_crs net codes :
  Forall (λ f, crs f = Some EPSG_4326) (omap (county_frame net) codes).
Proof.
  apply Forall_forall. intros f Hf.
  apply list_elem_of_omap in Hf as (code & _ & Hf). by eapply county_frame_crs.
Qed.

(** X15.  [main] of build_full_territory_map.py stops with no dataset
    exactly when no queried county gave data.  Otherwise, when a fetched
    frame has a GEOID column, it ends with the dataset of the rows of the
    fetched counties, county after county in ascending code order, whose
    identifier is in the eligibility list: every identifier of the
    result is in the list. *)
Theorem full_main_result (qct_geoids : list string) net :
  let frames :=
    omap (county_frame net) (build_full_territory_map.county_codes qct_geoids) in
  (outcome (build_full_territory_map.main_for qct_geoids net) = inr None ↔ frames = []) ∧
  (frames ≠ [] → Exists (has_column "GEOID") frames →
   ∃ lmi_zones,
     outcome (build_full_territory_map.main_for qct_geoids net) = inr (Some lmi_zones) ∧
     rows lmi_zones =
       List.filter (λ r, isin (attrs r !! "GEOID") qct_geoids) (flat_map rows frames) ∧
     crs lmi_zones = Some EPSG_4326 ∧
     ∀ s, s ∈ geoids lmi_zones → s ∈ qct_geoids).
Proof.
  intros frames. rewrite full_main_outcome. fold frames.
  assert (Hcrs : Forall (λ f, crs f = Some EPSG_4326) frames)
    by apply county_frames_crs.
  split.
  - split; [|by intros ->].
    destruct frames as [|f fs] eqn:Hfr; [done|]. intros Hout. exfalso.
    destruct (aggregate_rows (f :: fs)) as (df & out & Hcat & Hnew & _); [done|done|].
    rewrite Hcat, Hnew in Hout. by destruct (getitem_isin out "GEOID" qct_geoids).
  - intros Hne Hcol.
    destruct (aggregate_rows frames Hne Hcrs) as (df & out & Hcat & Hnew & Hrows & Hout).
    assert (Hgeo : has_column "GEOID" out).
    { assert (has_column "GEOID" df) by by eapply concat_has_column.
      unfold GeoDataFrame_new, set_crs in Hnew.
      destruct (crs df); [destruct (decide _); [|done]|]; by simplify_eq. }
    destruct frames as [|f fs]; [done|]. rewrite Hcat, Hnew.
    rewrite getitem_isin_rows by done. eexists. split; [done|]. simpl.
    split; [by rewrite Hrows|]. split; [done|].
    intros s Hs. apply elem_of_geoids in Hs as (r & Hr & Hs). simpl in Hr.
    apply list_elem_of_In, filter_In in Hr as [_ Hr].
    apply isin_geoid in Hr as (s' & Hs' & Hin). congruence.
Qed.

(** X16.  When counties gave data but no fetched frame has a GEOID
    column, [main] of build_full_territory_map.py ends in an uncaught
    [KeyError] for 'GEOID': the eligibility filter is not guarded. *)
Theorem full_main_key_error (qct_geoids : list string) net :
  let frames :=
    omap (county_frame net) (build_full_territory_map.county_codes qct_geoids) in
  frames ≠ [] → ¬ Exists (has_column "GEOID") frames →
  outcome (build_full_territory_map.main_for qct_geoids net) = inl (KeyError "GEOID").
Proof.
  intros frames Hne Hcol. rewrite full_main_outcome. fold frames.
  assert (Hcrs : Forall (λ f, crs f = Some EPSG_4326) frames)
    by apply county_frames_crs.
  destruct (aggregate_rows frames Hne Hcrs) as (df & out & Hcat & Hnew & _).
  destruct frames as [|f fs] eqn:Hfr; [done|]. rewrite Hcat, Hnew.
  unfold getitem_isin. rewrite decide_False; [done|].
  intros Hgeo. apply Hcol. eapply concat_columns; [exact Hcat|].
  unfold GeoDataFrame_new, set_crs in Hnew.
  destruct (crs df); [destruct (decide _); [|done]|]; by simplify_eq.
Qed.

Lemma infer_dtype_not_datetime (cells : list (option Value)) :
  infer_dtype cells ≠ DDatetime64.
Proof. unfold infer_dtype. by repeat destruct (forallb _ _). Qed.

Lemma lookup_dtype_elem col d (ds : list (string * dtype)) :
  lookup_dtype col ds = Some d → (col, d) ∈ ds.
Proof.
  induction ds as [|[c d0] ds IH]; simpl; [done|].
  case_decide; simplify_eq/=; intros Hd; [injection Hd as ->; left | right; auto].
Qed.

Lemma concat_dtype_not_datetime (frames : list (GeoDataFrame G)) col :
  Forall no_datetime frames → concat_dtype frames col ≠ DDatetime64.
Proof.
  intros Hno. unfold concat_dtype.
  set (ds := map (λ f : GeoDataFrame G, lookup_dtype col (dtypes f)) frames).
  assert (Hds : ∀ d, d ∈ remove_dups (omap id ds) → d ≠ DDatetime64).
  { intros d Hd. apply elem_of_remove_dups, list_elem_of_omap in Hd as (o & Ho & Hd).
    simpl in Hd. subst o. apply list_elem_of_fmap in Ho as (f & Hf & Hin).
    symmetry in Hf. apply lookup_dtype_elem in Hf.
    rewrite Forall_forall in Hno. specialize (Hno f Hin).
    unfold no_datetime in Hno. rewrite Forall_forall in Hno. exact (Hno _ Hf). }
  destruct (remove_dups (omap id ds)) as [|d1 [|d2 [|d3 l]]] eqn:Hrd; [done| | |].
  - assert (d1 ≠ DDatetime64) by (apply Hds; by left).
    destruct d1; try done. by destruct (bool_decide _).
  - by destruct d1, d2.
  - by destruct d1, d2.
Qed.

(** X17.  The dataset [main] of build_full_territory_map.py ends with has
    no datetime-typed column, so that the [prepare_for_json] of
    [create_map] hands it on as it is. *)
Theorem full_main_needs_no_sanitizing (qct_geoids : list string) net
    (lmi_zones : GeoDataFrame G) :
  outcome (build_full_territory_map.main_for qct_geoids net) = inr (Some lmi_zones) →
  no_datetime lmi_zones ∧
  filter_zones_dominion.prepare_for_json (Some lmi_zones) = Some lmi_zones.
Proof.
  rewrite full_main_outcome. intros Hout.
  assert (Hno : no_datetime lmi_zones).
  { set (frames := omap (county_frame net)
                        (build_full_territory_map.county_codes qct_geoids)) in *.
    assert (Hframes : Forall no_datetime frames).
    { apply Forall_forall. intros f Hf.
      apply list_elem_of_omap in Hf as (code & _ & Hf). unfold county_frame in Hf.
      destruct (fetched (net "51" code)) as [tracts|] eqn:Hfetched; [|done].
      destruct (decide _); [|done]. injection Hf as <-.
      unfold fetched in Hfetched.
      destruct (net "51" code) as [|status [| |[[|f0 fs]|]]]; try done.
      destruct (decide _); [|done]. unfold from_features in Hfetched.
      destruct (feature_rows (f0 :: fs)) as [|rs]; [done|]. injection Hfetched as <-.
      unfold no_datetime, infer_dtypes. simpl. apply Forall_forall.
      intros cd Hcd. apply list_elem_of_fmap in Hcd as (c & -> & _). simpl.
      apply infer_dtype_not_datetime. }
    destruct frames as [|f fs] eqn:Hfr; [done|].
    destruct (pd_concat (f :: fs)) as [|df] eqn:Hcat; [done|].
    destruct (GeoDataFrame_new df EPSG_4326) as [|g] eqn:Hnew; [done|].
    destruct (getitem_isin g "GEOID" qct_geoids) as [|z] eqn:Hsel; [done|].
    injection Hout as <-.
    assert (Hdf : no_datetime df).
    { unfold pd_concat in Hcat. destruct (common_crs _); [done|]. injection Hcat as <-.
      unfold no_datetime. simpl. apply Forall_forall.
      intros cd Hcd. apply list_elem_of_fmap in Hcd as (c & -> & _). simpl.
      by apply concat_dtype_not_datetime. }
    assert (Hg : dtypes g = dtypes df).
    { unfold GeoDataFrame_new, set_crs in Hnew.
      destruct (crs df); [destruct (decide _); [|done]|]; by simplify_eq. }
    unfold getitem_isin in Hsel. destruct (decide _); [|done]. injection Hsel as <-.
    unfold no_datetime. simpl. by rewrite Hg. }
  split; [exact Hno|].
  simpl. f_equal. apply prepare_fold_noop, Forall_forall.
  intros col _. right. unfold is_datetime64_any_dtype.
  apply bool_decide_eq_false_2. intros Hdt. apply lookup_dtype_elem in Hdt.
  unfold no_datetime in Hno. rewrite Forall_forall in Hno. by apply (Hno _ Hdt).
Qed.

#[local] Instance str_le_total : Total str_le.
Proof.
  intros a b. unfold str_le. destruct (String.leb_total a b) as [-> | ->]; auto.
Qed.

(** X18.  The counties [main] of build_full_territory_map.py queries are
    the characters 2 to 4 of the identifiers of the eligibility list,
    each once, in ascending order. *)
Theorem county_codes_spec (qct_geoids : list string) :
  NoDup (build_full_territory_map.county_codes qct_geoids) ∧
  Sorted str_le (build_full_territory_map.county_codes qct_geoids) ∧
  ∀ code, code ∈ build_full_territory_map.county_codes qct_geoids ↔
          ∃ geoid, geoid ∈ qct_geoids ∧ String.substring 2 3 geoid = code.
Proof.
  unfold build_full_territory_map.county_codes. split; [|split].
  - rewrite merge_sort_Permutation. apply NoDup_remove_dups.
  - apply Sorted_merge_sort, _.
  - intros code. rewrite merge_sort_Permutation, elem_of_remove_dups.
    rewrite list_elem_of_fmap. split; intros (g & ? & ?); by exists g.
Qed.

End SourceClientProperties.

Section ViprMainProperties.
Context {G : Type} `{!Geometry G} `{!TimestampFormat}.
Implicit Types (gdf : GeoDataFrame G) (r : Row G) (net : Network G).

Import build_vipr_complete_map.

Lemma set_dtype_columns col d (ds : list (string * dtype)) :
  (set_dtype col d ds).*1 = ds.*1.
Proof.
  induction ds as [|[c d0] ds IH]; [done|]. cbn. f_equal; [|exact IH].
  by case_decide.
Qed.

Lemma summary_outcome (all_zones : GeoDataFrame G) rs :
  outcome (summary all_zones rs) =
  if decide ("COUNTY" ∈ (dtypes all_zones).*1) then inr tt
  else match rs with [] => inr tt | _ => inl (KeyError "COUNTY") end.
Proof.
  destruct (decide ("COUNTY" ∈ (dtypes all_zones).*1)) as [Hcol|Hcol].
  - by apply summary_returns.
  - destruct rs as [|[region counties] rs]; [done|]. simpl.
    rewrite outcome_bind. unfold call, getitem_isin. simpl.
    by rewrite decide_False.
Qed.

Lemma vipr_main_outcome (counties : list (string * string)) net :
  outcome (main_for counties net) =
  match omap (unit_frame net) (merge_sort item_le counties) with
  | [] => inr None
  | frames =>
      match pd_concat frames with
      | inl e => inl e
      | inr df =>
          match GeoDataFrame_new df EPSG_4326 with
          | inl e => inl e
          | inr all_zones =>
              if decide ("COUNTY" ∈ (dtypes all_zones).*1) then inr (Some all_zones)
              else inl (KeyError "COUNTY")
          end
      end
  end.
Proof.
  unfold main_for. rewrite outcome_bind, fetch_loop_collects. cbn [app].
  destruct (omap _ _) as [|f fs]; [done|].
  rewrite outcome_bind. unfold call at 1. cbn [outcome].
  destruct (pd_concat (f :: fs)) as [e|df]; [done|].
  rewrite outcome_bind. unfold call at 1. cbn [outcome].
  destruct (GeoDataFrame_new df EPSG_4326) as [e|z]; [done|].
  rewrite outcome_bind. unfold print at 1. cbn [outcome].
  rewrite outcome_bind, summary_outcome.
  by destruct (decide ("COUNTY" ∈ (dtypes z).*1)).
Qed.

Lemma unit_frames_crs net items :
  Forall (λ f, crs f = Some EPSG_4326) (omap (unit_frame net) items).
Proof.
  apply Forall_forall. intros f Hf.
  apply list_elem_of_omap in Hf as (item & _ & Hf). by eapply unit_frame_crs.
Qed.

(** X19.  Every row of the dataset [main] of build_vipr_complete_map.py
    ends with is a row fetched for a county of the table, with a
    COUNTY_NAME cell holding the table's name for that county (in place
    of any COUNTY_NAME the service sent) and the fetched geometry. *)
Theorem vipr_main_county_names (counties : list (string * string)) net
    (all_zones : GeoDataFrame G) :
  outcome (main_for counties net) = inr (Some all_zones) →
  has_column "COUNTY_NAME" all_zones ∧
  ∀ r, r ∈ rows all_zones →
    ∃ item tracts r0,
      item ∈ counties ∧
      fetched (net "51" item.1) = Some tracts ∧ r0 ∈ rows tracts ∧
      attrs r = <["COUNTY_NAME" := VStr item.2]> (attrs r0) ∧
      geometry r = geometry r0.
Proof.
  rewrite vipr_main_outcome.
  set (frames := omap (unit_frame net) (merge_sort item_le counties)).
  intros Hout.
  assert (Hne : frames ≠ []) by (intros Hnil; by rewrite Hnil in Hout).
  destruct (aggregate_rows frames Hne (unit_frames_crs _ _))
    as (df & out & Hcat & Hnew & Hrows & _).
  assert (Hdt : dtypes out = dtypes df).
  { unfold GeoDataFrame_new, set_crs in Hnew.
    destruct (crs df); [destruct (decide _); [|done]|]; by simplify_eq. }
  destruct frames as [|f fs] eqn:Hfr; [done|]. rewrite Hcat, Hnew in Hout.
  destruct (decide ("COUNTY" ∈ (dtypes out).*1)); [|done]. injection Hout as <-.
  assert (Hframe : ∀ g, g ∈ f :: fs →
            ∃ item tracts, item ∈ counties ∧ fetched (net "51" item.1) = Some tracts ∧
                           g = setitem_str "COUNTY_NAME" item.2 tracts).
  { intros g Hg. rewrite <- Hfr in Hg. unfold frames in Hg.
    apply list_elem_of_omap in Hg as (item & Hitem & Hg).
    rewrite merge_sort_Permutation in Hitem. unfold unit_frame in Hg.
    destruct (fetched (net "51" item.1)) as [tracts|] eqn:Hf; [|done].
    destruct (decide _); [|done]. injection Hg as <-. by exists item, tracts. }
  split.
  - unfold has_column. rewrite Hdt. eapply concat_has_column; [exact Hcat|].
    apply Exists_cons_hd. destruct (Hframe f) as (item & tracts & _ & _ & ->); [by left|].
    unfold has_column, setitem_str. simpl. case_decide as Hin.
    + by rewrite set_dtype_columns.
    + rewrite fmap_app. apply elem_of_app. right. by left.
  - intros r Hr. rewrite Hrows in Hr.
    apply list_elem_of_In, in_flat_map in Hr as (g & Hg & Hr).
    apply list_elem_of_In in Hg. destruct (Hframe g Hg) as (item & tracts & Hitem & Hf & ->).
    simpl in Hr. apply in_map_iff in Hr as (r0 & <- & Hr0).
    apply list_elem_of_In in Hr0. by exists item, tracts, r0.
Qed.

(** X20.  [main] of build_vipr_complete_map.py stops with no dataset
    exactly when no county of the table gave data.  When counties gave
    data but no fetched frame has a COUNTY column, the coverage summary
    raises a [KeyError] for 'COUNTY' that nothing catches (the map steps
    before the summary are taken to succeed). *)
Theorem vipr_main_stops_or_raises (counties : list (string * string)) net :
  let frames := omap (unit_frame net) (merge_sort item_le counties) in
  (outcome (main_for counties net) = inr None ↔ frames = []) ∧
  (frames ≠ [] → ¬ Exists (has_column "COUNTY") frames →
   outcome (main_for counties net) = inl (KeyError "COUNTY")).
Proof.
  intros frames. rewrite vipr_main_outcome. fold frames.
  assert (Hagg : frames ≠ [] →
            ∃ df out, pd_concat frames = inr df ∧ GeoDataFrame_new df EPSG_4326 = inr out ∧
                      dtypes out = dtypes df).
  { intros Hne. destruct (aggregate_rows frames Hne (unit_frames_crs _ _))
      as (df & out & Hcat & Hnew & _).
    exists df, out. split; [done|]. split; [done|].
    unfold GeoDataFrame_new, set_crs in Hnew.
    destruct (crs df); [destruct (decide _); [|done]|]; by simplify_eq. }
  split.
  - split; [|by intros ->].
    destruct frames as [|f fs] eqn:Hfr; [done|]. intros Hout. exfalso.
    destruct Hagg as (df & out & Hcat & Hnew & _); [done|].
    rewrite Hcat, Hnew in Hout. by destruct (decide _).
  - intros Hne Hcol. destruct (Hagg Hne) as (df & out & Hcat & Hnew & Hdt).
    destruct frames as [|f fs] eqn:Hfr; [done|]. rewrite Hcat, Hnew.
    rewrite decide_False; [done|]. intros Hc. apply Hcol.
    eapply concat_columns; [exact Hcat|]. unfold has_column in *. by rewrite <- Hdt.
Qed.

End ViprMainProperties.

Section RegionalMapsProperties.
Context {G : Type} `{!Geometry G} `{!TimestampFormat}.
Implicit Types (gdf all_zones : GeoDataFrame G) (r : Row G).

Import build_regional_maps.

Lemma outcomeL_bind {L A B} (m : RunL L A) (f : A → RunL L B) :
  outcomeL (m ≫= f) =
  match outcomeL m with
  | inl e => inl e
  | inr a => outcomeL (f a)
  end.
Proof. unfold mbind, RunL_bind. by destruct (outcomeL m). Qed.

Lemma prepare_columns gdf :
  columns (foldl filter_zones_dominion.prepare_column gdf (columns gdf)) = columns gdf.
Proof.
  assert (Hgen : ∀ cols (g : GeoDataFrame G),
            (dtypes (foldl filter_zones_dominion.prepare_column g cols)).*1 = (dtypes g).*1).
  { induction cols as [|c cols IH]; intros g; simpl; [done|]. rewrite IH.
    unfold filter_zones_dominion.prepare_column.
    destruct (decide _); [done|]. destruct (is_datetime64_any_dtype _); [|done].
    simpl. apply set_dtype_columns. }
  unfold columns at 1 3. by rewrite Hgen.
Qed.

Lemma prepare_len gdf :
  len (foldl filter_zones_dominion.prepare_column gdf (columns gdf)) = len gdf.
Proof.
  destruct (prepare_fold_spec (columns gdf) gdf) as (_ & _ & Hrows).
  unfold len. symmetry. by eapply Forall2_length.
Qed.

Lemma create_regional_map_layer (zones_gdf : GeoDataFrame G) (region_key : string)
    (region_info : Region) :
  ∃ m,
    create_regional_map zones_gdf region_key region_info = inr m ∧
    prepare_for_json (Some zones_gdf) = Some (layer m) ∧
    legend_name m = region_name region_info ∧
    legend_count m = len zones_gdf.
Proof.
  unfold create_regional_map, prepare_for_json. simpl.
  eexists. split; [reflexivity|]. simpl. by rewrite prepare_len.
Qed.

(** X21.  The data steps of [create_regional_map] never raise.  The
    tooltip it builds has as many aliases as fields, and every field is a
    column of the layer it is shown on; the layer is the sanitized input
    and the legend counts its rows. *)
Theorem create_regional_map_tooltip (zones_gdf : GeoDataFrame G) (region_key : string)
    (region_info : Region) :
  ∃ m,
    create_regional_map zones_gdf region_key region_info = inr m ∧
    prepare_for_json (Some zones_gdf) = Some (layer m) ∧
    length (tooltip_fields m) = length (tooltip_aliases m) ∧
    Forall (λ field, field ∈ columns (layer m) ∧ field ∈ columns zones_gdf)
           (tooltip_fields m) ∧
    legend_count m = len zones_gdf.
Proof.
  unfold create_regional_map, prepare_for_json.
  cbn [filter_zones_dominion.prepare_for_json].
  eexists. split; [reflexivity|]. cbn [layer tooltip_fields tooltip_aliases legend_count].
  split; [done|]. rewrite prepare_columns, prepare_len.
  split; [|split; [|done]].
  - rewrite !length_app. by repeat case_bool_decide.
  - rewrite !Forall_app.
    repeat split; case_bool_decide; constructor; auto using Forall_nil_2.
Qed.

Lemma region_loop_collects all_zones regions : ∀ saved,
  has_column "COUNTY" all_zones →
  ∃ maps,
    outcomeL (region_loop all_zones regions saved) = inr (saved ++ maps) ∧
    Forall2 (λ (region : string * Region) (pm : string * RegionalMap),
               pm.1 = output_path region.1 ∧
               prepare_for_json (Some (zones_of_region all_zones region.2)) =
                 Some (layer pm.2) ∧
               legend_name pm.2 = region_name region.2 ∧
               legend_count pm.2 = len (zones_of_region all_zones region.2) ∧
               rows (layer pm.2) ≠ [])
            (List.filter (λ region : string * Region,
                            negb (bool_decide (len (zones_of_region all_zones region.2) = 0)))
                         regions)
            maps.
Proof.
  intros saved Hcol. revert saved.
  induction regions as [|[key info] regions IH]; intros saved.
  - exists []. by rewrite app_nil_r.
  - cbn [region_loop]. rewrite outcomeL_bind. unfold printL at 1. cbn [outcomeL].
    rewrite outcomeL_bind. unfold callL at 1. cbn [outcomeL].
    rewrite getitem_isin_rows by done.
    change (MkFrame (dtypes all_zones) _ (crs all_zones))
      with (zones_of_region all_zones info).
    rewrite outcomeL_bind. unfold printL at 1. cbn [outcomeL].
    cbn [List.filter fst snd].
    destruct (decide (len (zones_of_region all_zones info) = 0)) as [Hz|Hz].
    + rewrite bool_decide_eq_true_2 by done. cbn [negb].
      rewrite outcomeL_bind. unfold printL at 1. cbn [outcomeL]. apply IH.
    + rewrite bool_decide_eq_false_2 by done. cbn [negb].
      destruct (create_regional_map_layer (zones_of_region all_zones info) key info)
        as (m & Hm & Hlayer & Hname & Hcount).
      rewrite outcomeL_bind. unfold callL at 1. cbn [outcomeL]. rewrite Hm.
      rewrite outcomeL_bind. unfold printL at 1. cbn [outcomeL].
      destruct (IH (saved ++ [(output_path key, m)])) as (maps & Hmaps & Hall).
      exists ((output_path key, m) :: maps). rewrite Hmaps, <- app_assoc.
      split; [done|]. constructor; [|done]. simpl.
      split; [done|]. split; [done|]. split; [done|]. split; [done|].
      unfold prepare_for_json in Hlayer. simpl in Hlayer. injection Hlayer as <-.
      intros Hnil. apply Hz. rewrite <- (prepare_len (zones_of_region all_zones info)).
      unfold len. by rewrite Hnil.
Qed.

Lemma regional_main_outcome (regions : list (string * Region))
    (all_zones : GeoDataFrame G) :
  outcomeL (main_for regions (inr all_zones)) =
  outcomeL (region_loop all_zones regions []).
Proof.
  unfold main_for. rewrite outcomeL_bind. unfold callL at 1. cbn [outcomeL].
  rewrite outcomeL_bind. unfold printL at 1. cbn [outcomeL].
  rewrite outcomeL_bind.
  destruct (outcomeL (region_loop all_zones regions [])) as [e|saved]; [done|].
  rewrite outcomeL_bind. by unfold printL at 1.
Qed.

(** X22.  Given a dataset with a COUNTY column, [main] of
    build_regional_maps.py goes through every region and writes one map
    per region that has at least one zone, in the order of the region
    table and under the region's path: its layer is the sanitized frame
    of the zones whose COUNTY is one of the region's codes, and its
    legend shows the region's name and the number of those zones.  It
    writes no map for a region without zones.  (The map widget and the
    file writes are taken to succeed.) *)
Theorem regional_main_maps (regions : list (string * Region))
    (all_zones : GeoDataFrame G) :
  has_column "COUNTY" all_zones →
  ∃ maps,
    outcomeL (main_for regions (inr all_zones)) = inr maps ∧
    Forall2 (λ (region : string * Region) (pm : string * RegionalMap),
               pm.1 = output_path region.1 ∧
               prepare_for_json (Some (zones_of_region all_zones region.2)) =
                 Some (layer pm.2) ∧
               legend_name pm.2 = region_name region.2 ∧
               legend_count pm.2 = len (zones_of_region all_zones region.2) ∧
               rows (layer pm.2) ≠ [])
            (List.filter (λ region : string * Region,
                            negb (bool_decide (len (zones_of_region all_zones region.2) = 0)))
                         regions)
            maps.
Proof.
  intros Hcol. rewrite regional_main_outcome.
  exact (region_loop_collects all_zones regions [] Hcol).
Qed.

Lemma NoDup_flat_map_disjoint {A B} (f : A → list B) (l : list A) (x y : A) (s : B) :
  NoDup (flat_map f l) → x ∈ l → y ∈ l → x ≠ y → s ∈ f x → s ∉ f y.
Proof.
  induction l as [|a l IH]; simpl; intros Hnd Hx Hy Hxy Hsx Hsy.
  - by apply elem_of_nil in Hx.
  - apply NoDup_app in Hnd as (_ & Hdis & Hnd).
    assert (Hflat : ∀ z, z ∈ l → s ∈ f z → s ∈ flat_map f l).
    { intros z Hz Hs. apply list_elem_of_In, in_flat_map. exists z.
      by rewrite <- !list_elem_of_In. }
    apply elem_of_cons in Hx as [->|Hx]; apply elem_of_cons in Hy as [->|Hy].
    + done.
    + apply (Hdis s Hsx). by apply (Hflat y).
    + apply (Hdis s Hsy). by apply (Hflat x).
    + by apply (IH Hnd Hx Hy Hxy Hsx).
Qed.

Lemma REGIONS_counties_NoDup :
  NoDup (flat_map (λ region : string * Region, region_counties region.2) REGIONS).
Proof. apply (bool_decide_unpack _). by vm_compute. Qed.

Lemma Forall2_elem_of_r {A B} (P : A → B → Prop) (l : list A) (k : list B) (y : B) :
  Forall2 P l k → y ∈ k → ∃ x, x ∈ l ∧ P x y.
Proof.
  induction 1 as [|x y' l k Hxy _ IH]; intros Hy.
  - by apply elem_of_nil in Hy.
  - apply elem_of_cons in Hy as [->|Hy].
    + exists x. split; [by left|done].
    + destruct (IH Hy) as (x' & ? & ?). exists x'. split; [by right|done].
Qed.

Lemma layer_counties all_zones (region : Region) (layer : GeoDataFrame G) r :
  prepare_for_json (Some (zones_of_region all_zones region)) = Some layer →
  r ∈ rows layer →
  ∃ s, attrs r !! "COUNTY" = Some (VStr s) ∧ s ∈ region_counties region.
Proof.
  unfold prepare_for_json. simpl. intros [= <-] Hr.
  destruct (prepare_fold_spec (columns (zones_of_region all_zones region))
              (zones_of_region all_zones region)) as (_ & _ & Hrows).
  destruct (Forall2_elem_of_r _ _ _ r Hrows Hr) as (r0 & Hr0 & _ & Hattrs).
  simpl in Hr0. apply list_elem_of_In, filter_In in Hr0 as [_ Hin].
  unfold isin in Hin. rewrite Hattrs.
  destruct (attrs r0 !! "COUNTY") as [[s| | |]|]; try done.
  apply bool_decide_eq_true in Hin. exists s. split; [|done].
  by destruct (converted _ _ _).
Qed.

(** X23.  The regional maps [main] of build_regional_maps.py writes share
    no zone: the COUNTY of a row of one map is never the COUNTY of a row
    of another map, because no county code is listed under two regions. *)
Theorem regional_maps_disjoint (all_zones : GeoDataFrame G)
    (maps : list (string * RegionalMap)) :
  outcomeL (main (inr all_zones)) = inr maps →
  ∀ pm1 pm2 r1 r2,
    pm1 ∈ maps → pm2 ∈ maps → pm1.1 ≠ pm2.1 →
    r1 ∈ rows (layer pm1.2) → r2 ∈ rows (layer pm2.2) →
    attrs r1 !! "COUNTY" ≠ attrs r2 !! "COUNTY".
Proof.
  intros Hout pm1 pm2 r1 r2 H1 H2 Hpath Hr1 Hr2 Heq.
  destruct (decide ("COUNTY" ∈ (dtypes all_zones).*1)) as [Hcol|Hcol].
  - destruct (region_loop_collects all_zones REGIONS [] Hcol) as (maps' & Hmain & Hall).
    unfold main in Hout. rewrite regional_main_outcome, Hmain in Hout.
    injection Hout as <-.
    destruct (Forall2_elem_of_r _ _ _ pm1 Hall H1) as (reg1 & Hreg1 & Hp1 & Hl1 & _).
    destruct (Forall2_elem_of_r _ _ _ pm2 Hall H2) as (reg2 & Hreg2 & Hp2 & Hl2 & _).
    apply list_elem_of_In, filter_In in Hreg1 as [Hreg1 _].
    apply list_elem_of_In, filter_In in Hreg2 as [Hreg2 _].
    apply list_elem_of_In in Hreg1, Hreg2.
    destruct (layer_counties _ _ _ _ Hl1 Hr1) as (s1 & Hs1 & Hin1).
    destruct (layer_counties _ _ _ _ Hl2 Hr2) as (s2 & Hs2 & Hin2).
    rewrite Hs1, Hs2 in Heq. injection Heq as ->.
    apply (NoDup_flat_map_disjoint (λ region : string * Region, region_counties region.2)
             REGIONS reg1 reg2 s2 REGIONS_counties_NoDup Hreg1 Hreg2); [|done|done].
    intros ->. apply Hpath. by rewrite Hp1, Hp2.
  - unfold main, main_for, REGIONS in Hout. cbn [region_loop] in Hout.
    rewrite outcomeL_bind in Hout. unfold callL at 1 in Hout. cbn [outcomeL] in Hout.
    rewrite outcomeL_bind in Hout. unfold printL at 1 in Hout. cbn [outcomeL] in Hout.
    rewrite outcomeL_bind, outcomeL_bind in Hout. unfold printL at 1 in Hout.
    cbn [outcomeL] in Hout. rewrite outcomeL_bind in Hout.
    unfold callL at 1, getitem_isin in Hout. cbn [outcomeL] in Hout.
    by rewrite decide_False in Hout.
Qed.

(** X24.  [main] of build_regional_maps.py guards neither its input nor
    the COUNTY column.  When the input file cannot be read the reader's
    exception ends the run before the zone count is printed.  When the
    dataset has no COUNTY column the run ends in a [KeyError] for
    'COUNTY' at the first region, after two lines and without a map
    written, even when the dataset is empty. *)
Theorem regional_main_errors (regions : list (string * Region)) :
  (∀ e, main_for (G := G) regions (inl e) = MkRunL [] (inl e)) ∧
  (∀ all_zones region_key region_info regions',
     regions = (region_key, region_info) :: regions' →
     ¬ has_column "COUNTY" all_zones →
     main_for regions (inr all_zones) =
       MkRunL [Loaded (len all_zones); RegionHeader (region_name region_info)]
              (inl (KeyError "COUNTY"))).
Proof.
  split; [done|].
  intros all_zones key info regions' -> Hcol.
  unfold main_for, mbind, RunL_bind. cbn [region_loop callL printL outcomeL printedL].
  unfold mbind, RunL_bind, callL, getitem_isin. cbn [outcomeL printedL].
  rewrite decide_False by done. done.
Qed.

End RegionalMapsProperties.
Section OptimizedMapProperties.
Context {G : Type} `{!Geometry G} `{!Simplifier G} `{!TimestampFormat}.
Implicit Types (gdf zones : GeoDataFrame G) (r : Row G).

Import build_optimized_map.

Lemma prepare_column_map_geometry (f : G → G) gdf col :
  filter_zones_dominion.prepare_column (map_geometry f gdf) col =
  map_geometry f (filter_zones_dominion.prepare_column gdf col).
Proof.
  unfold filter_zones_dominion.prepare_column.
  destruct (decide _); [done|]. cbn [map_geometry dtypes].
  destruct (is_datetime64_any_dtype _); [|done].
  unfold column_astype_str, map_geometry. cbn [dtypes rows crs].
  f_equal. rewrite !map_map. by apply map_ext.
Qed.

Lemma prepare_fold_map_geometry (f : G → G) cols : ∀ gdf,
  foldl filter_zones_dominion.prepare_column (map_geometry f gdf) cols =
  map_geometry f (foldl filter_zones_dominion.prepare_column gdf cols).
Proof.
  induction cols as [|c cols IH]; intros gdf; [done|].
  cbn [foldl]. by rewrite prepare_column_map_geometry, IH.
Qed.

(** X25.  Simplifying the geometries and sanitizing the attributes can be
    done in either order: [prepare_for_json] of a simplified frame is the
    simplified [prepare_for_json] of the frame, for every tolerance. *)
Theorem prepare_for_json_simplify_commute gdf (tolerance : QArith_base.Q) :
  prepare_for_json (Some (simplify_geometry gdf tolerance)) =
  (λ g, simplify_geometry g tolerance) <$> prepare_for_json (Some gdf).
Proof.
  unfold prepare_for_json, filter_zones_dominion.prepare_for_json.
  cbn [fmap option_fmap option_map]. f_equal.
  exact (prepare_fold_map_geometry (simplify tolerance) (columns gdf) gdf).
Qed.






End OptimizedMapProperties.
Section CanvassingProperties.
Context {G : Type} `{!Geometry G}.
Variable read_file : Body G → Exn + GeoDataFrame G.
Implicit Types (net : Network G) (gdf : GeoDataFrame G).

Import canvassing_map_builder.

Lemma canvass_fetch_run net county_fips :
  fetch_census_tracts_for_county read_file net county_fips "51" =
  MkRunL
    match net "51" (last3 county_fips) with
    | NoResponse => [ErrorFetching county_fips ConnectionError]
    | HTTP status body =>
        if decide (status = 200%Z) then
          match read_file body with
          | inl e => [ErrorFetching county_fips e]
          | inr _ => []
          end
        else []
    end
    (inr (canvass_frame read_file net county_fips)).
Proof.
  unfold fetch_census_tracts_for_county, canvass_frame, try_exceptL.
  destruct (net "51" (last3 county_fips)) as [|status body]; [done|].
  cbn. destruct (decide (status = 200%Z)); [|done].
  by destruct (read_file body).
Qed.

(** X27.  [fetch_census_tracts_for_county] of canvassing_map_builder.py
    never raises.  It returns the frame the reader makes of the body of a
    200 answer, empty or not, and None in every other case; it prints at
    most one line, an error line, and then returns None; an answer with
    another status prints nothing. *)
Theorem canvass_fetch_never_raises net county_fips :
  let run := fetch_census_tracts_for_county read_file net county_fips "51" in
  outcomeL run = inr (canvass_frame read_file net county_fips) ∧
  (printedL run = [] ∨
   ∃ e, printedL run = [ErrorFetching county_fips e] ∧
        canvass_frame read_file net county_fips = None) ∧
  (∀ status body,
     net "51" (last3 county_fips) = HTTP status body → status ≠ 200%Z →
     run = MkRunL [] (inr None)).
Proof.
  intros run. unfold run. rewrite canvass_fetch_run. cbn [outcomeL printedL].
  split; [done|]. unfold canvass_frame. split.
  - destruct (net "51" (last3 county_fips)) as [|status body].
    { right. by exists ConnectionError. }
    destruct (decide (status = 200%Z)); [|by left].
    destruct (read_file body) as [err|gdf]; [|by left].
    right. by exists err.
  - intros status body -> Hstatus. by destruct (decide (status = 200%Z)).
Qed.

Lemma canvass_fetch_loop_collects net fips : ∀ all_tracts,
  outcomeL (fetch_loop read_file net fips all_tracts) =
  inr (all_tracts ++ omap (canvass_frame read_file net) fips).
Proof.
  induction fips as [|county_fips fips IH]; intros acc.
  - cbn. by rewrite app_nil_r.
  - cbn [fetch_loop omap list_omap]. rewrite outcomeL_bind. unfold printL at 1.
    cbn [outcomeL]. rewrite outcomeL_bind, canvass_fetch_run. cbn [outcomeL].
    rewrite IH. destruct (canvass_frame read_file net county_fips); [|done].
    by rewrite <- app_assoc.
Qed.

Lemma canvass_main_outcome (counties qct_list : list string) net :
  outcomeL (main_for read_file counties qct_list net) =
  match omap (canvass_frame read_file net) (take 5 counties) with
  | [] => inr None
  | frames =>
      match pd_concat frames with
      | inl e => inl e
      | inr all_tracts_gdf =>
          match getitem_isin all_tracts_gdf "GEOID" qct_list with
          | inl e => inl e
          | inr lmi_zones => inr (Some lmi_zones)
          end
      end
  end.
Proof.
  unfold main_for. rewrite outcomeL_bind, canvass_fetch_loop_collects. cbn [app].
  destruct (omap _ _) as [|f fs]; [done|].
  rewrite outcomeL_bind. unfold callL at 1. cbn [outcomeL].
  destruct (pd_concat (f :: fs)) as [e|all]; [done|].
  rewrite outcomeL_bind. unfold printL at 1. cbn [outcomeL].
  rewrite outcomeL_bind. unfold callL at 1. cbn [outcomeL].
  destruct (getitem_isin all "GEOID" qct_list) as [e|lmi]; [done|].
  rewrite outcomeL_bind. by unfold printL at 1.
Qed.

(** X28.  Step 2 of [main] of canvassing_map_builder.py hands no LMI
    layer to the map exactly when none of the first five counties of the
    table gave a frame; whatever the later counties would give plays no
    part. *)
Theorem canvass_main_none_iff (counties qct_list : list string) net :
  outcomeL (main_for read_file counties qct_list net) = inr None ↔
  Forall (λ county_fips, canvass_frame read_file net county_fips = None)
         (take 5 counties).
Proof.
  rewrite canvass_main_outcome. split.
  - intros Hout. apply Forall_forall. intros c Hc.
    destruct (canvass_frame read_file net c) as [f|] eqn:Hf; [exfalso|done].
    assert (Hin : f ∈ omap (canvass_frame read_file net) (take 5 counties)).
    { apply list_elem_of_omap. by exists c. }
    destruct (omap _ _) as [|f0 fs]; [by apply elem_of_nil in Hin|].
    destruct (pd_concat (f0 :: fs)) as [|all]; [done|].
    by destruct (getitem_isin all "GEOID" qct_list).
  - intros Hall.
    assert (Hnil : omap (canvass_frame read_file net) (take 5 counties) = []).
    { induction Hall as [|c cs Hc _ IH]; [done|]. cbn. by rewrite Hc. }
    by rewrite Hnil.
Qed.

Lemma canvass_fetch_loop_ext net net' fips : ∀ all_tracts,
  (∀ county_fips, county_fips ∈ fips →
     net "51" (last3 county_fips) = net' "51" (last3 county_fips)) →
  fetch_loop read_file net fips all_tracts = fetch_loop read_file net' fips all_tracts.
Proof.
  induction fips as [|c fips IH]; intros acc Hnet; [done|].
  cbn [fetch_loop]. rewrite !canvass_fetch_run. unfold canvass_frame.
  rewrite (Hnet c) by by left.
  unfold mbind, RunL_bind. cbn [outcomeL printedL printL].
  destruct (net' "51" (last3 c)) as [|status body].
  - by rewrite IH by (intros; apply Hnet; by right).
  - destruct (decide (status = 200%Z)).
    + destruct (read_file body); by rewrite IH by (intros; apply Hnet; by right).
    + by rewrite IH by (intros; apply Hnet; by right).
Qed.

(** X29.  [main] of canvassing_map_builder.py queries the service for the
    first five counties of its table only, and by the last three
    characters of their codes: two runs print the same lines and end the
    same way whenever the tables start with the same five codes and the
    service answers those five queries alike. *)
Theorem canvass_main_first_five (counties counties' qct_list : list string) net net' :
  take 5 counties = take 5 counties' →
  (∀ county_fips, county_fips ∈ take 5 counties →
     net "51" (last3 county_fips) = net' "51" (last3 county_fips)) →
  main_for read_file counties qct_list net = main_for read_file counties' qct_list net'.
Proof.
  intros Htake Hnet. unfold main_for. rewrite <- Htake.
  by rewrite (canvass_fetch_loop_ext net net' (take 5 counties) [] Hnet).
Qed.

(** X30.  What step 2 of [main] of canvassing_map_builder.py ends with
    once the fetched frames could be concatenated.  When a fetched frame
    has a GEOID column the LMI layer holds the rows of the frames of the
    first five counties, county after county, whose identifier is in the
    eligibility list; a frame without rows is concatenated like any
    other, and the CRS is the one the frames share.  When no fetched
    frame has a GEOID column the run ends in an uncaught [KeyError] for
    'GEOID'. *)
Theorem canvass_main_result (counties qct_list : list string) net
    (all_tracts_gdf : GeoDataFrame G) :
  let frames := omap (canvass_frame read_file net) (take 5 counties) in
  pd_concat frames = inr all_tracts_gdf →
  (Exists (has_column "GEOID") frames →
   ∃ lmi_zones,
     outcomeL (main_for read_file counties qct_list net) = inr (Some lmi_zones) ∧
     rows lmi_zones =
       List.filter (λ r, isin (attrs r !! "GEOID") qct_list) (flat_map rows frames) ∧
     crs lmi_zones = crs all_tracts_gdf ∧
     ∀ s, s ∈ geoids lmi_zones → s ∈ qct_list) ∧
  (¬ Exists (has_column "GEOID") frames →
   outcomeL (main_for read_file counties qct_list net) = inl (KeyError "GEOID")).
Proof.
  intros frames Hcat. rewrite canvass_main_outcome. fold frames.
  assert (Hrows : rows all_tracts_gdf = flat_map rows frames).
  { revert Hcat. unfold pd_concat. destruct frames as [|f fs]; [done|].
    destruct (common_crs _); [done|]. by intros [= <-]. }
  destruct frames as [|f fs] eqn:Hfr; [done|]. rewrite Hcat. split.
  - intros Hex.
    assert (Hcol : has_column "GEOID" all_tracts_gdf) by by eapply concat_has_column.
    rewrite getitem_isin_rows by done. eexists. split; [done|]. cbn [rows crs].
    split; [by rewrite Hrows|]. split; [done|].
    intros s Hs. apply elem_of_geoids in Hs as (r & Hr & Hs). cbn [rows] in Hr.
    apply list_elem_of_In, filter_In in Hr as [_ Hr].
    apply isin_geoid in Hr as (s' & Hs' & Hin). congruence.
  - intros Hno.
    assert (Hcol : ¬ has_column "GEOID" all_tracts_gdf).
    { intros Hcol. apply Hno. by eapply concat_columns. }
    unfold getitem_isin. by rewrite decide_False.
Qed.

End CanvassingProperties.
(* ================================================================= *)
(** * More of the pipeline on concrete data *)

Import Atlas.

(** [main] of build_regional_maps.py on zones of two regions: two maps
    are written, the four other regions are skipped. *)
Example regional_maps_of_statewide :
  ∃ hampton_roads richmond,
    build_regional_maps.main (inr statewide) =
      MkRunL
        [build_regional_maps.Loaded 3;
         build_regional_maps.RegionHeader "Hampton Roads";
         build_regional_maps.Zones 2;
         build_regional_maps.Saved "regional_maps/emg_map_hampton_roads.html";
         build_regional_maps.RegionHeader "Richmond Metro";
         build_regional_maps.Zones 1;
         build_regional_maps.Saved "regional_maps/emg_map_richmond.html";
         build_regional_maps.RegionHeader "Petersburg & Southside";
         build_regional_maps.Zones 0; build_regional_maps.Skipping;
         build_regional_maps.RegionHeader "Lynchburg & Central VA";
         build_regional_maps.Zones 0; build_regional_maps.Skipping;
         build_regional_maps.RegionHeader "Northern Virginia";
         build_regional_maps.Zones 0; build_regional_maps.Skipping;
         build_regional_maps.RegionHeader "Northern Neck & Middle Peninsula";
         build_regional_maps.Zones 0; build_regional_maps.Skipping;
         build_regional_maps.SavedIndex]
        (inr [("regional_maps/emg_map_hampton_roads.html", hampton_roads);
              ("regional_maps/emg_map_richmond.html", richmond)]) ∧
    rows (build_regional_maps.layer hampton_roads) = [X001; X003] ∧
    rows (build_regional_maps.layer richmond) = [X004] ∧
    build_regional_maps.tooltip_fields hampton_roads = ["NAME"; "GEOID"] ∧
    build_regional_maps.tooltip_aliases hampton_roads = ["Tract:"; "GEOID:"].
Proof.
  eexists _, _. split; [vm_compute; reflexivity|]. repeat split; vm_compute; reflexivity.
Qed.

(** [main] of build_optimized_map.py on a layer with a datetime column:
    the column is not among the four kept. *)
Example optimized_map_of_dated :
  build_optimized_map.main (inr dated) =
  inr (MkFrame [("GEOID", DObject)]
         [MkRow (<["GEOID" := VStr "X001"]> ∅) (box 0 0 2 2);
          MkRow (<["GEOID" := VStr "X002"]> ∅) (box 2 0 2 2)]
         (Some EPSG_4326)).
Proof. vm_compute. reflexivity. Qed.

(** Step 2 of [main] of canvassing_map_builder.py against a service that
    knows two of the first five counties; the eligibility list holds none
    of the identifiers fetched. *)
Example canvassing_main_of_richmond :
  canvassing_map_builder.main read_geojson net_richmond =
  MkRunL
    [canvassing_map_builder.FetchingCounty "51041";
     canvassing_map_builder.FetchingCounty "51087";
     canvassing_map_builder.FetchingCounty "51760";
     canvassing_map_builder.FetchingCounty "51036";
     canvassing_map_builder.FetchingCounty "51570";
     canvassing_map_builder.TotalFetched 3;
     canvassing_map_builder.QualifyingTracts 0]
    (inr (Some (MkFrame [("GEOID", DObject); ("COUNTY", DObject); ("NAME", DObject)] []
                        (Some EPSG_4326)))).
Proof. vm_compute. reflexivity. Qed.

(* ----------------------------------------------------------------- *)
(** ** The further theorems at concrete inputs *)

(** Unit A has no datetime column. *)
Lemma prepare_for_json_no_datetime_witness :
  no_datetime unit_A ∧ prepare_for_json (Some unit_A) = Some unit_A.
Proof.
  assert (Hno : no_datetime unit_A) by (repeat constructor; discriminate).
  split; [exact Hno|]. exact (prepare_for_json_no_datetime unit_A Hno).
Defined.

(** A tract and a street in one layer. *)
Lemma clip_to_boundary_mixed_types_witness :
  mixed_geometry_types (map geometry (rows mixed_layer)) = true ∧
  clip_to_boundary (Some mixed_layer) (Some territory) "Streets" =
    MkRun [ErrorClipping "Streets" NotImplementedError] (inr None).
Proof.
  assert (Hmixed : mixed_geometry_types (map geometry (rows mixed_layer)) = true)
    by reflexivity.
  split; [exact Hmixed|].
  exact (clip_to_boundary_mixed_types mixed_layer territory "Streets" (or_introl Hmixed)).
Defined.

(** Unit B against the territory: X002 lies within, X003 half outside. *)
Lemma clip_to_boundary_provenance_witness :
  ∃ out,
    outcome (clip_to_boundary (Some unit_B) (Some territory) "QCT Zones") =
      inr (Some out) ∧
    len out = 2 ∧
    dtypes out = dtypes unit_B ∧ crs out = crs unit_B ∧
    ∀ r', r' ∈ rows out →
      ∃ r b, r ∈ rows unit_B ∧ b ∈ rows territory ∧
             attrs r' = attrs r ∧
             geometry r' = intersection (geometry r) (geometry b) ∧
             is_empty (geometry r') = false.
Proof.
  eexists. split; [vm_compute; reflexivity|]. split; [reflexivity|].
  apply (clip_to_boundary_provenance unit_B territory "QCT Zones").
  vm_compute. reflexivity.
Defined.

Lemma clip_to_boundary_single_boundary_witness :
  ∃ out,
    outcome (clip_to_boundary (Some unit_B) (Some territory) "QCT Zones") =
      inr (Some out) ∧
    map attrs (rows out) `sublist_of` map attrs (rows unit_B) ∧
    geoids out `sublist_of` geoids unit_B ∧
    (NoDup (geoids unit_B) → NoDup (geoids out)) ∧
    (len out <= len unit_B)%nat.
Proof.
  eexists. split; [vm_compute; reflexivity|].
  apply (clip_to_boundary_single_boundary unit_B territory_polygon [] (Some EPSG_4326)
           "QCT Zones").
  vm_compute. reflexivity.
Defined.

(** Unit B, the territory and the list of X003. *)
Lemma clip_then_filter_is_filter_then_clip_witness :
  polygonal unit_B ∧ polygonal territory ∧ has_column "GEOID" unit_B ∧
  ∃ clipped filtered out,
    outcome (clip_to_boundary (Some unit_B) (Some territory) "QCT Zones") =
      inr (Some clipped) ∧
    getitem_isin clipped "GEOID" ["X003"] = inr out ∧
    getitem_isin unit_B "GEOID" ["X003"] = inr filtered ∧
    outcome (clip_to_boundary (Some filtered) (Some territory) "QCT Zones") =
      inr (Some out).
Proof.
  assert (Hz : polygonal unit_B) by (repeat constructor).
  assert (Ht : polygonal territory) by (repeat constructor).
  assert (Hcol : has_column "GEOID" unit_B) by (by left).
  split; [exact Hz|]. split; [exact Ht|]. split; [exact Hcol|].
  exact (clip_then_filter_is_filter_then_clip unit_B territory ["X003"] "QCT Zones"
           Hz Ht Hcol).
Defined.

(** Zones in Web Mercator and streets in EPSG:4326 against the territory. *)
Lemma dominion_main_layers_crs_witness :
  ∃ layers,
    outcome (main (Some territory) (Some zones_3857) None (Some unit_B)) =
      inr (Some layers) ∧
    (∀ g, oz_clipped layers = Some g → crs g = Some (source_crs territory)) ∧
    (∀ g, qct_clipped layers = Some g → crs g = Some (source_crs territory)) ∧
    (∀ g, streets_gdf layers = Some g → crs g = Some (source_crs territory)) ∧
    crs (utility_gdf layers) = crs territory.
Proof.
  eexists. split; [vm_compute; reflexivity|].
  apply (dominion_main_layers_crs territory (Some zones_3857) None (Some unit_B)).
  vm_compute. reflexivity.
Defined.

(** County "550" of the service of three counties. *)
Lemma fetch_well_formed_features_witness :
  net_one_down "51" "550" = HTTP 200 (JSONObject (Some (features_of unit_A))) ∧
  ∃ gdf,
    build_full_territory_map.fetch_tracts_for_county net_one_down "51" "550" =
      MkRun [] (inr (Some gdf)) ∧
    ("51" = "51" →
     build_vipr_complete_map.fetch_all_tracts_for_county net_one_down "550" =
       MkRun [] (inr (Some gdf))) ∧
    crs gdf = Some EPSG_4326 ∧
    map Some (rows gdf) = map feature_row (features_of unit_A) ∧
    len gdf = length (features_of unit_A).
Proof.
  assert (Hnet : net_one_down "51" "550" =
                 HTTP 200 (JSONObject (Some (features_of unit_A)))) by reflexivity.
  split; [exact Hnet|].
  apply (fetch_well_formed_features net_one_down "51" "550" (features_of unit_A) Hnet).
  - discriminate.
  - repeat constructor.
Defined.

(** A service whose features carry no identifier. *)
Lemma full_main_key_error_witness :
  omap (county_frame net_no_geoid) (build_full_territory_map.county_codes ["X001"]) ≠ [] ∧
  outcome (build_full_territory_map.main_for ["X001"] net_no_geoid) =
    inl (KeyError "GEOID").
Proof.
  assert (Hne : omap (county_frame net_no_geoid)
                     (build_full_territory_map.county_codes ["X001"]) ≠ [])
    by (vm_compute; discriminate).
  split; [exact Hne|].
  apply (full_main_key_error ["X001"] net_no_geoid Hne).
  intros Hex. apply Exists_exists in Hex as (f & Hf & Hcol).
  vm_compute in Hf. apply list_elem_of_singleton in Hf. subst f.
  unfold has_column in Hcol. cbn in Hcol.
  apply list_elem_of_singleton in Hcol. discriminate.
Defined.

(** The end-to-end scenario. *)
Lemma full_main_needs_no_sanitizing_witness :
  ∃ lmi_zones,
    outcome (build_full_territory_map.main_for ["X001"; "X002"] net_two_units) =
      inr (Some lmi_zones) ∧
    no_datetime lmi_zones ∧
    prepare_for_json (Some lmi_zones) = Some lmi_zones.
Proof.
  eexists. split; [vm_compute; reflexivity|].
  apply (full_main_needs_no_sanitizing ["X001"; "X002"] net_two_units).
  vm_compute. reflexivity.
Defined.

(** Three counties, the second of which cannot be reached. *)
Lemma vipr_main_county_names_witness :
  ∃ all_zones,
    outcome (build_vipr_complete_map.main_for three_units net_one_down) =
      inr (Some all_zones) ∧
    len all_zones = 3 ∧
    has_column "COUNTY_NAME" all_zones ∧
    ∀ r, r ∈ rows all_zones →
      ∃ item tracts r0,
        item ∈ three_units ∧
        fetched (net_one_down "51" item.1) = Some tracts ∧ r0 ∈ rows tracts ∧
        attrs r = <["COUNTY_NAME" := VStr item.2]> (attrs r0) ∧
        geometry r = geometry r0.
Proof.
  eexists. split; [vm_compute; reflexivity|]. split; [reflexivity|].
  apply (vipr_main_county_names three_units net_one_down).
  vm_compute. reflexivity.
Defined.

(** Zones of two regions. *)
Lemma regional_main_maps_witness :
  has_column "COUNTY" statewide ∧
  ∃ maps,
    outcomeL (build_regional_maps.main_for build_regional_maps.REGIONS (inr statewide)) =
      inr maps ∧
    Forall2 (λ (region : string * build_regional_maps.Region)
               (pm : string * build_regional_maps.RegionalMap),
               pm.1 = build_regional_maps.output_path region.1 ∧
               build_regional_maps.prepare_for_json
                 (Some (zones_of_region statewide region.2)) =
                 Some (build_regional_maps.layer pm.2) ∧
               build_regional_maps.legend_name pm.2 =
                 build_regional_maps.region_name region.2 ∧
               build_regional_maps.legend_count pm.2 =
                 len (zones_of_region statewide region.2) ∧
               rows (build_regional_maps.layer pm.2) ≠ [])
            (List.filter (λ region : string * build_regional_maps.Region,
                            negb (bool_decide (len (zones_of_region statewide region.2) = 0)))
                         build_regional_maps.REGIONS)
            maps.
Proof.
  assert (Hcol : has_column "COUNTY" statewide) by (right; by left).
  split; [exact Hcol|].
  exact (regional_main_maps build_regional_maps.REGIONS statewide Hcol).
Defined.

Lemma regional_maps_disjoint_witness :
  ∃ maps,
    outcomeL (build_regional_maps.main (inr statewide)) = inr maps ∧
    length maps = 2 ∧
    ∀ pm1 pm2 r1 r2,
      pm1 ∈ maps → pm2 ∈ maps → pm1.1 ≠ pm2.1 →
      r1 ∈ rows (build_regional_maps.layer pm1.2) →
      r2 ∈ rows (build_regional_maps.layer pm2.2) →
      attrs r1 !! "COUNTY" ≠ attrs r2 !! "COUNTY".
Proof.
  eexists. split; [vm_compute; reflexivity|]. split; [reflexivity|].
  apply (regional_maps_disjoint statewide). vm_compute. reflexivity.
Defined.

(** Norfolk is the thirteenth county of the table: what the service
    answers for it makes no difference. *)
Lemma canvass_main_first_five_witness :
  net_richmond "51" "710" ≠ net_richmond_norfolk "51" "710" ∧
  canvassing_map_builder.main_for read_geojson
    canvassing_map_builder.DOMINION_COUNTIES_FIPS
    canvassing_map_builder.fetch_virginia_qct_list net_richmond =
  canvassing_map_builder.main_for read_geojson
    (take 5 canvassing_map_builder.DOMINION_COUNTIES_FIPS)
    canvassing_map_builder.fetch_virginia_qct_list net_richmond_norfolk.
Proof.
  split; [discriminate|].
  apply (canvass_main_first_five read_geojson
           canvassing_map_builder.DOMINION_COUNTIES_FIPS
           (take 5 canvassing_map_builder.DOMINION_COUNTIES_FIPS)
           canvassing_map_builder.fetch_virginia_qct_list
           net_richmond net_richmond_norfolk).
  - reflexivity.
  - intros county_fips Hin.
    change (county_fips ∈ ["51041"; "51087"; "51760"; "51036"; "51570"]) in Hin.
    rewrite !elem_of_cons in Hin.
    destruct Hin as [->|[->|[->|[->|[->|Hin]]]]];
      [reflexivity..|by apply elem_of_nil in Hin].
Defined.

(** The service that knows two of the first five counties, and the
    eligibility list of X003. *)
Lemma canvass_main_result_witness :
  ∃ all_tracts_gdf lmi_zones,
    pd_concat (omap (canvass_frame read_geojson net_richmond)
                    (take 5 canvassing_map_builder.DOMINION_COUNTIES_FIPS)) =
      inr all_tracts_gdf ∧
    outcomeL (canvassing_map_builder.main_for read_geojson
                canvassing_map_builder.DOMINION_COUNTIES_FIPS ["X003"] net_richmond) =
      inr (Some lmi_zones) ∧
    rows lmi_zones =
      List.filter (λ r, isin (attrs r !! "GEOID") ["X003"])
        (flat_map rows (omap (canvass_frame read_geojson net_richmond)
                             (take 5 canvassing_map_builder.DOMINION_COUNTIES_FIPS))) ∧
    crs lmi_zones = crs all_tracts_gdf ∧
    ∀ s, s ∈ geoids lmi_zones → s ∈ ["X003"].
Proof.
  assert (Hcat : ∃ all_tracts_gdf,
            pd_concat (omap (canvass_frame read_geojson net_richmond)
                            (take 5 canvassing_map_builder.DOMINION_COUNTIES_FIPS)) =
              inr all_tracts_gdf)
    by (eexists; vm_compute; reflexivity).
  destruct Hcat as [all_tracts_gdf Hcat].
  assert (Hex : Exists (has_column "GEOID")
                  (omap (canvass_frame read_geojson net_richmond)
                        (take 5 canvassing_map_builder.DOMINION_COUNTIES_FIPS))).
  { apply Exists_exists. eexists. split.
    - apply list_elem_of_omap. exists "51041". split; [by left|].
      vm_compute. reflexivity.
    - unfold has_column. apply list_elem_of_In. cbn. tauto. }
  destruct (proj1 (canvass_main_result read_geojson
                     canvassing_map_builder.DOMINION_COUNTIES_FIPS ["X003"] net_richmond
                     all_tracts_gdf Hcat) Hex)
    as (lmi_zones & Hout & Hrows & Hcrs & Hin).
  exists all_tracts_gdf, lmi_zones.
  split; [exact Hcat|]. split; [exact Hout|]. split; [exact Hrows|].
  split; [exact Hcrs|exact Hin].
Defined.
